(** * imarsman/timestamp: the tolerant ISO scanner, the dispatcher, the Unix
    decoder and the offset cache, embedded from [timestamp_parse.go],
    [timestamp.go] and [pkg/utility].

    Go strings are byte sequences ([string]); runes and machine integers are
    [Z].  Every numeric value the parser computes stays far below 2^63 (fields
    have at most nine digits, inputs at most 35 bytes on the ISO path, and the
    seconds part of a Unix timestamp at most ten characters), so [int]
    arithmetic is written on [Z] without wrap-around; the one byte-wide
    subtraction in [atoi2]/[atoi4] is written with its wrap. *)

From Stdlib Require Import ZArith Ascii String List Bool Lia.
From stdpp Require Import gmap.
Import ListNotations.
Local Open Scope Z_scope.

(* ===================================================================== *)
(** ** Go strings, UTF-8 and the [unicode] predicates the scanner calls *)
(* ===================================================================== *)

Module GoString.

Abbreviation rune := Z (only parsing).

Definition byteOf (a : ascii) : Z := Z.of_N (N_of_ascii a).

Fixpoint bytes (s : string) : list Z :=
  match s with
  | EmptyString => []
  | String a r => byteOf a :: bytes r
  end.

Definition asciiOfByte (b : Z) : ascii := ascii_of_N (Z.to_N b).

Fixpoint ofBytes (bs : list Z) : string :=
  match bs with
  | [] => EmptyString
  | b :: r => String (asciiOfByte b) (ofBytes r)
  end.

(** [len(s)]: the number of bytes. *)
Definition len (s : string) : Z := Z.of_nat (String.length s).

(** [s[lo:hi]]; Go panics unless [0 <= lo <= hi <= len(s)]. *)
Definition slice (s : string) (lo hi : Z) : option string :=
  if (0 <=? lo) && (lo <=? hi) && (hi <=? len s)
  then Some (String.substring (Z.to_nat lo) (Z.to_nat (hi - lo)) s)
  else None.

Definition RuneError : rune := 0xFFFD.
Definition MaxASCII : rune := 0x7F.
Definition MaxLatin1 : rune := 0xFF.

Definition between (lo hi x : Z) : bool := (lo <=? x) && (x <=? hi).
Definition isCont (b : Z) : bool := between 0x80 0xBF b.

(** [utf8.DecodeRuneInString]: the rune at the head of [bs] and its width.
    Ill-formed or truncated sequences decode to [RuneError] of width 1. *)
Definition utf8_DecodeRune (bs : list Z) : rune * nat :=
  match bs with
  | [] => (RuneError, 0%nat)
  | b0 :: t =>
    if b0 <? 0x80 then (b0, 1%nat)
    else if between 0xC2 0xDF b0 then
      match t with
      | b1 :: _ =>
        if isCont b1
        then (Z.lor (Z.shiftl (Z.land b0 0x1F) 6) (Z.land b1 0x3F), 2%nat)
        else (RuneError, 1%nat)
      | _ => (RuneError, 1%nat)
      end
    else if between 0xE0 0xEF b0 then
      let lo := if b0 =? 0xE0 then 0xA0 else 0x80 in
      let hi := if b0 =? 0xED then 0x9F else 0xBF in
      match t with
      | b1 :: b2 :: _ =>
        if between lo hi b1 && isCont b2
        then (Z.lor (Z.shiftl (Z.land b0 0x0F) 12)
                (Z.lor (Z.shiftl (Z.land b1 0x3F) 6) (Z.land b2 0x3F)), 3%nat)
        else (RuneError, 1%nat)
      | _ => (RuneError, 1%nat)
      end
    else if between 0xF0 0xF4 b0 then
      let lo := if b0 =? 0xF0 then 0x90 else 0x80 in
      let hi := if b0 =? 0xF4 then 0x8F else 0xBF in
      match t with
      | b1 :: b2 :: b3 :: _ =>
        if between lo hi b1 && isCont b2 && isCont b3
        then (Z.lor (Z.shiftl (Z.land b0 0x07) 18)
                (Z.lor (Z.shiftl (Z.land b1 0x3F) 12)
                   (Z.lor (Z.shiftl (Z.land b2 0x3F) 6) (Z.land b3 0x3F))), 4%nat)
        else (RuneError, 1%nat)
      | _ => (RuneError, 1%nat)
      end
    else (RuneError, 1%nat)
  end.

(** [for i, r := range s]: the byte offset and the rune of each iteration.
    [skip] counts the continuation bytes of the rune just produced. *)
Fixpoint rangeFrom (i : Z) (skip : nat) (bs : list Z) : list (Z * rune) :=
  match bs with
  | [] => []
  | _ :: t =>
    match skip with
    | S k => rangeFrom (i + 1) k t
    | O => let '(r, w) := utf8_DecodeRune bs in
           (i, r) :: rangeFrom (i + 1) (Nat.pred w) t
    end
  end.

Definition range (s : string) : list (Z * rune) := rangeFrom 0 0 (bytes s).

(** [utf8.AppendRune] / [strings.Builder.WriteRune]. *)
Definition utf8_EncodeRune (r : rune) : list Z :=
  if between 0 0x7F r then [r]
  else if between 0x80 0x7FF r then
    [Z.lor 0xC0 (Z.shiftr r 6); Z.lor 0x80 (Z.land r 0x3F)]
  else if (r <? 0) || (0x10FFFF <? r) || between 0xD800 0xDFFF r then
    [0xEF; 0xBF; 0xBD]
  else if r <=? 0xFFFF then
    [Z.lor 0xE0 (Z.shiftr r 12); Z.lor 0x80 (Z.land (Z.shiftr r 6) 0x3F);
     Z.lor 0x80 (Z.land r 0x3F)]
  else
    [Z.lor 0xF0 (Z.shiftr r 18); Z.lor 0x80 (Z.land (Z.shiftr r 12) 0x3F);
     Z.lor 0x80 (Z.land (Z.shiftr r 6) 0x3F); Z.lor 0x80 (Z.land r 0x3F)].

(** [unicode.IsSpace]: the Latin-1 switch of the Go source, then the
    White_Space table. *)
Definition unicode_IsSpace (r : rune) : bool :=
  if r <=? MaxLatin1 then
    between 0x09 0x0D r || (r =? 0x20) || (r =? 0x85) || (r =? 0xA0)
  else
    (r =? 0x1680) || between 0x2000 0x200A r || between 0x2028 0x2029 r
    || (r =? 0x202F) || (r =? 0x205F) || (r =? 0x3000).

(** [unicode.ToUpper].  ASCII is the Go source's fast path.  Above ASCII Go
    consults its case tables; their only ASCII images are U+0131 -> 'I' and
    U+017F -> 'S'.  The parser only compares the result with 'T' and 'Z', so
    every other rune above ASCII is left in place. *)
Definition unicode_ToUpper (r : rune) : rune :=
  if r <=? MaxASCII then
    if between 0x61 0x7A r then r - 0x20 else r
  else if r =? 0x131 then 0x49
  else if r =? 0x17F then 0x53
  else r.

Definition isAsciiDigit (b : Z) : bool := between 0x30 0x39 b.

(** [strings.TrimSpace]: leading and trailing runes satisfying
    [unicode.IsSpace] are removed. *)
Definition firstNonSpace (es : list (Z * rune)) (n : Z) : Z :=
  match find (fun e => negb (unicode_IsSpace (snd e))) es with
  | Some e => fst e
  | None => n
  end.

Fixpoint lastNonSpaceEnd (es : list (Z * rune)) (n acc : Z) : Z :=
  match es with
  | [] => acc
  | e :: t =>
    let stop := match t with e' :: _ => fst e' | [] => n end in
    lastNonSpaceEnd t n (if unicode_IsSpace (snd e) then acc else stop)
  end.

Definition strings_TrimSpace (s : string) : string :=
  let es := range s in
  let start := firstNonSpace es (len s) in
  let stop := lastNonSpaceEnd es (len s) start in
  String.substring (Z.to_nat start) (Z.to_nat (stop - start)) s.

(** [strings.SplitN(s, ".", 2)]: cut at the first dot, if any. *)
Fixpoint splitDot (bs : list Z) : list Z * option (list Z) :=
  match bs with
  | [] => ([], None)
  | b :: t =>
    if b =? 0x2E then ([], Some t)
    else let '(l, r) := splitDot t in (b :: l, r)
  end.

End GoString.
Export GoString.

(* ===================================================================== *)
(** ** The regular expressions of the dispatcher *)
(* ===================================================================== *)

Module Regex.

(** The fragment of RE2 syntax the repository uses, anchored at both ends
    ([^] ... [$]): byte classes, [x+] over a class, [x?] and concatenation. *)
Inductive re :=
| Class (p : Z -> bool)
| PlusClass (p : Z -> bool)
| Opt (r : re)
| Seq (r1 r2 : re).

Fixpoint rmatch (r : re) (bs : list Z) : bool :=
  match r with
  | Class p => match bs with [b] => p b | _ => false end
  | PlusClass p => match bs with [] => false | _ => forallb p bs end
  | Opt r' => match bs with [] => true | _ => rmatch r' bs end
  | Seq r1 r2 =>
    existsb (fun k => rmatch r1 (firstn k bs) && rmatch r2 (skipn k bs))
            (seq 0 (S (length bs)))
  end.

Definition digit : Z -> bool := isAsciiDigit.
Definition dot (b : Z) : bool := b =? 0x2E.

(** [reDigits = regexp.MustCompile(`^\d+\.?\d+$`)] *)
Definition reDigits : re :=
  Seq (PlusClass digit) (Seq (Opt (Class dot)) (PlusClass digit)).

(** The specification's [^\d+(\.\d+)?$]. *)
Definition reSpecDigits : re :=
  Seq (PlusClass digit) (Opt (Seq (Class dot) (PlusClass digit))).

Definition MatchString (r : re) (s : string) : bool := rmatch r (bytes s).

End Regex.
Export Regex.

(* ===================================================================== *)
(** ** Results and errors *)
(* ===================================================================== *)

Inductive Field := Year | Month | Day | Hour | Minute | Second.

(** The error values the package builds.  Messages are assembled with
    [pkg/xfmt]; each constructor keeps the data its message is built from. *)
Inductive Error :=
| InputTooLong (shown : string) (timeStrLength : Z)
| UnparsedCharacter (unparsed : list (rune * Z)) (timeStr : string)
| AmbiguousZoneLength (zoneLen : Z)
| FieldLengthMismatch (f : Field)
| CannotParseNumber
| StrconvSyntax (num : list Z)
| StrconvRange (num : list Z)
| OffsetNotOnQuarterHour (offsetM : Z)
| ISOParseFailure (timeStr : string)
| UnixParseFailure (timeStr : string)
| UnixDecodeFailure (timeStr : string)
| NoFallbackFormatMatched (timeStr : string).

(** A call returns a value, returns an error, or panics (Go's run-time
    checks on indexing and slicing). *)
Inductive outcome (A : Type) :=
| Ok (a : A)
| Err (e : Error)
| Panic.
Arguments Ok {A} a.
Arguments Err {A} e.
Arguments Panic {A}.

Definition obind {A B} (x : outcome A) (k : A -> outcome B) : outcome B :=
  match x with
  | Ok a => k a
  | Err e => Err e
  | Panic => Panic
  end.

Notation "x <- c1 ;; c2" := (obind c1 (fun x => c2))
  (at level 63, c1 at next level, c2 at level 200, right associativity).

Definition isOk {A} (x : outcome A) : bool :=
  match x with Ok _ => true | _ => false end.

(* ===================================================================== *)
(** ** The numeric decoders *)
(* ===================================================================== *)

Module Numeric.

(** [int(in[k]-'0')]: the subtraction is on [byte], so it wraps. *)
Definition digitVal (b : Z) : Z := (b - 0x30) mod 256.

Definition tooBig (a : Z) : bool := (a <? 0) || (9 <? a).

(** [atoi2]: a string of length 2 to int.  [in[1]] panics on a shorter one. *)
Definition atoi2 (i : list Z) : outcome Z :=
  match i with
  | i0 :: i1 :: _ =>
    let a := digitVal i0 in
    let b := digitVal i1 in
    if tooBig a || tooBig b then Err CannotParseNumber
    else Ok (a * 10 + b)
  | _ => Panic
  end.

(** [atoi4]: a string of length 4 to int. *)
Definition atoi4 (i : list Z) : outcome Z :=
  match i with
  | i0 :: i1 :: i2 :: i3 :: _ =>
    let a := digitVal i0 in
    let b := digitVal i1 in
    let c := digitVal i2 in
    let d := digitVal i3 in
    if tooBig a || tooBig b || tooBig c || tooBig d then Err CannotParseNumber
    else Ok (a * 1000 + b * 100 + c * 10 + d)
  | _ => Panic
  end.

(** [utility.RunesToString] *)
Definition RunesToString (runes : list rune) : list Z :=
  flat_map utf8_EncodeRune runes.

(** Base-10 value of a run of ASCII digits, most significant first. *)
Definition decimal (ds : list Z) : Z :=
  fold_left (fun acc b => acc * 10 + (b - 0x30)) ds 0.

Definition maxInt64 : Z := 2 ^ 63 - 1.
Definition minInt64 : Z := - 2 ^ 63.

(** [strconv.ParseInt(s, 10, 64)] (and [strconv.Atoi] on a 64-bit [int]):
    an optional sign, then one or more ASCII digits; the value must fit. *)
Definition strconv_ParseInt (s : list Z) : outcome Z :=
  let '(neg, ds) :=
    match s with
    | b :: t => if b =? 0x2D then (true, t)
                else if b =? 0x2B then (false, t) else (false, s)
    | [] => (false, s)
    end in
  match ds with
  | [] => Err (StrconvSyntax s)
  | _ =>
    if forallb isAsciiDigit ds then
      let v := if neg : bool then - decimal ds else decimal ds in
      if (minInt64 <=? v) && (v <=? maxInt64) then Ok v
      else Err (StrconvRange s)
    else Err (StrconvSyntax s)
  end.

Definition strconv_Atoi := strconv_ParseInt.

End Numeric.
Export Numeric.

(* ===================================================================== *)
(** ** Locations, instants and the calendar of package [time] *)
(* ===================================================================== *)

Module GoTime.

(** A [*time.Location]: UTC, the process's local zone, a fixed zone built by
    [time.FixedZone], or a zone loaded by name. *)
Inductive Location :=
| UTC
| Local
| FixedZone (name : string) (offset : Z)
| Named (name : string).

(** An instant: seconds and nanoseconds since the Unix epoch, and the
    location it is presented in. *)
Record Time := mkTime { unixSec : Z; nsec : Z; loc : Location }.

(** [t.In(loc)] *)
Definition In (t : Time) (l : Location) : Time :=
  mkTime (unixSec t) (nsec t) l.

(** Two times denote the same instant ([Time.Equal]). *)
Definition sameInstant (a b : Time) : Prop :=
  unixSec a = unixSec b /\ nsec a = nsec b.

Definition alpha : Z := - 2 ^ 63.
Definition omega : Z := 2 ^ 63 - 1.

(** [utility.Norm] (a copy of [time.norm]): [nhi * base + nlo = hi * base + lo]
    and [0 <= nlo < base]. *)
Definition Norm (hi lo base : Z) : Z * Z :=
  let '(hi, lo) :=
    if lo <? 0 then
      let n := Z.quot (- lo - 1) base + 1 in (hi - n, lo + n * base)
    else (hi, lo) in
  if lo >=? base then
    let n := Z.quot lo base in (hi + n, lo - n * base)
  else (hi, lo).

(** [utility.DaysBefore] *)
Definition DaysBefore : list Z :=
  [0; 31; 59; 90; 120; 151; 181; 212; 243; 273; 304; 334; 365].

Definition daysBefore (k : Z) : Z := nth (Z.to_nat k) DaysBefore 0.

Definition isLeap (year : Z) : bool :=
  (year mod 4 =? 0) && (negb (year mod 100 =? 0) || (year mod 400 =? 0)).

Definition daysPer400Years : Z := 365 * 400 + 97.
Definition daysPer100Years : Z := 365 * 100 + 24.
Definition daysPer4Years : Z := 365 * 4 + 1.
Definition secondsPerDay : Z := 86400.

(** Days from 0001-01-01 to January 1 of [year] ([time.daysSinceEpoch],
    counted from year 1 instead of Go's absolute zero year). *)
Definition daysSinceEpoch (year : Z) : Z :=
  let y := year - 1 in
  let n := y / 400 in
  let y := y - 400 * n in
  let d := daysPer400Years * n in
  let n := y / 100 in
  let y := y - 100 * n in
  let d := d + daysPer100Years * n in
  let n := y / 4 in
  let y := y - 4 * n in
  let d := d + daysPer4Years * n in
  d + 365 * y.

(** Days from 0001-01-01 to 1970-01-01. *)
Definition unixEpochDays : Z := 719162.

End GoTime.
Export GoTime.

(** What the embedding takes from the Go run time and standard library
    without modelling it: the Nd table behind [unicode.IsDigit] above
    Latin-1, the time-zone database, [time.ParseInLocation] on the layouts
    and inputs that the embedding of its parser ([Layout], below) leaves
    open, and the [float64] product of [parseUnixTS] when the exponent is
    negative. *)
Class GoLib := {
  isDigitWide : rune -> bool;
  tzLookup : Location -> Z -> Z * Z * Z;
  libParseInLocation : string -> string -> Location -> option Time;
  floatShrink : Z -> Z -> Z
}.

Module Calendar.
Section WithLib.
Context `{GoLib}.

(** [Location.lookup]: the offset in force at [unix] and the interval
    [start, end) over which it holds. *)
Definition zoneLookup (l : Location) (unix : Z) : Z * Z * Z :=
  match l with
  | UTC => (0, alpha, omega)
  | FixedZone _ offset => (offset, alpha, omega)
  | _ => tzLookup l unix
  end.

Definition zoneOffset (l : Location) (unix : Z) : Z :=
  fst (fst (zoneLookup l unix)).

(** The day number of a date: the middle of [time.Date]. *)
Definition civilDays (year month day : Z) : Z :=
  let d := daysSinceEpoch year in
  let d := d + daysBefore (month - 1) in
  let d := if isLeap year && (3 <=? month) then d + 1 else d in
  d + (day - 1).

(** Seconds since 0001-01-01T00:00:00 of the wall clock reading
    [year-month-day hour:min:sec], after Go's normalisation of out-of-range
    fields (the first half of [time.Date]). *)
Definition wallSeconds (year month day hour min sec nsec : Z) : Z * Z :=
  let m := month - 1 in
  let '(year, m) := Norm year m 12 in
  let month := m + 1 in
  let '(sec, nsec) := Norm sec nsec 1000000000 in
  let '(min, sec) := Norm min sec 60 in
  let '(hour, min) := Norm hour min 60 in
  let '(day, hour) := Norm day hour 24 in
  let d := civilDays year month day in
  let abs := d * secondsPerDay in
  (abs + (hour * 3600 + min * 60 + sec), nsec).

(** [time.Date] *)
Definition time_Date (year month day hour min sec nsec : Z) (l : Location)
  : Time :=
  let '(abs, nsec) := wallSeconds year month day hour min sec nsec in
  let unix := abs - unixEpochDays * secondsPerDay in
  let '(offset, start, stop) := zoneLookup l unix in
  let unix :=
    if offset =? 0 then unix
    else
      let utc := unix - offset in
      let offset :=
        if (utc <? start) || (utc >=? stop) then zoneOffset l utc else offset in
      unix - offset in
  mkTime unix nsec l.

(** [time.Unix]: the result is in the local zone. *)
Definition time_Unix (sec nsec : Z) : Time :=
  let '(sec, nsec) :=
    if (nsec <? 0) || (nsec >=? 1000000000) then
      let n := Z.quot nsec 1000000000 in
      let sec := sec + n in
      let nsec := nsec - n * 1000000000 in
      if nsec <? 0 then (sec - 1, nsec + 1000000000) else (sec, nsec)
    else (sec, nsec) in
  mkTime sec nsec Local.

(** Wall-clock seconds since 0001-01-01 in the time's own location
    ([Time.abs]). *)
Definition absSeconds (t : Time) : Z :=
  unixSec t + zoneOffset (loc t) (unixSec t) + unixEpochDays * secondsPerDay.

(** The tail of [absDate]: the date at day [d] of the 400-year cycle that
    starts [y] years after year 1. *)
Definition dateInCycle (y d : Z) : Z * Z * Z :=
  let n := d / daysPer100Years in
  let n := n - Z.shiftr n 2 in
  let y := y + 100 * n in
  let d := d - daysPer100Years * n in
  let n := d / daysPer4Years in
  let y := y + 4 * n in
  let d := d - daysPer4Years * n in
  let n := d / 365 in
  let n := n - Z.shiftr n 2 in
  let y := y + n in
  let d := d - 365 * n in
  let year := y + 1 in
  let day := d in
  if isLeap year && (day =? 31 + 29 - 1) then (year, 2, 29)
  else
    let day := if isLeap year && (31 + 29 - 1 <? day) then day - 1 else day in
    let month := day / 31 in
    let stop := daysBefore (month + 1) in
    let '(month, begin) :=
      if day >=? stop then (month + 1, stop) else (month, daysBefore month) in
    (year, month + 1, day - begin + 1).

(** [absDate]: year, month and day of month of a day number counted from
    0001-01-01. *)
Definition absDate (days : Z) : Z * Z * Z :=
  let n := days / daysPer400Years in
  dateInCycle (400 * n) (days - daysPer400Years * n).

(** [Time.Date] and [Time.Clock] *)
Definition Date (t : Time) : Z * Z * Z := absDate (absSeconds t / secondsPerDay).

Definition Clock (t : Time) : Z * Z * Z :=
  let sec := absSeconds t mod secondsPerDay in
  let hour := sec / 3600 in
  let sec := sec - hour * 3600 in
  let min := sec / 60 in
  (hour, min, sec - min * 60).

(** [Time.Weekday]: 0 is Sunday; 0001-01-01 was a Monday. *)
Definition Weekday (t : Time) : Z :=
  (absSeconds t / secondsPerDay + 1) mod 7.

End WithLib.
End Calendar.
Export Calendar.

(* ===================================================================== *)
(** ** The offset location cache *)
(* ===================================================================== *)

Module Cache.

(** The map held by [locationAtomic].  A miss writes into the loaded map and
    stores that same map back, so one store threaded through the calls is the
    sequential behaviour. *)
Abbreviation zones := (gmap Z Location).

(** [LocationFromOffset] *)
Definition LocationFromOffset (offsetSec : Z) (cachedZones : zones)
  : Location * zones :=
  match cachedZones !! offsetSec with
  | Some l =>
    (l, if 50 <? Z.of_nat (size cachedZones) then ∅ else cachedZones)
  | None =>
    let location := FixedZone "FixedZone" offsetSec in
    (location, <[offsetSec := location]> cachedZones)
  end.

(** State after looking up each offset of [offs] in turn. *)
Fixpoint lookupAll (offs : list Z) (c : zones) : zones :=
  match offs with
  | [] => c
  | o :: t => lookupAll t (snd (LocationFromOffset o c))
  end.

(** [ZoneFromHM] *)
Definition ZoneFromHM (offsetH offsetM : Z) (c : zones) : Location * zones :=
  let offsetM := if offsetM <? 0 then - offsetM else offsetM in
  LocationFromOffset (offsetH * 60 * 60 + offsetM * 60) c.

End Cache.
Export Cache.

(* ===================================================================== *)
(** ** The ISO scanner *)
(* ===================================================================== *)

Module Scanner.

Inductive ScanSection :=
| emptySection | yearSection | monthSection | daySection | hourSection
| minuteSection | secondSection | subsecondSection | zoneSection
| afterSection.

Definition maxLength : Z := 35.
Definition yearMax : Z := 4.
Definition monthMax : Z := 2.
Definition dayMax : Z := 2.
Definition hourMax : Z := 2.
Definition minuteMax : Z := 2.
Definition secondMax : Z := 2.
Definition subsecondMax : Z := 9.
Definition zoneMax : Z := 4.

(** The variables of [ParseISOTimestamp] that live across loop iterations. *)
Record Scan := mkScan {
  currentSection : ScanSection;
  offsetPositive : bool;
  yearPart : list rune;
  monthPart : list rune;
  dayPart : list rune;
  hourPart : list rune;
  minutePart : list rune;
  secondPart : list rune;
  subsecondPart : list rune;
  zonePart : list rune;
  unparsed : list (rune * Z)
}.

Definition initScan : Scan :=
  mkScan emptySection false [] [] [] [] [] [] [] [] [].

Definition withSection (st : Scan) (s : ScanSection) : Scan :=
  mkScan s (offsetPositive st) (yearPart st) (monthPart st) (dayPart st)
    (hourPart st) (minutePart st) (secondPart st) (subsecondPart st)
    (zonePart st) (unparsed st).
Definition withSign (st : Scan) (b : bool) : Scan :=
  mkScan (currentSection st) b (yearPart st) (monthPart st) (dayPart st)
    (hourPart st) (minutePart st) (secondPart st) (subsecondPart st)
    (zonePart st) (unparsed st).
Definition withYear (st : Scan) (p : list rune) : Scan :=
  mkScan (currentSection st) (offsetPositive st) p (monthPart st) (dayPart st)
    (hourPart st) (minutePart st) (secondPart st) (subsecondPart st)
    (zonePart st) (unparsed st).
Definition withMonth (st : Scan) (p : list rune) : Scan :=
  mkScan (currentSection st) (offsetPositive st) (yearPart st) p (dayPart st)
    (hourPart st) (minutePart st) (secondPart st) (subsecondPart st)
    (zonePart st) (unparsed st).
Definition withDay (st : Scan) (p : list rune) : Scan :=
  mkScan (currentSection st) (offsetPositive st) (yearPart st) (monthPart st) p
    (hourPart st) (minutePart st) (secondPart st) (subsecondPart st)
    (zonePart st) (unparsed st).
Definition withHour (st : Scan) (p : list rune) : Scan :=
  mkScan (currentSection st) (offsetPositive st) (yearPart st) (monthPart st)
    (dayPart st) p (minutePart st) (secondPart st) (subsecondPart st)
    (zonePart st) (unparsed st).
Definition withMinute (st : Scan) (p : list rune) : Scan :=
  mkScan (currentSection st) (offsetPositive st) (yearPart st) (monthPart st)
    (dayPart st) (hourPart st) p (secondPart st) (subsecondPart st)
    (zonePart st) (unparsed st).
Definition withSecond (st : Scan) (p : list rune) : Scan :=
  mkScan (currentSection st) (offsetPositive st) (yearPart st) (monthPart st)
    (dayPart st) (hourPart st) (minutePart st) p (subsecondPart st)
    (zonePart st) (unparsed st).
Definition withSubsecond (st : Scan) (p : list rune) : Scan :=
  mkScan (currentSection st) (offsetPositive st) (yearPart st) (monthPart st)
    (dayPart st) (hourPart st) (minutePart st) (secondPart st) p
    (zonePart st) (unparsed st).
Definition withZone (st : Scan) (p : list rune) : Scan :=
  mkScan (currentSection st) (offsetPositive st) (yearPart st) (monthPart st)
    (dayPart st) (hourPart st) (minutePart st) (secondPart st)
    (subsecondPart st) p (unparsed st).

(** [unparsed = append(unparsed, "'r'@i")] *)
Definition flag (st : Scan) (r : rune) (i : Z) : Scan :=
  mkScan (currentSection st) (offsetPositive st) (yearPart st) (monthPart st)
    (dayPart st) (hourPart st) (minutePart st) (secondPart st)
    (subsecondPart st) (zonePart st) (unparsed st ++ [(r, i)]).

Definition lenZ {A} (l : list A) : Z := Z.of_nat (length l).

(** The closure [addIf]: append while below capacity, report fullness. *)
Definition addIf (part : list rune) (add : rune) (max : Z) : list rune * bool :=
  let part := if lenZ part <? max then part ++ [add] else part in
  (part, lenZ part =? max).

(** The closure [isZero]. *)
Definition isZero (part : list rune) : bool := forallb (fun r => r =? 0x30) part.

Definition advanceIf (atMax : bool) (st : Scan) (next : ScanSection) : Scan :=
  if atMax then withSection st next else st.

Section WithLib.
Context `{GoLib}.

(** [unicode.IsDigit]: the Latin-1 fast path of the Go source, then the Nd
    table. *)
Definition unicode_IsDigit (r : rune) : bool :=
  if r <=? MaxLatin1 then between 0x30 0x39 r else isDigitWide r.

(** The [switch currentSection] taken for a digit. *)
Definition scanDigit (st : Scan) (i : Z) (r : rune) : Scan :=
  match currentSection st with
  | emptySection =>
    let st := withSection st yearSection in
    let '(p, partAtMax) := addIf (yearPart st) r yearMax in
    advanceIf partAtMax (withYear st p) monthSection
  | yearSection =>
    let '(p, partAtMax) := addIf (yearPart st) r yearMax in
    advanceIf partAtMax (withYear st p) monthSection
  | monthSection =>
    let '(p, partAtMax) := addIf (monthPart st) r monthMax in
    advanceIf partAtMax (withMonth st p) daySection
  | daySection =>
    let '(p, partAtMax) := addIf (dayPart st) r dayMax in
    advanceIf partAtMax (withDay st p) hourSection
  | hourSection =>
    let '(p, partAtMax) := addIf (hourPart st) r hourMax in
    advanceIf partAtMax (withHour st p) minuteSection
  | minuteSection =>
    let '(p, partAtMax) := addIf (minutePart st) r minuteMax in
    advanceIf partAtMax (withMinute st p) secondSection
  | secondSection =>
    let '(p, partAtMax) := addIf (secondPart st) r secondMax in
    advanceIf partAtMax (withSecond st p) subsecondSection
  | subsecondSection =>
    let '(p, partAtMax) := addIf (subsecondPart st) r subsecondMax in
    advanceIf partAtMax (withSubsecond st p) zoneSection
  | zoneSection =>
    let '(p, partAtMax) := addIf (zonePart st) r zoneMax in
    advanceIf partAtMax (withZone st p) afterSection
  | afterSection => flag st r i
  end.

Definition inZoneOrSubsecond (s : ScanSection) : bool :=
  match s with
  | zoneSection | subsecondSection => true
  | _ => false
  end.

Definition isSubsecond (s : ScanSection) : bool :=
  match s with subsecondSection => true | _ => false end.

(** One iteration of the loop over the runes of the input.  The boolean is
    true when the iteration leaves the loop ([break]). *)
Definition scanRune (st : Scan) (i : Z) (r : rune) : Scan * bool :=
  if unicode_IsDigit r then (scanDigit st i r, false)
  else if r =? 0x2E then (st, false)
  else if (r =? 0x2D) || (r =? 0x2B) then
    if isSubsecond (currentSection st)
    then (withSection (withSign st (r =? 0x2B)) zoneSection, false)
    else (st, false)
  else if (unicode_ToUpper r =? 0x54) || (r =? 0x3A) || (r =? 0x2F) then
    (st, false)
  else if unicode_ToUpper r =? 0x5A then
    if inZoneOrSubsecond (currentSection st)
    then (withZone st (zonePart st ++ [0x30; 0x30; 0x30; 0x30]), true)
    else (flag st r i, false)
  else if unicode_IsSpace r then (st, false)
  else (flag st r i, false).

(** [for i, r := range timeStr { ... }] *)
Fixpoint scanLoop (st : Scan) (rs : list (Z * rune)) : Scan :=
  match rs with
  | [] => st
  | (i, r) :: t =>
    let '(st', brk) := scanRune st i r in
    if brk then st' else scanLoop st' t
  end.

Definition scan (timeStr : string) : Scan := scanLoop initScan (range timeStr).

End WithLib.
End Scanner.
Export Scanner.

(* ===================================================================== *)
(** ** [ParseISOTimestamp]: validation, decoding and zone resolution *)
(* ===================================================================== *)

Module ISO.

(** Where the instant is to be placed: the caller's location, UTC, or a
    fixed offset in seconds. *)
Inductive ZoneChoice :=
| ZoneDefault
| ZoneUTC
| ZoneOffset (offsetSec : Z).

(** The decoded calendar fields handed to [time.Date]. *)
Record Fields := mkFields {
  fYear : Z; fMonth : Z; fDay : Z;
  fHour : Z; fMinute : Z; fSecond : Z;
  fSubseconds : Z
}.

Record Parsed := mkParsed { pFields : Fields; pZone : ZoneChoice }.

(** The zone-length block after the loop: the padded zone buffer and
    [zoneFound]. *)
Definition padZone (zonePart : list rune) : outcome (list rune * bool) :=
  let zoneLen := lenZ zonePart in
  if zoneLen <? zoneMax then
    if (zoneLen =? 1) || (zoneLen =? 3) then Err (AmbiguousZoneLength zoneLen)
    else if zoneLen =? 0 then Ok (zonePart ++ [0x30; 0x30; 0x30; 0x30], false)
    else if zoneLen =? 2 then Ok (zonePart ++ [0x30; 0x30], true)
    else Ok (zonePart, true)
  else Ok (zonePart, true).

(** Date-only input: all three time buffers empty become "00". *)
Definition defaultTime (hourPart minutePart secondPart : list rune)
  : list rune * list rune * list rune :=
  if (lenZ hourPart =? 0) && (lenZ minutePart =? 0) && (lenZ secondPart =? 0)
  then ([0x30; 0x30], [0x30; 0x30], [0x30; 0x30])
  else (hourPart, minutePart, secondPart).

Definition checkLen (part : list rune) (max : Z) (f : Field) : outcome unit :=
  if lenZ part =? max then Ok tt else Err (FieldLengthMismatch f).

Definition decode2 (part : list rune) : outcome Z :=
  if isZero part then Ok 0 else atoi2 (RunesToString part).

Definition decode4 (part : list rune) : outcome Z :=
  if isZero part then Ok 0 else atoi4 (RunesToString part).

Definition decodeAtoi (part : list rune) : outcome Z :=
  if isZero part then Ok 0 else strconv_Atoi (RunesToString part).

(** Subseconds in nanoseconds.  [int(math.Pow(10, k))] is exact for
    [0 <= k <= 9]. *)
Definition decodeSubseconds (subsecondPart : list rune) : outcome Z :=
  let subsecondLen := lenZ subsecondPart in
  if 0 <? subsecondLen then
    if isZero subsecondPart then Ok 0
    else
      subseconds <- strconv_Atoi (RunesToString subsecondPart) ;;
      if subsecondLen <? subsecondMax
      then Ok (subseconds * 10 ^ (subsecondMax - subsecondLen))
      else Ok subseconds
  else Ok 0.

Definition quarterHour (offsetM : Z) : bool :=
  (offsetM =? 0) || (offsetM =? 15) || (offsetM =? 30) || (offsetM =? 45).

(** Zone resolution, from [offsetZero := isZero(zonePart...)] to the
    [switch offsetM]. *)
Definition resolveZone (zonePart : list rune) (zoneFound offsetPositive : bool)
  : outcome ZoneChoice :=
  let offsetZero := isZero zonePart in
  if negb zoneFound then Ok ZoneDefault
  else if offsetZero then Ok ZoneUTC
  else
    offsetH <- decodeAtoi (firstn 2 zonePart) ;;
    offsetM <- decodeAtoi (skipn 2 zonePart) ;;
    let offsetSec := offsetH * 60 * 60 + offsetM * 60 in
    let offsetSec := if negb offsetPositive then - offsetSec else offsetSec in
    if quarterHour offsetM then Ok (ZoneOffset offsetSec)
    else Err (OffsetNotOnQuarterHour offsetM).

(** Defaulting of the time of day, the six length checks and the decoding
    of the calendar fields and subseconds. *)
Definition decodeFields (st : Scan) : outcome Fields :=
  let '(hourPart, minutePart, secondPart) :=
    defaultTime (hourPart st) (minutePart st) (secondPart st) in
  _ <- checkLen (yearPart st) yearMax Year ;;
  _ <- checkLen (monthPart st) monthMax Month ;;
  _ <- checkLen (dayPart st) dayMax Day ;;
  _ <- checkLen hourPart hourMax Hour ;;
  _ <- checkLen minutePart minuteMax Minute ;;
  _ <- checkLen secondPart secondMax Second ;;
  y <- decode4 (yearPart st) ;;
  m <- decode2 (monthPart st) ;;
  d <- decode2 (dayPart st) ;;
  h <- decode2 hourPart ;;
  mn <- decode2 minutePart ;;
  s <- decode2 secondPart ;;
  subseconds <- decodeSubseconds (subsecondPart st) ;;
  Ok (mkFields y m d h mn s subseconds).

(** Everything between the loop and the calls of [time.Date], in the order
    of the source: zone length, fields, zone resolution. *)
Definition decodeScan (st : Scan) : outcome Parsed :=
  padded <- padZone (zonePart st) ;;
  let '(zonePart, zoneFound) := padded in
  f <- decodeFields st ;;
  zone <- resolveZone zonePart zoneFound (offsetPositive st) ;;
  Ok (mkParsed f zone).

Section WithLib.
Context `{GoLib}.

Definition dateOf (f : Fields) (l : Location) : Time :=
  time_Date (fYear f) (fMonth f) (fDay f) (fHour f) (fMinute f) (fSecond f)
    (fSubseconds f) l.

(** The fields and zone choice [ParseISOTimestamp] extracts from its input,
    before any location is attached. *)
Definition parseISOFields (timeStr : string) : outcome Parsed :=
  let timeStrLength := len timeStr in
  if maxLength <? timeStrLength then
    Err (InputTooLong (String.substring 0 35 timeStr) timeStrLength)
  else
    let st := scan timeStr in
    if 0 <? lenZ (unparsed st) then Err (UnparsedCharacter (unparsed st) timeStr)
    else decodeScan st.

(** [ParseISOTimestamp] *)
Definition ParseISOTimestamp (timeStr : string) (location : Location)
  (c : zones) : outcome Time * zones :=
  match parseISOFields timeStr with
  | Ok p =>
    match pZone p with
    | ZoneDefault => (Ok (dateOf (pFields p) location), c)
    | ZoneUTC => (Ok (dateOf (pFields p) UTC), c)
    | ZoneOffset offsetSec =>
      let '(l, c') := LocationFromOffset offsetSec c in
      (Ok (dateOf (pFields p) l), c')
    end
  | Err e => (Err e, c)
  | Panic => (Panic, c)
  end.

End WithLib.
End ISO.
Export ISO.

(* ===================================================================== *)
(** ** The Unix timestamp decoder *)
(* ===================================================================== *)

Module Unix.
Section WithLib.
Context `{GoLib}.

(** [int64(float64(n) * math.Pow(10, float64(e)))].  For [0 <= e] and
    [n < 10^(9-e)] every operand and the product are integers below 2^53, so
    the floating-point computation is exact; a negative exponent is left to
    the run time. *)
Definition scaleNanos (n e : Z) : Z :=
  if 0 <=? e then n * 10 ^ e else floatShrink n e.

(** [parseUnixTS]: seconds and nanoseconds of "seconds[.fraction]". *)
Definition parseUnixTS (timeStr : string) : outcome (Z * Z) :=
  let '(sa0, sa1) := splitDot (bytes timeStr) in
  s <- strconv_ParseInt sa0 ;;
  match sa1 with
  | None => Ok (s, 0)
  | Some frac =>
    n <- strconv_ParseInt frac ;;
    Ok (s, scaleNanos n (9 - lenZ frac))
  end.

(** The string [ParseUnixTS] hands to [parseUnixTS]: the input itself, or,
    for more than ten characters, [timeStr[0:10] + "." +
    timeStr[11:len-1]].  [None] is the slice-bounds panic. *)
Definition toSend (timeStr : string) : option string :=
  let timeStrLength := len timeStr in
  if 10 <? timeStrLength then
    match slice timeStr 0 10, slice timeStr 11 (timeStrLength - 1) with
    | Some sec, Some nsec => Some (sec ++ "." ++ nsec)%string
    | _, _ => None
    end
  else Some timeStr.

(** [ParseUnixTS] *)
Definition ParseUnixTS (timeStr : string) : outcome Time :=
  let matched := MatchString reDigits timeStr in
  let timeStrLength := len timeStr in
  if matched && (6 <? timeStrLength) then
    match toSend timeStr with
    | None => Panic
    | Some sent =>
      sn <- parseUnixTS sent ;;
      let '(s, n) := sn in
      Ok (time_Unix s n)
    end
  else Err (UnixDecodeFailure timeStr).

End WithLib.
End Unix.
Export Unix.

(* ===================================================================== *)
(** ** Formatting ([timestamp.go]) *)
(* ===================================================================== *)

Module Format.

(** The pieces [time.Format] cuts a layout into; only those occurring in the
    layouts of [timestamp.go]. *)
Inductive Chunk :=
| Lit (text : string)
| stdLongYear            (* 2006 *)
| stdZeroMonth           (* 01 *)
| stdZeroDay             (* 02 *)
| stdHour                (* 15 *)
| stdZeroMinute          (* 04 *)
| stdZeroSecond          (* 05 *)
| stdFracSecond0 (n : Z) (* .000 *)
| stdNumTZ               (* -0700 *)
| stdNumColonTZ          (* -07:00 *)
| stdWeekDay             (* Mon *)
| stdMonth.              (* Jan *)

Fixpoint digitsRev (fuel : nat) (u : Z) : list Z :=
  match fuel with
  | O => []
  | S f => (0x30 + u mod 10) :: (if u <? 10 then [] else digitsRev f (u / 10))
  end.

Definition utoa (u : Z) : list Z := rev (digitsRev 20 u).

(** [time.appendInt]: decimal, zero-padded to [width], '-' first if
    negative. *)
Definition appendInt (x width : Z) : list Z :=
  let ds := utoa (Z.abs x) in
  (if x <? 0 then [0x2D] else [])
    ++ repeat 0x30 (Z.to_nat (width - lenZ ds)) ++ ds.

Definition shortDayNames : list string :=
  ["Sun"; "Mon"; "Tue"; "Wed"; "Thu"; "Fri"; "Sat"]%string.
Definition shortMonthNames : list string :=
  ["Jan"; "Feb"; "Mar"; "Apr"; "May"; "Jun"; "Jul"; "Aug"; "Sep"; "Oct";
   "Nov"; "Dec"]%string.

(** The numeric zone: sign, hours and minutes of the offset. *)
Definition appendZone (offset : Z) (colon : bool) : list Z :=
  let zone := Z.quot offset 60 in
  let '(sign, zone) := if zone <? 0 then (0x2D, - zone) else (0x2B, zone) in
  sign :: appendInt (Z.quot zone 60) 2
    ++ (if colon then [0x3A] else []) ++ appendInt (Z.rem zone 60) 2.

Section WithLib.
Context `{GoLib}.

Definition formatChunk (t : Time) (c : Chunk) : list Z :=
  let '(year, month, day) := Date t in
  let '(hour, min, sec) := Clock t in
  match c with
  | Lit text => bytes text
  | stdLongYear => appendInt year 4
  | stdZeroMonth => appendInt month 2
  | stdZeroDay => appendInt day 2
  | stdHour => appendInt hour 2
  | stdZeroMinute => appendInt min 2
  | stdZeroSecond => appendInt sec 2
  | stdFracSecond0 n => 0x2E :: appendInt (nsec t / 10 ^ (9 - n)) n
  | stdNumTZ => appendZone (zoneOffset (loc t) (unixSec t)) false
  | stdNumColonTZ => appendZone (zoneOffset (loc t) (unixSec t)) true
  | stdWeekDay => bytes (nth (Z.to_nat (Weekday t)) shortDayNames ""%string)
  | stdMonth => bytes (nth (Z.to_nat (month - 1)) shortMonthNames ""%string)
  end.

(** [Time.Format] on a layout already cut into chunks. *)
Definition time_Format (layout : list Chunk) (t : Time) : string :=
  ofBytes (flat_map (formatChunk t) layout).

(** "20060102T150405-0700" *)
Definition layoutCompact : list Chunk :=
  [stdLongYear; stdZeroMonth; stdZeroDay; Lit "T"; stdHour; stdZeroMinute;
   stdZeroSecond; stdNumTZ].

(** "20060102T150405.000-0700" *)
Definition layoutCompactMsec : list Chunk :=
  [stdLongYear; stdZeroMonth; stdZeroDay; Lit "T"; stdHour; stdZeroMinute;
   stdZeroSecond; stdFracSecond0 3; stdNumTZ].

(** "2006-01-02T15:04:05-07:00" *)
Definition layoutISO8601 : list Chunk :=
  [stdLongYear; Lit "-"; stdZeroMonth; Lit "-"; stdZeroDay; Lit "T"; stdHour;
   Lit ":"; stdZeroMinute; Lit ":"; stdZeroSecond; stdNumColonTZ].

(** "2006-01-02T15:04:05.000-07:00" *)
Definition layoutISO8601Msec : list Chunk :=
  [stdLongYear; Lit "-"; stdZeroMonth; Lit "-"; stdZeroDay; Lit "T"; stdHour;
   Lit ":"; stdZeroMinute; Lit ":"; stdZeroSecond; stdFracSecond0 3;
   stdNumColonTZ].

(** [http.TimeFormat], "Mon, 02 Jan 2006 15:04:05 GMT" *)
Definition http_TimeFormat : list Chunk :=
  [stdWeekDay; Lit ", "; stdZeroDay; Lit " "; stdMonth; Lit " "; stdLongYear;
   Lit " "; stdHour; Lit ":"; stdZeroMinute; Lit ":"; stdZeroSecond;
   Lit " GMT"].

Definition RFC7232 (t : Time) : string := time_Format http_TimeFormat (In t UTC).
Definition ISO8601Compact (t : Time) : string := time_Format layoutCompact t.
Definition ISO8601CompactMsec (t : Time) : string :=
  time_Format layoutCompactMsec t.
Definition ISO8601 (t : Time) : string := time_Format layoutISO8601 t.
Definition ISO8601Msec (t : Time) : string := time_Format layoutISO8601Msec t.

End WithLib.
End Format.
Export Format.

(* ===================================================================== *)
(** ** Parsing with a layout ([time.ParseInLocation]) *)
(* ===================================================================== *)

Module Layout.

(** [nextStdChunk] applied until the layout is used up, for the layout the
    embedding parses itself: [http.TimeFormat], the first of
    [nonISOTimeFormats] and the layout [RFC7232] prints.  "GMT" holds no
    std chunk, so it is literal text. *)
Definition chunksOf (layout : string) : option (list Chunk) :=
  if String.eqb layout "Mon, 02 Jan 2006 15:04:05 GMT"
  then Some http_TimeFormat else None.

(** [isDigit(s, i)] *)
Definition isDigitAt (s : list Z) (i : nat) : bool :=
  match nth_error s i with
  | Some c => isAsciiDigit c
  | None => false
  end.

(** [cutspace] *)
Fixpoint cutspace (s : list Z) : list Z :=
  match s with
  | c :: t => if c =? 0x20 then cutspace t else s
  | [] => []
  end.

(** The loop of [skip(value, prefix)]; [None] is [errBad].  At a space of
    the layout the value must begin with a space or be used up; the spaces
    at the head of both are then dropped.  Each iteration shortens
    [prefix], so its length is fuel enough. *)
Fixpoint skipLoop (fuel : nat) (value prefix : list Z) : option (list Z) :=
  match prefix with
  | [] => Some value
  | p :: prefix' =>
    match fuel with
    | O => None
    | S fuel =>
      if p =? 0x20 then
        match value with
        | v :: _ =>
          if negb (v =? 0x20) then None
          else skipLoop fuel (cutspace value) (cutspace prefix)
        | [] => skipLoop fuel (cutspace value) (cutspace prefix)
        end
      else
        match value with
        | v :: value' => if v =? p then skipLoop fuel value' prefix' else None
        | [] => None
        end
    end
  end.

Definition skip (value prefix : list Z) : option (list Z) :=
  skipLoop (length prefix) value prefix.

(** [getnum(s, fixed)]: one or two digits, two when [fixed]. *)
Definition getnum (s : list Z) (fixed : bool) : option (Z * list Z) :=
  if negb (isDigitAt s 0) then None
  else if negb (isDigitAt s 1) then
    if fixed then None
    else match s with
         | c0 :: t => Some (c0 - 0x30, t)
         | [] => None
         end
  else
    match s with
    | c0 :: c1 :: t => Some ((c0 - 0x30) * 10 + (c1 - 0x30), t)
    | _ => None
    end.

(** [match(s1, s2)]: equality of two texts of one length, ignoring the case
    of ASCII letters. *)
Fixpoint matchFold (s1 s2 : list Z) : bool :=
  match s1, s2 with
  | c1 :: t1, c2 :: t2 =>
    (if c1 =? c2 then true
     else
       let c1 := Z.lor c1 0x20 in
       let c2 := Z.lor c2 0x20 in
       negb (negb (c1 =? c2) || (c1 <? 0x61) || (0x7A <? c1)))
    && matchFold t1 t2
  | _, _ => true
  end.

(** [lookup(tab, val)]: the index of the first name of [tab] that [val]
    begins with, and the rest of [val]. *)
Fixpoint lookupFrom (i : Z) (tab : list string) (val : list Z)
  : option (Z * list Z) :=
  match tab with
  | [] => None
  | v :: tab' =>
    let n := String.length v in
    if (n <=? length val)%nat && matchFold (firstn n val) (bytes v)
    then Some (i, skipn n val)
    else lookupFrom (i + 1) tab' val
  end.

Definition lookup (tab : list string) (val : list Z) : option (Z * list Z) :=
  lookupFrom 0 tab val.

(** The number of digits [s] begins with. *)
Fixpoint digitRun (s : list Z) : nat :=
  match s with
  | c :: t => if isAsciiDigit c then S (digitRun t) else O
  | [] => O
  end.

(** [daysIn] *)
Definition daysIn (m year : Z) : Z :=
  if (m =? 2) && isLeap year then 29 else daysBefore m - daysBefore (m - 1).

(** The "time being constructed" of [parse].  The month and the day are
    kept apart from their initial values, which the layout of the HTTP date
    always overwrites. *)
Record Reading := mkReading {
  rYear : Z;
  rMonth : option Z;
  rDay : option Z;
  rHour : Z;
  rMin : Z;
  rSec : Z;
  rNsec : Z
}.

Definition startReading : Reading := mkReading 0 None None 0 0 0 0.

(** One iteration of the loop of [parse]: the reading and the rest of the
    value, an error, or a case the embedding leaves to the run time. *)
Inductive Step :=
| Go (rd : Reading) (value : list Z)
| Bad
| Open.

(** The std chunk that follows in the layout, if any. *)
Fixpoint nextStd (layout : list Chunk) : option Chunk :=
  match layout with
  | [] => None
  | Lit _ :: rest => nextStd rest
  | c :: _ => Some c
  end.

(** The [switch std & stdMask] of [parse], with the [skip] of the literal
    text before each std chunk, for the chunks of the HTTP date.  After the
    seconds a fraction may follow that the layout does not announce: a
    period and one to nine digits are read as nanoseconds; a comma (taken
    by newer versions of Go only) and longer fractions (cut or refused,
    depending on the version) are left to the run time, like the chunks no
    layout parsed here holds. *)
Definition parseChunk (c : Chunk) (suffix : list Chunk) (rd : Reading)
  (value : list Z) : Step :=
  match c with
  | Lit text =>
    match skip value (bytes text) with
    | Some value => Go rd value
    | None => Bad
    end
  | stdWeekDay =>
    match lookup shortDayNames value with
    | Some (_, value) => Go rd value
    | None => Bad
    end
  | stdMonth =>
    match lookup shortMonthNames value with
    | Some (month, value) =>
      Go (mkReading (rYear rd) (Some (month + 1)) (rDay rd) (rHour rd)
            (rMin rd) (rSec rd) (rNsec rd)) value
    | None => Bad
    end
  | stdZeroDay =>
    match getnum value true with
    | Some (day, value) =>
      Go (mkReading (rYear rd) (rMonth rd) (Some day) (rHour rd) (rMin rd)
            (rSec rd) (rNsec rd)) value
    | None => Bad
    end
  | stdLongYear =>
    if (length value <? 4)%nat || negb (isDigitAt value 0) then Bad
    else
      let p := firstn 4 value in
      if forallb isAsciiDigit p then
        Go (mkReading (decimal p) (rMonth rd) (rDay rd) (rHour rd) (rMin rd)
              (rSec rd) (rNsec rd)) (skipn 4 value)
      else Bad
  | stdHour =>
    match getnum value false with
    | Some (hour, value) =>
      if (hour <? 0) || (24 <=? hour) then Bad
      else Go (mkReading (rYear rd) (rMonth rd) (rDay rd) hour (rMin rd)
                 (rSec rd) (rNsec rd)) value
    | None => Bad
    end
  | stdZeroMinute =>
    match getnum value true with
    | Some (min, value) =>
      if (min <? 0) || (60 <=? min) then Bad
      else Go (mkReading (rYear rd) (rMonth rd) (rDay rd) (rHour rd) min
                 (rSec rd) (rNsec rd)) value
    | None => Bad
    end
  | stdZeroSecond =>
    match getnum value true with
    | Some (sec, value) =>
      if (sec <? 0) || (60 <=? sec) then Bad
      else
        let rd := mkReading (rYear rd) (rMonth rd) (rDay rd) (rHour rd)
                    (rMin rd) sec (rNsec rd) in
        match value with
        | sep :: frac =>
          if ((sep =? 0x2E) || (sep =? 0x2C)) && isDigitAt frac 0 then
            match nextStd suffix with
            | Some (stdFracSecond0 _) => Go rd value
            | _ =>
              let n := digitRun frac in
              if (sep =? 0x2C) || (9 <? n)%nat then Open
              else
                Go (mkReading (rYear rd) (rMonth rd) (rDay rd) (rHour rd)
                      (rMin rd) (rSec rd)
                      (decimal (firstn n frac) * 10 ^ (9 - Z.of_nat n)))
                   (skipn n frac)
            end
          else Go rd value
        | [] => Go rd value
        end
    | None => Bad
    end
  | _ => Open
  end.

Fixpoint parseChunks (layout : list Chunk) (rd : Reading) (value : list Z)
  : Step :=
  match layout with
  | [] => Go rd value
  | c :: suffix =>
    match parseChunk c suffix rd value with
    | Go rd value => parseChunks suffix rd value
    | Bad => Bad
    | Open => Open
    end
  end.

(** What the embedding makes of a call of [time.ParseInLocation]. *)
Inductive Verdict :=
| Parsed (t : Time)
| Refused
| Unsettled.

Section WithLib.
Context `{GoLib}.

(** [parse(layout, value, loc, loc)] on a layout cut into chunks: the loop,
    the refusal of text left over, the validation of the day of the month
    and, the layout naming no zone, [Date] in the default location. *)
Definition time_parse (layout : list Chunk) (value : list Z)
  (defaultLocation : Location) : Verdict :=
  match parseChunks layout startReading value with
  | Go rd [] =>
    match rMonth rd, rDay rd with
    | Some month, Some day =>
      if (day <? 1) || (daysIn month (rYear rd) <? day) then Refused
      else Parsed (time_Date (rYear rd) month day (rHour rd) (rMin rd)
                     (rSec rd) (rNsec rd) defaultLocation)
    | _, _ => Unsettled
    end
  | Go _ (_ :: _) => Refused
  | Bad => Refused
  | Open => Unsettled
  end.

(** [time.ParseInLocation]: [None] is an error.  The HTTP date is parsed by
    the embedding; the other layouts, and the cases left open above, are
    the run time's. *)
Definition time_ParseInLocation (layout value : string) (l : Location)
  : option Time :=
  match chunksOf layout with
  | Some chunks =>
    match time_parse chunks (bytes value) l with
    | Parsed t => Some t
    | Refused => None
    | Unsettled => libParseInLocation layout value l
    end
  | None => libParseInLocation layout value l
  end.

End WithLib.
End Layout.
Export Layout.

(* ===================================================================== *)
(** ** The dispatcher *)
(* ===================================================================== *)

Module Dispatch.

(** [nonISOTimeFormats] *)
Definition nonISOTimeFormats : list string :=
  [ "Mon, 02 Jan 2006 15:04:05 GMT";
    "Mon, 02 Jan 2006 15:04:05 -0700";
    "Mon, 02 Jan 2006 15:04:05";
    "Monday, 02-Jan-2006 15:04:05";
    "02 Jan 06 15:04 -0700";
    "2006-01-02 15-04-05";
    "20060102150405";
    "20060102";
    "01/02/2006";
    "1/2/2006" ]%string.

(** A strategy invocation.  The list of attempts is a ghost log: it records
    which of [ParseISOTimestamp], [ParseUnixTS] and [time.ParseInLocation]
    a call of [parseTimestamp] made, in order. *)
Inductive Attempt :=
| TryISO (timeStr : string)
| TryUnix (timeStr : string)
| TryLayout (layout value : string).

Record Dispatched := mkDispatched {
  result : outcome Time;
  cache : zones;
  attempts : list Attempt
}.

Section WithLib.
Context `{GoLib}.

(** The loop over [nonISOTimeFormats]: the first layout that parses wins. *)
Fixpoint tryFormats (formats : list string) (original : string)
  (location : Location) : option Time * list Attempt :=
  match formats with
  | [] => (None, [])
  | format :: rest =>
    match time_ParseInLocation format original location with
    | Some t => (Some t, [TryLayout format original])
    | None =>
      let '(r, log) := tryFormats rest original location in
      (r, TryLayout format original :: log)
    end
  end.

(** The numeric-candidate test at the head of [parseTimestamp]. *)
Definition isTS (timeStr : string) : bool :=
  if MatchString reDigits timeStr then
    let l := len timeStr in
    negb (l =? 8) && negb (l =? 14)
  else false.

(** What follows the ISO attempt: the iso-only exit, the Unix decoder, the
    fallback formats. *)
Definition afterISO (timeStr : string) (location : Location) (isoOnly : bool)
  (c : zones) (log : list Attempt) : Dispatched :=
  if isoOnly then mkDispatched (Err (ISOParseFailure timeStr)) c log
  else if isTS timeStr then
    let log := log ++ [TryUnix timeStr] in
    match ParseUnixTS timeStr with
    | Ok t => mkDispatched (Ok (In t location)) c log
    | Err _ => mkDispatched (Err (UnixParseFailure timeStr)) c log
    | Panic => mkDispatched Panic c log
    end
  else
    let '(r, tried) := tryFormats nonISOTimeFormats timeStr location in
    match r with
    | Some t => mkDispatched (Ok t) c (log ++ tried)
    | None => mkDispatched (Err (NoFallbackFormatMatched timeStr)) c (log ++ tried)
    end.

(** [parseTimestamp] *)
Definition parseTimestamp (timeStr : string) (location : Location)
  (isoOnly : bool) (c : zones) : Dispatched :=
  let timeStr := strings_TrimSpace timeStr in
  if negb (isTS timeStr) then
    match ParseISOTimestamp timeStr location c with
    | (Ok t, c') => mkDispatched (Ok t) c' [TryISO timeStr]
    | (Panic, c') => mkDispatched Panic c' [TryISO timeStr]
    | (Err _, c') => afterISO timeStr location isoOnly c' [TryISO timeStr]
    end
  else afterISO timeStr location isoOnly c [].

Definition ParseInUTC (timeStr : string) : zones -> Dispatched :=
  parseTimestamp timeStr UTC false.
Definition ParseISOInUTC (timeStr : string) : zones -> Dispatched :=
  parseTimestamp timeStr UTC true.
Definition ParseInLocation (timeStr : string) (location : Location)
  : zones -> Dispatched :=
  parseTimestamp timeStr location false.
Definition ParseISOInLocation (timeStr : string) (location : Location)
  : zones -> Dispatched :=
  parseTimestamp timeStr location true.

End WithLib.
End Dispatch.
Export Dispatch.


(** A run time on which closed examples are evaluated: three of the Nd
    ranges above Latin-1 (Arabic-Indic, Extended Arabic-Indic and fullwidth
    digits), a zone table that puts every named zone at UTC, a layout parser
    that refuses whatever the embedding leaves to it, and a truncating
    shrink.  The examples below use ASCII input, UTC or fixed zones and
    fractions of at most nine digits, and where a layout parses it is the
    HTTP date, which the embedding parses itself; so they do not depend on
    these choices. *)
Definition sampleLib : GoLib := {|
  isDigitWide := fun r =>
    between 0x660 0x669 r || between 0x6F0 0x6F9 r || between 0xFF10 0xFF19 r;
  tzLookup := fun _ _ => (0, alpha, omega);
  libParseInLocation := fun _ _ _ => None;
  floatShrink := fun n e => n / 10 ^ (- e)
|}.

(* ===================================================================== *)
(** * Vocabulary of the properties *)
(* ===================================================================== *)

Module Vocabulary.

(** The number of bytes of [s] other than dots. *)
Definition dotFreeLen (s : string) : Z :=
  lenZ (List.filter (fun b => negb (dot b)) (bytes s)).

(** The shape of the buffers in each section: the fields before the current
    one are full, the current one is not, the later ones are empty. *)
Definition shape (st : Scan) : Prop :=
  let ly := lenZ (yearPart st) in
  let lm := lenZ (monthPart st) in
  let ld := lenZ (dayPart st) in
  let lh := lenZ (hourPart st) in
  let lmi := lenZ (minutePart st) in
  let ls := lenZ (secondPart st) in
  let lss := lenZ (subsecondPart st) in
  let lz := lenZ (zonePart st) in
  match currentSection st with
  | emptySection =>
    ly = 0 /\ lm = 0 /\ ld = 0 /\ lh = 0 /\ lmi = 0 /\ ls = 0 /\ lss = 0 /\ lz = 0
  | yearSection =>
    ly < 4 /\ lm = 0 /\ ld = 0 /\ lh = 0 /\ lmi = 0 /\ ls = 0 /\ lss = 0 /\ lz = 0
  | monthSection =>
    ly = 4 /\ lm < 2 /\ ld = 0 /\ lh = 0 /\ lmi = 0 /\ ls = 0 /\ lss = 0 /\ lz = 0
  | daySection =>
    ly = 4 /\ lm = 2 /\ ld < 2 /\ lh = 0 /\ lmi = 0 /\ ls = 0 /\ lss = 0 /\ lz = 0
  | hourSection =>
    ly = 4 /\ lm = 2 /\ ld = 2 /\ lh < 2 /\ lmi = 0 /\ ls = 0 /\ lss = 0 /\ lz = 0
  | minuteSection =>
    ly = 4 /\ lm = 2 /\ ld = 2 /\ lh = 2 /\ lmi < 2 /\ ls = 0 /\ lss = 0 /\ lz = 0
  | secondSection =>
    ly = 4 /\ lm = 2 /\ ld = 2 /\ lh = 2 /\ lmi = 2 /\ ls < 2 /\ lss = 0 /\ lz = 0
  | subsecondSection =>
    ly = 4 /\ lm = 2 /\ ld = 2 /\ lh = 2 /\ lmi = 2 /\ ls = 2 /\ lss < 9 /\ lz = 0
  | zoneSection =>
    ly = 4 /\ lm = 2 /\ ld = 2 /\ lh = 2 /\ lmi = 2 /\ ls = 2 /\ lss <= 9 /\ lz < 4
  | afterSection =>
    ly = 4 /\ lm = 2 /\ ld = 2 /\ lh = 2 /\ lmi = 2 /\ ls = 2 /\ lss <= 9 /\ lz = 4
  end.

(** What is left of [shape] once a Z has ended the scan: the zone buffer
    has grown by four and may exceed its capacity. *)
Definition stopped (st : Scan) : Prop :=
  lenZ (yearPart st) = 4 /\ lenZ (monthPart st) = 2 /\ lenZ (dayPart st) = 2
  /\ lenZ (hourPart st) = 2 /\ lenZ (minutePart st) = 2
  /\ lenZ (secondPart st) = 2 /\ lenZ (subsecondPart st) <= 9
  /\ 4 <= lenZ (zonePart st) < 8.

(** The first of hour, minute and second whose buffer is not two long. *)
Definition firstShortTime (st : Scan) : option Field :=
  if negb (lenZ (hourPart st) =? 2) then Some Hour
  else if negb (lenZ (minutePart st) =? 2) then Some Minute
  else if negb (lenZ (secondPart st) =? 2) then Some Second
  else None.

Definition timeAllEmpty (st : Scan) : Prop :=
  hourPart st = [] /\ minutePart st = [] /\ secondPart st = [].

Definition signed (positive : bool) (x : Z) : Z :=
  if positive then x else - x.

(** Every cached handle is the fixed zone of its key. *)
Definition cacheSound (c : zones) : Prop :=
  forall k l, c !! k = Some l -> l = FixedZone "FixedZone" k.

(** The first [n] quarter-hour offsets 0, 900, 1800, ... *)
Definition quarterOffsets (n : nat) : list Z :=
  map (fun k => 900 * Z.of_nat k) (seq 0 n).

(** Bounded universal check by evaluation. *)
Fixpoint allFrom (P : Z -> bool) (fuel : nat) (x : Z) : bool :=
  match fuel with
  | O => true
  | S f => P x && allFrom P f (x + 1)
  end.

(** One 400-year cycle, checked day by day: the date of each day is a
    proper calendar date whose day number is that day, and year 400 starts
    at day 145731. *)
Definition checkDay (d : Z) : bool :=
  let '(y, m, dd) := dateInCycle 0 d in
  (1 <=? m) && (m <=? 12) && (1 <=? dd) && (dd <=? 31)
  && (civilDays y m dd =? d)
  && (if d <? 145731 then (1 <=? y) && (y <=? 399) else y =? 400).

(** The iterations of a range loop over ASCII bytes. *)
Fixpoint indexed (i : Z) (bs : list Z) : list (Z * Z) :=
  match bs with
  | [] => []
  | b :: t => (i, b) :: indexed (i + 1) t
  end.

(** A byte below 0x80. *)
Definition isAscii (b : Z) : bool := (0 <=? b) && (b <? 0x80).

(** Zero-padded decimal fields of two, three and four digits. *)
Definition dig2 (n : Z) : list Z := [48 + n / 10; 48 + n mod 10].

Definition dig3 (n : Z) : list Z :=
  [48 + n / 100; 48 + n / 10 mod 10; 48 + n mod 10].

Definition dig4 (n : Z) : list Z :=
  [48 + n / 1000; 48 + n / 100 mod 10; 48 + n / 10 mod 10; 48 + n mod 10].

(** The zone field of an offset of [k] quarter hours. *)
Definition zoneSign (k : Z) : Z := if k <? 0 then 0x2D else 0x2B.

Definition zoneHours (k : Z) : Z := Z.abs k / 4.

Definition zoneMinutes (k : Z) : Z := 15 * (Z.abs k mod 4).

Definition zoneOf (k : Z) : ZoneChoice :=
  if k =? 0 then ZoneUTC else ZoneOffset (900 * k).

(** Boolean comparisons, for checks done by evaluation. *)
Fixpoint eqList (a b : list Z) : bool :=
  match a, b with
  | [], [] => true
  | x :: a', y :: b' => (x =? y) && eqList a' b'
  | _, _ => false
  end.

Definition okIs (o : outcome Z) (v : Z) : bool :=
  match o with Ok a => a =? v | _ => false end.

(** The zone field printed for an offset of [k] quarter hours, and what
    zone resolution makes of its digits. *)
Definition zoneChecked (j : Z) : bool :=
  let k := j - 399 in
  eqList (appendZone (900 * k) false)
    (zoneSign k :: dig2 (zoneHours k) ++ dig2 (zoneMinutes k))
  && eqList (appendZone (900 * k) true)
       (zoneSign k :: dig2 (zoneHours k) ++ [0x3A] ++ dig2 (zoneMinutes k))
  && forallb isAsciiDigit (dig2 (zoneHours k) ++ dig2 (zoneMinutes k))
  && match resolveZone (dig2 (zoneHours k) ++ dig2 (zoneMinutes k)) true
             (zoneSign k =? 0x2B), zoneOf k with
     | Ok ZoneUTC, ZoneUTC => true
     | Ok (ZoneOffset a), ZoneOffset b => a =? b
     | _, _ => false
     end.

(** The separators of the extended layouts. *)
Definition sepDate (ext : bool) : list Z := if ext then [0x2D] else [].

Definition sepTime (ext : bool) : list Z := if ext then [0x3A] else [].

(** The bytes of "YYYY[-]MM[-]DDThh[:]mm[:]ss[.fff]+HH[:]MM". *)
Definition isoBytes (ext msec : bool) (yy mo dd hh mi ss ff : list Z) (sg : Z)
  (zh zm : list Z) : list Z :=
  yy ++ sepDate ext ++ mo ++ sepDate ext ++ dd ++ [0x54] ++ hh ++ sepTime ext
    ++ mi ++ sepTime ext ++ ss ++ (if msec then 0x2E :: ff else [])
    ++ [sg] ++ zh ++ sepTime ext ++ zm.

(** The layout of each of the four ISO formats. *)
Definition isoLayout (ext msec : bool) : list Chunk :=
  match ext, msec with
  | false, false => layoutCompact
  | false, true => layoutCompactMsec
  | true, false => layoutISO8601
  | true, true => layoutISO8601Msec
  end.

(** The layout string of [http.TimeFormat]. *)
Definition httpLayoutText : string := "Mon, 02 Jan 2006 15:04:05 GMT".

(** One 400-year cycle, checked day by day: the day of the month of each
    date is one its month has. *)
Definition checkMonthDay (d : Z) : bool :=
  let '(y, m, dd) := dateInCycle 0 d in dd <=? daysIn m y.

(** The bytes of "Www, DD Mmm YYYY hh:mm:ss GMT". *)
Definition httpBytes (w mon dd yy hh mi ss : list Z) : list Z :=
  w ++ [0x2C; 0x20] ++ dd ++ [0x20] ++ mon ++ [0x20] ++ yy ++ [0x20] ++ hh
    ++ [0x3A] ++ mi ++ [0x3A] ++ ss ++ [0x20; 0x47; 0x4D; 0x54].

(** The day numbers of 0000-01-01 and 9999-12-31. *)
Definition firstDay : Z := civilDays 0 1 1.
Definition lastDay : Z := civilDays 9999 12 31.

Section WithLib.
Context `{GoLib}.

(** A rune no state of the scanner accepts: not a digit, not one of
    [. - + T t : / Z z], not white space. *)
Definition foreign (r : rune) : bool :=
  negb (unicode_IsDigit r) && negb (r =? 0x2E)
  && negb ((r =? 0x2D) || (r =? 0x2B))
  && negb ((unicode_ToUpper r =? 0x54) || (r =? 0x3A) || (r =? 0x2F))
  && negb (unicode_ToUpper r =? 0x5A) && negb (unicode_IsSpace r).

(** A rune the scanner has no place for in section [s]: a digit when every
    buffer is full, a Z or z where no zone can stand, a rune that is none of
    the characters of a timestamp. *)
Definition offends (s : ScanSection) (r : rune) : bool :=
  (unicode_IsDigit r && match s with afterSection => true | _ => false end)
  || ((unicode_ToUpper r =? 0x5A) && negb (inZoneOrSubsecond s))
  || foreign r.

(** The iterations the loop makes on [rs] from [st]: the section each rune
    is met in, its byte offset and the rune.  The list ends with the
    iteration that leaves the loop, if one does. *)
Fixpoint examined (st : Scan) (rs : list (Z * rune))
  : list (ScanSection * Z * rune) :=
  match rs with
  | [] => []
  | (i, r) :: t =>
    (currentSection st, i, r)
      :: (let '(st', brk) := scanRune st i r in
          if brk then [] else examined st' t)
  end.

Definition offending (e : ScanSection * Z * rune) : bool :=
  let '(s, _, r) := e in offends s r.

(** The entry of the list of unparsed characters for an iteration, and the
    element of the input it comes from. *)
Definition recorded (e : ScanSection * Z * rune) : rune * Z :=
  let '(_, i, r) := e in (r, i).

Definition met (e : ScanSection * Z * rune) : Z * rune :=
  let '(_, i, r) := e in (i, r).

(** A location with the constant offset [off]. *)
Definition fixedAt (l : Location) (off : Z) : Prop :=
  forall x, zoneLookup l x = (off, alpha, omega).

(** A rune [unicode.IsDigit] accepts. *)
Definition digitRune (r : rune) : Prop := unicode_IsDigit r = true.

(** The zone buffer holds digit runes only. *)
Definition zoneDigits (st : Scan) : Prop := Forall digitRune (zonePart st).

(** Formatting [t] with [format] and parsing the text with [ParseInUTC]
    gives the same instant, with the same offset. *)
Definition roundTrips (format : Time -> string) (t : Time) (c : zones) : Prop :=
  exists t', result (ParseInUTC (format t) c) = Ok t'
    /\ sameInstant t' t
    /\ zoneOffset (loc t') (unixSec t') = zoneOffset (loc t) (unixSec t).

End WithLib.
End Vocabulary.
Export Vocabulary.

(* ===================================================================== *)
(** * The helpers of [timestamp.go] and [pkg/utility] *)
(* ===================================================================== *)

(** ** Machine integers *)

Module Int64.

(** Go's [int64] (and [int] on a 64-bit platform): the result of an
    arithmetic operation is reduced to the two's complement range. *)
Definition wrap (x : Z) : Z := (x + 2 ^ 63) mod 2 ^ 64 - 2 ^ 63.

Definition fits (x : Z) : Prop := minInt64 <= x <= maxInt64.

Definition add (a b : Z) : Z := wrap (a + b).
Definition sub (a b : Z) : Z := wrap (a - b).
Definition mul (a b : Z) : Z := wrap (a * b).
Definition neg (a : Z) : Z := wrap (- a).

(** [a / b] truncates toward zero. *)
Definition div (a b : Z) : Z := wrap (Z.quot a b).

End Int64.

(** ** Bounds and overflow tests *)

Module Bounds.

(** [time.Time{}]: January 1 of year 1, 00:00:00 UTC. *)
Definition zeroTime : Time := mkTime (-62135596800) 0 UTC.

(** [MaxTimestamp = time.Unix(1<<63-62135596801, 999999999)] and
    [MinTimestamp = time.Time{}]. *)
Definition MaxTimestamp : Time := time_Unix (2 ^ 63 - 62135596801) 999999999.
Definition MinTimestamp : Time := zeroTime.

(** [Time.Unix] *)
Definition Unix (t : Time) : Z := unixSec t.

(** [YearDiffOverflows] *)
Definition YearDiffOverflows (startYear endYear : Z) : bool :=
  if endYear <? startYear
  then Unix MaxTimestamp <? Int64.sub startYear endYear
  else Unix MaxTimestamp <? Int64.sub endYear startYear.

(** [YearIsOutOfBounds] *)
Definition YearIsOutOfBounds (year : Z) : bool :=
  (Unix MaxTimestamp <? year) || (year <? Unix MinTimestamp).

(** [YearIsBeyondMax] *)
Definition YearIsBeyondMax (year : Z) : bool := Unix MaxTimestamp <? year.

(** [YearIsBeyondMin] *)
Definition YearIsBeyondMin (year : Z) : bool := Unix MinTimestamp <=? year.

(** [overflow.Add64] of the module's dependency
    [github.com/JohnCGriffin/overflow]: [c := a + b] and the test
    [(c > a) == (b > 0)]. *)
Definition overflow_Add64 (a b : Z) : Z * bool :=
  let c := Int64.add a b in
  (c, Bool.eqb (a <? c) (0 <? b)).

(** The loop of [Int64Overflows], entered with the current values of the
    named results [sum] and [ok]. *)
Fixpoint sumLoop (sum : Z) (ok : bool) (int64s : list Z) : Z * bool :=
  match int64s with
  | [] => (sum, ok)
  | x :: rest =>
    let '(sum, ok) := overflow_Add64 sum x in
    if negb ok then (sum, true) else sumLoop sum ok rest
  end.

(** [Int64Overflows] *)
Definition Int64Overflows (int64s : list Z) : Z * bool := sumLoop 0 false int64s.

(** [DurationOverflows]: the same loop over [int64(durations[i])]. *)
Definition DurationOverflows (durations : list Z) : Z * bool :=
  sumLoop 0 false durations.

Section WithLib.
Context `{GoLib}.

(** [TimeIsOutOfBounds] *)
Definition TimeIsOutOfBounds (t : Time) : bool :=
  (Unix t <? 0) || (Unix MaxTimestamp <? fst (fst (Date t))).

End WithLib.

(** [StartTimeIsBeforeEndTime] *)
Definition StartTimeIsBeforeEndTime (t1 t2 : Time) : bool :=
  0 <? Int64.sub (Unix t2) (Unix t1).

End Bounds.
Export Bounds.

(** ** Offsets *)

Module Offsets.

(** [TwoDigitOffset]; [None] is the error "Out of range". *)
Definition TwoDigitOffset (i : Z) (addPrefix : bool) : option string :=
  if (99 <? i) || (i <? -99) then None
  else
    let '(prefix, i) := if i <? 0 then (0x2D, - i) else (0x2B, i) in
    let fr := 0x30 + Z.quot i 10 in
    let lr := 0x30 + Z.rem i 10 in
    if addPrefix then Some (ofBytes (RunesToString [prefix; fr; lr]))
    else Some (ofBytes (RunesToString [fr; lr])).

Section WithLib.
Context `{GoLib}.

(** [OffsetForTime]: the zone offset as a [time.Duration], in nanoseconds. *)
Definition OffsetForTime (t : Time) : Z :=
  Int64.mul (zoneOffset (loc t) (unixSec t)) 1000000000.

End WithLib.
End Offsets.
Export Offsets.

(** ** Days *)

Module Days.
Section WithLib.
Context `{GoLib}.

(** [TimeDateOnly] *)
Definition TimeDateOnly (t : Time) : Time :=
  let '(year, month, day) := Date t in
  time_Date year month day 0 0 0 0 (loc t).

(** [Time.After] *)
Definition After (t u : Time) : bool :=
  (unixSec u <? unixSec t) || ((unixSec t =? unixSec u) && (nsec u <? nsec t)).

(** [Time.AddDate] *)
Definition AddDate (t : Time) (years months days : Z) : Time :=
  let '(year, month, day) := Date t in
  let '(hour, min, sec) := Clock t in
  time_Date (year + years) (month + months) (day + days) hour min sec (nsec t)
    (loc t).

(** The closure [RangeOverTimes] returns: either the one that fails on every
    call, or the one that holds the captured variables [start] and [end]. *)
Inductive Ranger :=
| ZonesDiffer
| Running (start stop : Time).

(** [RangeOverTimes] *)
Definition RangeOverTimes (start stop : Time) : Ranger :=
  let startZone := zoneOffset (loc start) (unixSec start) in
  let endZone := zoneOffset (loc stop) (unixSec stop) in
  if negb (startZone =? endZone) then ZonesDiffer
  else Running (TimeDateOnly start) (TimeDateOnly stop).

(** One call of the closure: the time returned ([None] with the error
    "Zones for start and end differ") and the closure afterwards. *)
Definition call (r : Ranger) : option Time * Ranger :=
  match r with
  | ZonesDiffer => (None, ZonesDiffer)
  | Running start stop =>
    if After start stop then (Some zeroTime, r)
    else (Some start, Running (AddDate start 0 0 1) stop)
  end.

(** The results of the first [n] calls. *)
Fixpoint calls (n : nat) (r : Ranger) : list (option Time) :=
  match n with
  | O => []
  | S k => let '(t, r') := call r in t :: calls k r'
  end.

End WithLib.
End Days.
Export Days.

(** ** [pkg/utility] and [intPow] *)

Module Utility.

(** [utility.DigitCount]: the loop [for number != 0], with [fuel] bounding
    the number of iterations. *)
Fixpoint digitCountLoop (fuel : nat) (number count : Z) : option Z :=
  if number =? 0 then Some count
  else
    match fuel with
    | O => None
    | S f => digitCountLoop f (Int64.div number 10) (Int64.add count 1)
    end.

(** Twenty iterations are more than an [int64] can ask for. *)
Definition DigitCount (number : Z) : option Z := digitCountLoop 20 number 0.

(** [utility.Norm] on [int64].  A zero [base] panics in Go (division by
    zero); the properties below take [base] positive. *)
Definition Norm64 (hi lo base : Z) : Z * Z :=
  let '(hi, lo) :=
    if lo <? 0 then
      let n := Int64.add (Int64.div (Int64.sub (Int64.neg lo) 1) base) 1 in
      (Int64.sub hi n, Int64.add lo (Int64.mul n base))
    else (hi, lo) in
  if lo >=? base then
    let n := Int64.div lo base in
    (Int64.add hi n, Int64.sub lo (Int64.mul n base))
  else (hi, lo).

(** [utility.BytesToString] and [BytesToString] of [timestamp_parse.go]. *)
Definition BytesToString (bs : list Z) : string := ofBytes bs.

(** [intPow]: [result] after the loop [for i := 2; i <= m; i++], which runs
    [m - 1] times for [m >= 2] and not at all below.  For [m] the largest
    [int] the counter wraps and the Go loop does not end; the properties
    below take [m] smaller. *)
Definition intPow (n m : Z) : Z :=
  if m =? 0 then 1
  else Nat.iter (Z.to_nat (m - 1)) (fun result => Int64.mul result n) n.

End Utility.
Export Utility.

(** ** Vocabulary of the properties of the helpers *)

Module HelperVocabulary.

(** The exact sum of a list of integers. *)
Definition total (xs : list Z) : Z := fold_right Z.add 0 xs.

(** The instant at which day [day] (counted from 0001-01-01) begins on the
    wall clock of a zone [off] seconds east of UTC, presented in [l]. *)
Definition midnight (day off : Z) (l : Location) : Time :=
  mkTime ((day - unixEpochDays) * secondsPerDay - off) 0 l.

(** ASCII white space: tab, line feed, vertical tab, form feed, carriage
    return and space. *)
Definition blank (b : Z) : bool := isAscii b && unicode_IsSpace b.

End HelperVocabulary.
Export HelperVocabulary.

(* ===================================================================== *)
(** * Properties *)
(* ===================================================================== *)

(** ** Strings and regular expressions *)

Lemma len_bytes (s : string) : lenZ (bytes s) = len s.
Proof.
  unfold lenZ, len. f_equal. induction s as [|a s IH]; simpl; congruence.
Qed.

Lemma rmatch_Seq (r1 r2 : re) (bs : list Z) :
  rmatch (Seq r1 r2) bs = true <->
  exists a b, bs = a ++ b /\ rmatch r1 a = true /\ rmatch r2 b = true.
Proof.
  cbn [rmatch]. rewrite existsb_exists. split.
  - intros (k & _ & Hk). apply andb_true_iff in Hk as [H1 H2].
    exists (firstn k bs), (skipn k bs). now rewrite firstn_skipn.
  - intros (a & b & -> & H1 & H2). exists (length a). split.
    + apply in_seq. rewrite length_app. lia.
    + rewrite firstn_app, Nat.sub_diag, firstn_all, firstn_O, app_nil_r.
      rewrite skipn_app, Nat.sub_diag, skipn_all, skipn_O. simpl.
      now rewrite H1, H2.
Qed.

Lemma rmatch_Plus (p : Z -> bool) (bs : list Z) :
  rmatch (PlusClass p) bs = true <-> bs <> [] /\ forallb p bs = true.
Proof.
  destruct bs as [|b t]; simpl.
  - split; [discriminate | intros [Hne _]; now elim Hne].
  - split; [intros Hp; split; [discriminate | exact Hp] | now intros [_ Hp]].
Qed.

Lemma rmatch_optdot (bs : list Z) :
  rmatch (Opt (Class dot)) bs = true <-> bs = [] \/ bs = [0x2E].
Proof.
  destruct bs as [|b [|b' t]]; simpl.
  - split; auto.
  - unfold dot. rewrite Z.eqb_eq. split.
    + intros ->. now right.
    + intros [Hn | Hd]; [discriminate | congruence].
  - split; [discriminate | intros [Hn | Hd]; discriminate].
Qed.

Lemma digit_not_dot (b : Z) : digit b = true -> dot b = false.
Proof.
  unfold digit, isAsciiDigit, between, dot. intros Hd.
  apply andb_true_iff in Hd as [Hlo Hhi].
  apply Z.leb_le in Hlo. apply Z.eqb_neq. lia.
Qed.

(** Every string the dispatcher's expression accepts is accepted by the
    specification's. *)
Lemma reDigits_included (bs : list Z) :
  rmatch reDigits bs = true -> rmatch reSpecDigits bs = true.
Proof.
  unfold reDigits, reSpecDigits. intros Hm.
  apply rmatch_Seq in Hm as (a & rest & -> & Ha & Hrest).
  apply rmatch_Seq in Hrest as (o & b & -> & Ho & Hb).
  apply rmatch_optdot in Ho as [-> | ->].
  - apply rmatch_Seq. exists (a ++ b), []. rewrite app_nil_r. simpl app.
    split; [reflexivity|]. split; [|reflexivity].
    apply rmatch_Plus in Ha as [Hne Hfa]. apply rmatch_Plus in Hb as [_ Hfb].
    apply rmatch_Plus. split.
    + destruct a; [now elim Hne | discriminate].
    + now rewrite forallb_app, Hfa, Hfb.
  - apply rmatch_Seq. exists a, ([0x2E] ++ b). repeat split; [exact Ha|].
    change (rmatch (Seq (Class dot) (PlusClass digit)) ([0x2E] ++ b) = true).
    apply rmatch_Seq. exists [0x2E], b. repeat split. exact Hb.
Qed.

(** The two expressions differ only on a single digit. *)
Lemma reSpecDigits_two (bs : list Z) :
  rmatch reSpecDigits bs = true -> (2 <= length bs)%nat ->
  rmatch reDigits bs = true.
Proof.
  unfold reDigits, reSpecDigits. intros Hm Hlen.
  apply rmatch_Seq in Hm as (a & o & -> & Ha & Ho).
  destruct o as [|d b].
  - rewrite app_nil_r in *. apply rmatch_Plus in Ha as [_ Hfa].
    destruct a as [|x [|y t]]; simpl in Hlen; try lia.
    simpl in Hfa. apply andb_true_iff in Hfa as [Hx Hfa].
    apply rmatch_Seq. exists [x], (y :: t). repeat split.
    + simpl. now rewrite Hx.
    + apply rmatch_Seq. exists [], (y :: t). repeat split. exact Hfa.
  - change (rmatch (Seq (Class dot) (PlusClass digit)) (d :: b) = true) in Ho.
    apply rmatch_Seq in Ho as (x & y & Hxy & Hx & Hy).
    destruct x as [|x0 [|x1 x]]; simpl in Hx; try discriminate.
    simpl in Hxy. injection Hxy as -> ->.
    apply rmatch_Seq. exists a, ([x0] ++ y). repeat split; [exact Ha|].
    apply rmatch_Seq. exists [x0], y. repeat split; [|exact Hy].
    simpl. exact Hx.
Qed.

(** A string accepted by [reDigits] holds at most one byte that is not a
    digit. *)
Lemma reDigits_dotFree (bs : list Z) :
  rmatch reDigits bs = true ->
  lenZ bs - 1 <= lenZ (List.filter (fun b => negb (dot b)) bs).
Proof.
  unfold reDigits. intros Hm.
  apply rmatch_Seq in Hm as (a & rest & -> & Ha & Hrest).
  apply rmatch_Seq in Hrest as (o & b & -> & Ho & Hb).
  apply rmatch_Plus in Ha as [_ Hfa]. apply rmatch_Plus in Hb as [_ Hfb].
  assert (Hkeep : forall l, forallb digit l = true ->
            List.filter (fun b => negb (dot b)) l = l).
  { induction l as [|x l IH]; simpl; [reflexivity|]. intros Hx.
    apply andb_true_iff in Hx as [Hx Hl].
    rewrite (digit_not_dot _ Hx). simpl. now rewrite IH. }
  unfold lenZ. rewrite !List.filter_app, (Hkeep a Hfa), (Hkeep b Hfb), !length_app.
  apply rmatch_optdot in Ho as [-> | ->]; simpl; lia.
Qed.

(** ** The dispatcher and the Unix decoder *)

Section DispatchFacts.
Context `{GoLib}.

Lemma isTS_true (t : string) :
  isTS t = true <->
  MatchString reDigits t = true /\ len t <> 8 /\ len t <> 14.
Proof.
  unfold isTS. destruct (MatchString reDigits t).
  - rewrite andb_true_iff, !negb_true_iff, !Z.eqb_neq. tauto.
  - split; [discriminate | intros [Hm _]; discriminate].
Qed.

Lemma afterISO_log (t : string) (l : Location) (isoOnly : bool) (c : zones)
  (log : list Attempt) :
  exists rest, attempts (afterISO t l isoOnly c log) = log ++ rest.
Proof.
  unfold afterISO. destruct isoOnly.
  - exists []. simpl. now rewrite app_nil_r.
  - destruct (isTS t).
    + exists [TryUnix t]. now destruct (ParseUnixTS t).
    + destruct (tryFormats nonISOTimeFormats t l) as [[r|] tried];
        now exists tried.
Qed.

Lemma parseTimestamp_numeric (timeStr : string) (l : Location)
  (isoOnly : bool) (c : zones) :
  isTS (strings_TrimSpace timeStr) = true ->
  parseTimestamp timeStr l isoOnly c
  = afterISO (strings_TrimSpace timeStr) l isoOnly c [].
Proof. unfold parseTimestamp. now intros ->. Qed.

Lemma parseTimestamp_iso_first (timeStr : string) (l : Location)
  (isoOnly : bool) (c : zones) :
  isTS (strings_TrimSpace timeStr) = false ->
  exists rest,
    attempts (parseTimestamp timeStr l isoOnly c)
    = TryISO (strings_TrimSpace timeStr) :: rest.
Proof.
  unfold parseTimestamp. intros ->. simpl negb. cbv iota.
  destruct (ParseISOTimestamp _ l c) as [[t | e |] c'].
  - now exists [].
  - destruct (afterISO_log (strings_TrimSpace timeStr) l isoOnly c'
                [TryISO (strings_TrimSpace timeStr)]) as [rest ->].
    now exists rest.
  - now exists [].
Qed.

(** The three regimes of the re-slicing in [ParseUnixTS]. *)
Lemma toSend_cases (s : string) :
  (len s <= 10 /\ toSend s = Some s)
  \/ (len s = 11 /\ toSend s = None)
  \/ (12 <= len s /\
      exists sec nsec,
        slice s 0 10 = Some sec /\ slice s 11 (len s - 1) = Some nsec /\
        toSend s = Some (sec ++ "." ++ nsec)%string).
Proof.
  unfold toSend. destruct (10 <? len s) eqn:Hl.
  - apply Z.ltb_lt in Hl. right. unfold slice.
    assert (H0 : (0 <=? 0) && (0 <=? 10) && (10 <=? len s) = true).
    { rewrite !andb_true_iff, !Z.leb_le. lia. }
    rewrite H0. destruct (Z.eq_dec (len s) 11) as [He | Hne].
    + left. split; [exact He|]. rewrite He. reflexivity.
    + right. split; [lia|].
      assert (H1 : (0 <=? 11) && (11 <=? len s - 1) && (len s - 1 <=? len s)
                   = true).
      { rewrite !andb_true_iff, !Z.leb_le. lia. }
      rewrite H1. eauto.
  - apply Z.ltb_ge in Hl. left. split; [lia | reflexivity].
Qed.

End DispatchFacts.

(** C1, amended.  With [t] the trimmed input: if [t] matches
    [^\d+(\.\d+)?$], has at least two characters and its length is neither 8
    nor 14, the dispatcher behind [ParseInUTC]/[ParseInLocation] calls the
    Unix decoder and nothing else (the ISO scanner is never called); if [t]
    has length exactly 8 or 14 (pure digits or not) the ISO scanner is the
    first strategy called. *)
Theorem C1_dispatch `{GoLib} (timeStr : string) (location : Location)
  (c : zones) :
  let t := strings_TrimSpace timeStr in
  (MatchString reSpecDigits t = true -> 2 <= len t ->
   len t <> 8 -> len t <> 14 ->
   attempts (ParseInLocation timeStr location c) = [TryUnix t])
  /\ (len t = 8 \/ len t = 14 ->
      exists rest,
        attempts (ParseInLocation timeStr location c) = TryISO t :: rest).
Proof.
  intros t. unfold ParseInLocation. split.
  - intros Hm H2 H8 H14.
    assert (Hts : isTS t = true).
    { apply isTS_true. repeat split; try assumption.
      apply reSpecDigits_two; [exact Hm|].
      pose proof (len_bytes t) as Hl. unfold lenZ in Hl. lia. }
    rewrite parseTimestamp_numeric by exact Hts. fold t.
    unfold afterISO. rewrite Hts. now destruct (ParseUnixTS t).
  - intros Hlen. apply parseTimestamp_iso_first.
    destruct (isTS (strings_TrimSpace timeStr)) eqn:Hts; [|reflexivity].
    apply isTS_true in Hts. fold t in Hts. lia.
Qed.

(** Witness of [C1_dispatch] at "1136214245" and at "20060102". *)
Lemma C1_dispatch_witness :
  attempts (@ParseInLocation sampleLib "1136214245" UTC ∅)
  = [TryUnix "1136214245"%string]
  /\ exists rest,
       attempts (@ParseInLocation sampleLib "20060102" UTC ∅)
       = TryISO "20060102" :: rest.
Proof.
  split.
  - apply (@C1_dispatch sampleLib "1136214245" UTC ∅);
      [reflexivity | vm_compute; discriminate | vm_compute; discriminate
      | vm_compute; discriminate].
  - apply (@C1_dispatch sampleLib "20060102" UTC ∅). left. reflexivity.
Defined.

(** C1 as stated fails on a single digit: "5" matches [^\d+(\.\d+)?$] and
    has length 1, yet the dispatcher calls the ISO scanner first and never
    the Unix decoder. *)
Lemma C1_counterexample :
  strings_TrimSpace "5" = "5"%string
  /\ MatchString reSpecDigits "5" = true
  /\ len "5" <> 8 /\ len "5" <> 14
  /\ exists rest,
       attempts (@ParseInUTC sampleLib "5" ∅) = TryISO "5" :: rest
       /\ ~ List.In (TryUnix "5") rest.
Proof.
  split; [reflexivity|]. split; [reflexivity|].
  split; [vm_compute; discriminate|]. split; [vm_compute; discriminate|].
  eexists. split; [vm_compute; reflexivity|].
  simpl. intuition discriminate.
Qed.

(** C10.  For an input whose trimmed form is a numeric candidate (matches
    [reDigits], length neither 8 nor 14) the ISO-only entry points return
    the ISO-parse failure, leave the cache alone and call no strategy at
    all; the 18-digit string "200601021504051234" is such an input although
    [ParseISOTimestamp] parses it. *)
Theorem C10_iso_only_numeric `{GoLib} (timeStr : string)
  (location : Location) (c : zones) :
  let t := strings_TrimSpace timeStr in
  (isTS t = true ->
   ParseISOInLocation timeStr location c
   = mkDispatched (Err (ISOParseFailure t)) c []
   /\ ParseISOInUTC timeStr c = mkDispatched (Err (ISOParseFailure t)) c [])
  /\ isTS "200601021504051234" = true
  /\ fst (ParseISOTimestamp "200601021504051234" UTC c)
     = Ok (mkTime 1136214245 123400000 UTC).
Proof.
  intros t. split; [|split].
  - intros Hts. unfold ParseISOInLocation, ParseISOInUTC.
    rewrite !parseTimestamp_numeric by exact Hts. now split.
  - reflexivity.
  - vm_compute. reflexivity.
Qed.

(** Witness of [C10_iso_only_numeric] at the 18-digit string. *)
Lemma C10_iso_only_numeric_witness :
  @ParseISOInUTC sampleLib "200601021504051234" ∅
  = mkDispatched (Err (ISOParseFailure "200601021504051234")) ∅ [].
Proof.
  apply (@C10_iso_only_numeric sampleLib "200601021504051234" UTC ∅).
  reflexivity.
Defined.

(** ** The scanner as a state machine *)

Lemma lenZ_app {A} (l1 l2 : list A) : lenZ (l1 ++ l2) = lenZ l1 + lenZ l2.
Proof. unfold lenZ. rewrite length_app. lia. Qed.

Lemma lenZ_nonneg {A} (l : list A) : 0 <= lenZ l.
Proof. unfold lenZ. lia. Qed.

Lemma lenZ_nil_iff {A} (l : list A) : lenZ l = 0 <-> l = [].
Proof. destruct l; unfold lenZ; simpl; split; (congruence || lia). Qed.

Lemma obind_Ok {A B} (x : outcome A) (k : A -> outcome B) (b : B) :
  obind x k = Ok b -> exists a, x = Ok a /\ k a = Ok b.
Proof. destruct x; simpl; intros Hk; (discriminate || eauto). Qed.

Ltac split_cmp :=
  repeat match goal with
  | |- context [?a <? ?b] => destruct (Z.ltb_spec a b)
  | |- context [?a =? ?b] => destruct (Z.eqb_spec a b)
  end.

Section ScannerFacts.
Context `{GoLib}.

Lemma shape_init : shape initScan.
Proof. unfold shape, initScan, lenZ. simpl. lia. Qed.

Lemma scanDigit_shape (st : Scan) (i : Z) (r : rune) :
  shape st -> shape (scanDigit st i r).
Proof.
  destruct st as [sec sg y m d h mi s ss z u].
  unfold shape, scanDigit, addIf, advanceIf; simpl.
  pose proof (lenZ_nonneg y). pose proof (lenZ_nonneg m).
  pose proof (lenZ_nonneg d). pose proof (lenZ_nonneg h).
  pose proof (lenZ_nonneg mi). pose proof (lenZ_nonneg s).
  pose proof (lenZ_nonneg ss). pose proof (lenZ_nonneg z).
  unfold yearMax, monthMax, dayMax, hourMax, minuteMax, secondMax,
    subsecondMax, zoneMax.
  destruct sec; simpl; intros Hs; split_cmp; simpl;
    rewrite ?lenZ_app in *; change (lenZ [r]) with 1 in *; lia.
Qed.

(** An iteration that does not leave the loop keeps the shape; one that
    does leaves a [stopped] state. *)
Lemma scanRune_shape (st : Scan) (i : Z) (r : rune) :
  shape st ->
  if snd (scanRune st i r) then stopped (fst (scanRune st i r))
  else shape (fst (scanRune st i r)).
Proof.
  intros Hs. unfold scanRune.
  destruct (unicode_IsDigit r); [now apply scanDigit_shape|].
  destruct (r =? 46); [exact Hs|].
  destruct ((r =? 45) || (r =? 43)).
  { destruct st as [sec sg y m d h mi s ss z u]. unfold shape in *.
    destruct sec; simpl in *; try exact Hs.
    pose proof (lenZ_nonneg z). lia. }
  destruct ((unicode_ToUpper r =? 84) || (r =? 58) || (r =? 47)); [exact Hs|].
  destruct (unicode_ToUpper r =? 90).
  { destruct st as [sec sg y m d h mi s ss z u]. unfold shape, stopped in *.
    pose proof (lenZ_nonneg z).
    destruct sec; simpl in *; try exact Hs;
      rewrite ?lenZ_app; change (lenZ [48; 48; 48; 48]) with 4; lia. }
  destruct (unicode_IsSpace r); [exact Hs|].
  destruct st as [sec sg y m d h mi s ss z u]. exact Hs.
Qed.

Lemma scanLoop_shape (rs : list (Z * rune)) (st : Scan) :
  shape st -> shape (scanLoop st rs) \/ stopped (scanLoop st rs).
Proof.
  revert st. induction rs as [|[i r] rs IH]; intros st Hs; simpl.
  - now left.
  - pose proof (scanRune_shape st i r Hs) as Hstep.
    destruct (scanRune st i r) as [st' brk]. simpl in Hstep.
    destruct brk; [now right | now apply IH].
Qed.

Lemma scan_shape (timeStr : string) :
  shape (scan timeStr) \/ stopped (scan timeStr).
Proof. apply scanLoop_shape, shape_init. Qed.

(** Consequences used below: the time-of-day buffers are filled in order
    behind a complete date, and nothing reaches the zone buffer before the
    seconds are complete. *)
Lemma scan_order (timeStr : string) :
  let st := scan timeStr in
  (lenZ (hourPart st) <> 0 ->
     lenZ (yearPart st) = 4 /\ lenZ (monthPart st) = 2 /\ lenZ (dayPart st) = 2)
  /\ (lenZ (minutePart st) <> 0 -> lenZ (hourPart st) = 2)
  /\ (lenZ (secondPart st) <> 0 -> lenZ (minutePart st) = 2)
  /\ (lenZ (secondPart st) <> 2 -> lenZ (zonePart st) = 0)
  /\ lenZ (hourPart st) <= 2 /\ lenZ (minutePart st) <= 2
  /\ lenZ (secondPart st) <= 2.
Proof.
  intros st. destruct (scan_shape timeStr) as [Hs | Hs]; fold st in Hs.
  - unfold shape in Hs. destruct (currentSection st); lia.
  - unfold stopped in Hs. lia.
Qed.

End ScannerFacts.

(** ** Post-scan validation *)

Lemma isZero_app (a b : list rune) : isZero (a ++ b) = isZero a && isZero b.
Proof. unfold isZero. apply forallb_app. Qed.

Lemma padZone_cases (z : list rune) :
  (lenZ z = 0 /\ padZone z = Ok (z ++ [48; 48; 48; 48], false))
  \/ (lenZ z = 2 /\ padZone z = Ok (z ++ [48; 48], true))
  \/ ((lenZ z = 1 \/ lenZ z = 3) /\ padZone z = Err (AmbiguousZoneLength (lenZ z)))
  \/ (4 <= lenZ z /\ padZone z = Ok (z, true)).
Proof.
  pose proof (lenZ_nonneg z). unfold padZone, zoneMax.
  split_cmp; simpl; try lia; auto 10.
Qed.

Ltac obind_inv H :=
  let a := fresh "a" in
  let Ha := fresh "Ha" in
  apply obind_Ok in H as (a & Ha & H).

Section PostScanFacts.
Context `{GoLib}.

Lemma parseISOFields_scan (timeStr : string) :
  len timeStr <= 35 -> unparsed (scan timeStr) = [] ->
  parseISOFields timeStr = decodeScan (scan timeStr).
Proof.
  intros Hlen Hu. unfold parseISOFields, maxLength.
  destruct (Z.ltb_spec 35 (len timeStr)); [lia|]. now rewrite Hu.
Qed.

Lemma ParseISOTimestamp_Err (timeStr : string) (l : Location) (c : zones)
  (e : Error) :
  parseISOFields timeStr = Err e -> ParseISOTimestamp timeStr l c = (Err e, c).
Proof. unfold ParseISOTimestamp. now intros ->. Qed.

Lemma decodeFields_defaulted (st : Scan) (f : Fields) :
  timeAllEmpty st -> decodeFields st = Ok f ->
  fHour f = 0 /\ fMinute f = 0 /\ fSecond f = 0.
Proof.
  intros (Hh & Hm & Hs) Hd. unfold decodeFields in Hd.
  rewrite Hh, Hm, Hs in Hd. simpl in Hd.
  do 7 obind_inv Hd. injection Hd as <-. now simpl.
Qed.

Lemma decodeFields_short (st : Scan) (f : Field) :
  lenZ (yearPart st) = 4 -> lenZ (monthPart st) = 2 -> lenZ (dayPart st) = 2 ->
  ~ timeAllEmpty st -> firstShortTime st = Some f ->
  decodeFields st = Err (FieldLengthMismatch f).
Proof.
  intros Hy Hm Hd Hne Hf. unfold decodeFields.
  assert (Hdef : defaultTime (hourPart st) (minutePart st) (secondPart st)
                 = (hourPart st, minutePart st, secondPart st)).
  { unfold defaultTime.
    destruct (Z.eqb_spec (lenZ (hourPart st)) 0) as [E1|]; [|reflexivity].
    destruct (Z.eqb_spec (lenZ (minutePart st)) 0) as [E2|]; [|reflexivity].
    destruct (Z.eqb_spec (lenZ (secondPart st)) 0) as [E3|]; [|reflexivity].
    elim Hne. unfold timeAllEmpty. now rewrite <- !lenZ_nil_iff. }
  rewrite Hdef. unfold checkLen, yearMax, monthMax, dayMax, hourMax, minuteMax,
    secondMax. rewrite Hy, Hm, Hd. simpl.
  unfold firstShortTime in Hf.
  destruct (lenZ (hourPart st) =? 2); simpl in *; [|congruence].
  destruct (lenZ (minutePart st) =? 2); simpl in *; [|congruence].
  destruct (lenZ (secondPart st) =? 2); simpl in *; [discriminate|congruence].
Qed.

End PostScanFacts.

(** C9 as stated fails.  In "20060102151" the hour is "15", the minute
    "1" and the second is missing, yet the error names the minute, and the
    missing second is never named; in "200601021" the minute and the second
    are missing and the error names the hour, which is present. *)
Lemma C9_counterexample :
  hourPart (@scan sampleLib "20060102151") = [49; 53]
  /\ minutePart (@scan sampleLib "20060102151") = [49]
  /\ secondPart (@scan sampleLib "20060102151") = []
  /\ @ParseISOTimestamp sampleLib "20060102151" UTC ∅
     = (Err (FieldLengthMismatch Minute), ∅)
  /\ hourPart (@scan sampleLib "200601021") = [49]
  /\ minutePart (@scan sampleLib "200601021") = []
  /\ secondPart (@scan sampleLib "200601021") = []
  /\ @ParseISOTimestamp sampleLib "200601021" UTC ∅
     = (Err (FieldLengthMismatch Hour), ∅).
Proof. repeat split; vm_compute; reflexivity. Qed.

(** C9, amended.  For an input of at most 35 bytes scanned without unparsed
    characters: if the hour, minute and second buffers are all empty, all
    three are replaced by "00" together and every successful parse has hour,
    minute and second 0; "20060102" with UTC as default is
    2006-01-02T00:00:00 UTC; and if at least one of the three is non-empty,
    none is replaced, and as soon as one of them is not two digits long,
    missing or not, the parse fails with the field-length error that names
    the first of hour, minute, second, in this order, that is not two digits
    long: a missing field is named only when the fields before it are
    complete. *)
Theorem C9_time_default `{GoLib} (timeStr : string) (location : Location)
  (c : zones) :
  let st := scan timeStr in
  len timeStr <= 35 -> unparsed st = [] ->
  (timeAllEmpty st ->
     defaultTime (hourPart st) (minutePart st) (secondPart st)
     = ([48; 48], [48; 48], [48; 48])
     /\ forall p, parseISOFields timeStr = Ok p ->
          fHour (pFields p) = 0 /\ fMinute (pFields p) = 0
          /\ fSecond (pFields p) = 0)
  /\ (~ timeAllEmpty st ->
     defaultTime (hourPart st) (minutePart st) (secondPart st)
     = (hourPart st, minutePart st, secondPart st)
     /\ (lenZ (hourPart st) <> 2 ->
         ParseISOTimestamp timeStr location c
         = (Err (FieldLengthMismatch Hour), c))
     /\ (lenZ (hourPart st) = 2 -> lenZ (minutePart st) <> 2 ->
         ParseISOTimestamp timeStr location c
         = (Err (FieldLengthMismatch Minute), c))
     /\ (lenZ (hourPart st) = 2 -> lenZ (minutePart st) = 2 ->
         lenZ (secondPart st) <> 2 ->
         ParseISOTimestamp timeStr location c
         = (Err (FieldLengthMismatch Second), c)))
  /\ ParseISOTimestamp "20060102" UTC c = (Ok (mkTime 1136160000 0 UTC), c)
  /\ Date (mkTime 1136160000 0 UTC) = (2006, 1, 2)
  /\ Clock (mkTime 1136160000 0 UTC) = (0, 0, 0).
Proof.
  intros st Hlen Hu. split; [|split; [|split; [|split]]].
  - intros Hall. split.
    + destruct Hall as (-> & -> & ->). reflexivity.
    + intros p Hp. rewrite parseISOFields_scan in Hp by assumption.
      unfold decodeScan in Hp. obind_inv Hp. destruct a as [zp zf].
      obind_inv Hp. obind_inv Hp. injection Hp as <-. simpl.
      now apply (decodeFields_defaulted st).
  - intros Hne.
    pose proof (scan_order timeStr) as (Ho1 & Ho2 & Ho3 & Ho4 & Hb1 & Hb2 & Hb3).
    fold st in Ho1, Ho2, Ho3, Ho4, Hb1, Hb2, Hb3.
    pose proof (lenZ_nonneg (hourPart st)).
    pose proof (lenZ_nonneg (minutePart st)).
    pose proof (lenZ_nonneg (secondPart st)).
    assert (Hh : lenZ (hourPart st) <> 0).
    { intros E. apply Hne. unfold timeAllEmpty.
      rewrite <- !lenZ_nil_iff. lia. }
    assert (Hfail : forall f, lenZ (secondPart st) <> 2 ->
              firstShortTime st = Some f ->
              ParseISOTimestamp timeStr location c
              = (Err (FieldLengthMismatch f), c)).
    { intros f Hs Hf. apply ParseISOTimestamp_Err.
      rewrite parseISOFields_scan by assumption.
      unfold decodeScan. fold st.
      destruct (padZone_cases (zonePart st))
        as [[_ ->] | [[Hz _] | [[Hz _] | [Hz _]]]]; try lia.
      simpl. destruct (Ho1 Hh) as (Hy & Hm & Hd).
      now rewrite (decodeFields_short st f). }
    split; [|split; [|split]].
    + unfold defaultTime.
      destruct (Z.eqb_spec (lenZ (hourPart st)) 0); [lia | reflexivity].
    + intros Hh2. apply Hfail; [lia|]. unfold firstShortTime.
      now destruct (Z.eqb_spec (lenZ (hourPart st)) 2).
    + intros Hh2 Hm2. apply Hfail; [lia|]. unfold firstShortTime.
      rewrite Hh2. cbn [Z.eqb negb Pos.eqb].
      now destruct (Z.eqb_spec (lenZ (minutePart st)) 2).
    + intros Hh2 Hm2 Hs2. apply Hfail; [exact Hs2|]. unfold firstShortTime.
      rewrite Hh2, Hm2. cbn [Z.eqb negb Pos.eqb].
      now destruct (Z.eqb_spec (lenZ (secondPart st)) 2).
  - vm_compute. reflexivity.
  - vm_compute. reflexivity.
  - vm_compute. reflexivity.
Qed.

(** Witness of [C9_time_default]: "20060102" has no time of day, and
    "2006010215" has an hour but no minute. *)
Lemma C9_time_default_witness :
  defaultTime (hourPart (@scan sampleLib "20060102"))
    (minutePart (@scan sampleLib "20060102"))
    (secondPart (@scan sampleLib "20060102"))
  = ([48; 48], [48; 48], [48; 48])
  /\ @ParseISOTimestamp sampleLib "2006010215" UTC ∅
     = (Err (FieldLengthMismatch Minute), ∅).
Proof.
  split.
  - apply (@C9_time_default sampleLib "20060102" UTC ∅);
      [vm_compute; discriminate | reflexivity | vm_compute; auto].
  - destruct (@C9_time_default sampleLib "2006010215" UTC ∅)
      as (_ & Hsome & _); [vm_compute; discriminate | reflexivity |].
    destruct Hsome as (_ & _ & Hmin & _).
    + vm_compute. intros (Hh & _). discriminate Hh.
    + apply Hmin; [reflexivity | vm_compute; discriminate].
Defined.

(** ** Zone resolution *)

Lemma asciiDigit_cases (a : Z) :
  isAsciiDigit a = true ->
  a = 48 \/ a = 49 \/ a = 50 \/ a = 51 \/ a = 52 \/ a = 53 \/ a = 54
  \/ a = 55 \/ a = 56 \/ a = 57.
Proof.
  unfold isAsciiDigit, between. intros Ha.
  apply andb_true_iff in Ha as [Hlo Hhi].
  apply Z.leb_le in Hlo. apply Z.leb_le in Hhi. lia.
Qed.

Ltac digit_cases a H :=
  apply asciiDigit_cases in H;
  destruct H as [H|[H|[H|[H|[H|[H|[H|[H|[H|H]]]]]]]]]; subst a.

(** Two ASCII digits decode to their decimal value, whether or not the
    all-zero shortcut is taken. *)
Lemma decodeAtoi_2 (a b : Z) :
  isAsciiDigit a = true -> isAsciiDigit b = true ->
  decodeAtoi [a; b] = Ok (decimal [a; b]).
Proof.
  intros Ha Hb. digit_cases a Ha; digit_cases b Hb; vm_compute; reflexivity.
Qed.

Lemma decimal_2_bounds (a b : Z) :
  isAsciiDigit a = true -> isAsciiDigit b = true ->
  0 <= decimal [a; b] <= 99.
Proof.
  intros Ha Hb. digit_cases a Ha; digit_cases b Hb; vm_compute;
    split; discriminate.
Qed.

(** Zone resolution on a padded buffer of four ASCII digits that are not all
    zero. *)
Lemma resolveZone_digits (a b c d : Z) (positive : bool) :
  isAsciiDigit a = true -> isAsciiDigit b = true ->
  isAsciiDigit c = true -> isAsciiDigit d = true ->
  isZero [a; b; c; d] = false ->
  resolveZone [a; b; c; d] true positive
  = if quarterHour (decimal [c; d])
    then Ok (ZoneOffset (signed positive
                           (decimal [a; b] * 60 * 60 + decimal [c; d] * 60)))
    else Err (OffsetNotOnQuarterHour (decimal [c; d])).
Proof.
  intros Ha Hb Hc Hd Hz. unfold resolveZone. rewrite Hz.
  cbn [negb firstn skipn]. rewrite (decodeAtoi_2 a b Ha Hb).
  rewrite (decodeAtoi_2 c d Hc Hd). cbn [obind].
  destruct positive; reflexivity.
Qed.

Section ZoneFacts.
Context `{GoLib}.

(** [ParseISOTimestamp] once the scan is clean and the fields decode: the
    outcome is that of zone resolution. *)
Lemma ParseISOTimestamp_resolved (timeStr : string) (l : Location)
  (c : zones) (f : Fields) (zp : list rune) (zf : bool) :
  let st := scan timeStr in
  len timeStr <= 35 -> unparsed st = [] -> decodeFields st = Ok f ->
  padZone (zonePart st) = Ok (zp, zf) ->
  ParseISOTimestamp timeStr l c
  = match resolveZone zp zf (offsetPositive st) with
    | Ok ZoneDefault => (Ok (dateOf f l), c)
    | Ok ZoneUTC => (Ok (dateOf f UTC), c)
    | Ok (ZoneOffset offsetSec) =>
      let '(l', c') := LocationFromOffset offsetSec c in (Ok (dateOf f l'), c')
    | Err e => (Err e, c)
    | Panic => (Panic, c)
    end.
Proof.
  intros st Hlen Hu Hf Hp. unfold ParseISOTimestamp.
  rewrite parseISOFields_scan by assumption. unfold decodeScan. fold st.
  rewrite Hp. cbn [obind]. rewrite Hf. cbn [obind].
  destruct (resolveZone zp zf (offsetPositive st)) as [[| |o] | e |];
    reflexivity.
Qed.

End ZoneFacts.

(** ** Signs, Z and unparsed characters in the scanner *)

Section ScanRuneFacts.
Context `{GoLib}.

Lemma scanDigit_unparsed (st : Scan) (i : Z) (r : rune) :
  scanDigit st i r = flag st r i
  \/ unparsed (scanDigit st i r) = unparsed st.
Proof.
  destruct st as [sec sg y m d h mi s ss z u].
  unfold scanDigit, addIf, advanceIf. simpl.
  destruct sec; simpl; try (now left);
    right; repeat match goal with |- context [if ?b then _ else _] =>
                    destruct b; simpl end; reflexivity.
Qed.

(** An iteration either records its rune with its position and goes on, or
    leaves the list of unparsed characters as it was. *)
Lemma scanRune_cases (st : Scan) (i : Z) (r : rune) :
  scanRune st i r = (flag st r i, false)
  \/ unparsed (fst (scanRune st i r)) = unparsed st.
Proof.
  unfold scanRune.
  destruct (unicode_IsDigit r).
  { destruct (scanDigit_unparsed st i r) as [-> | Hu]; [now left | now right]. }
  destruct (r =? 46); [now right|].
  destruct ((r =? 45) || (r =? 43)).
  { right. now destruct (isSubsecond (currentSection st)). }
  destruct ((unicode_ToUpper r =? 84) || (r =? 58) || (r =? 47)); [now right|].
  destruct (unicode_ToUpper r =? 90).
  { destruct (inZoneOrSubsecond (currentSection st)); [now right | now left]. }
  destruct (unicode_IsSpace r); [now right | now left].
Qed.

(** The loop is left only at a Z or z met in the Subsecond or Zone state. *)
Lemma scanRune_break (st : Scan) (i : Z) (r : rune) :
  snd (scanRune st i r) = true ->
  unicode_ToUpper r = 0x5A /\ inZoneOrSubsecond (currentSection st) = true
  /\ fst (scanRune st i r) = withZone st (zonePart st ++ [48; 48; 48; 48]).
Proof.
  unfold scanRune.
  destruct (unicode_IsDigit r); [discriminate|].
  destruct (r =? 46); [discriminate|].
  destruct ((r =? 45) || (r =? 43)).
  { now destruct (isSubsecond (currentSection st)). }
  destruct ((unicode_ToUpper r =? 84) || (r =? 58) || (r =? 47));
    [discriminate|].
  destruct (Z.eqb_spec (unicode_ToUpper r) 90) as [Hz|].
  - destruct (inZoneOrSubsecond (currentSection st)); [auto | discriminate].
  - now destruct (unicode_IsSpace r).
Qed.

Lemma scanRune_foreign (st : Scan) (i : Z) (r : rune) :
  foreign r = true -> scanRune st i r = (flag st r i, false).
Proof.
  unfold foreign, scanRune. rewrite !andb_true_iff, !negb_true_iff.
  intros (((((-> & ->) & ->) & ->) & ->) & ->). reflexivity.
Qed.

Lemma scanRune_mono (st : Scan) (i : Z) (r : rune) (x : rune * Z) :
  List.In x (unparsed st) -> List.In x (unparsed (fst (scanRune st i r))).
Proof.
  intros Hx. destruct (scanRune_cases st i r) as [-> | ->]; [|exact Hx].
  simpl. apply in_or_app. now left.
Qed.

Lemma scanLoop_mono (rs : list (Z * rune)) (st : Scan) (x : rune * Z) :
  List.In x (unparsed st) -> List.In x (unparsed (scanLoop st rs)).
Proof.
  revert st. induction rs as [|[i r] rs IH]; intros st Hx; simpl; [exact Hx|].
  pose proof (scanRune_mono st i r x Hx) as Hstep.
  destruct (scanRune st i r) as [st' brk]. simpl in Hstep.
  destruct brk; [exact Hstep | now apply IH].
Qed.

(** Every foreign rune met before any Z or z ends up in the list, with its
    byte offset. *)
Lemma scanLoop_collects (before after : list (Z * rune)) (i : Z) (r : rune)
  (st : Scan) :
  Forall (fun e => unicode_ToUpper (snd e) <> 0x5A) before ->
  foreign r = true ->
  List.In (r, i) (unparsed (scanLoop st (before ++ (i, r) :: after))).
Proof.
  intros Hb Hr. revert st.
  induction Hb as [|[j q] before Hq Hb IH]; intros st; simpl.
  - rewrite (scanRune_foreign st i r Hr). apply scanLoop_mono. simpl.
    apply in_or_app. right. now left.
  - destruct (scanRune st j q) as [st' brk] eqn:Hstep.
    destruct brk; [|apply IH].
    pose proof (scanRune_break st j q) as Hbrk. rewrite Hstep in Hbrk.
    simpl in Hq. destruct (Hbrk eq_refl) as [Hz _]. now elim Hq.
Qed.

Lemma zulu_cases (r : rune) :
  unicode_ToUpper r = 0x5A -> r = 0x5A \/ r = 0x7A.
Proof.
  unfold unicode_ToUpper, MaxASCII, between.
  destruct (Z.leb_spec r 127).
  - destruct (Z.leb_spec 97 r), (Z.leb_spec r 122); simpl; lia.
  - destruct (Z.eqb_spec r 305); [discriminate|].
    destruct (Z.eqb_spec r 383); [discriminate | lia].
Qed.

Lemma digit_not_zulu (r : rune) :
  unicode_IsDigit r = true -> (unicode_ToUpper r =? 0x5A) = false.
Proof.
  intros Hd. destruct (Z.eqb_spec (unicode_ToUpper r) 90) as [Hz|]; [|reflexivity].
  destruct (zulu_cases r Hz) as [-> | ->]; discriminate Hd.
Qed.

(** A digit is stored in the buffer of its section or dropped there, or,
    in the After state, recorded. *)
Lemma scanDigit_records (st : Scan) (i : Z) (r : rune) :
  unparsed (scanDigit st i r)
  = unparsed st
      ++ (if match currentSection st with afterSection => true | _ => false end
          then [(r, i)] else []).
Proof.
  destruct st as [sec sg y m d h mi s ss z u].
  unfold scanDigit, addIf, advanceIf. cbn [currentSection].
  destruct sec; cbn;
    repeat match goal with |- context [if ?b then _ else _] =>
             destruct b; cbn end;
    now rewrite ?app_nil_r.
Qed.

(** One iteration adds its rune and offset to the list exactly when the
    rune offends in the section it is met in. *)
Lemma scanRune_records (st : Scan) (i : Z) (r : rune) :
  unparsed (fst (scanRune st i r))
  = unparsed st ++ (if offends (currentSection st) r then [(r, i)] else []).
Proof.
  unfold scanRune, offends, foreign.
  destruct (unicode_IsDigit r) eqn:Hd.
  { cbn [fst]. rewrite scanDigit_records, (digit_not_zulu r Hd).
    destruct (currentSection st); reflexivity. }
  cbn [andb negb orb].
  destruct (r =? 46) eqn:Hdot.
  { apply Z.eqb_eq in Hdot. subst r. cbn. now rewrite app_nil_r. }
  destruct ((r =? 45) || (r =? 43)) eqn:Hsign.
  { assert (Hz : (unicode_ToUpper r =? 90) = false).
    { apply orb_true_iff in Hsign as [E | E]; apply Z.eqb_eq in E; now subst r. }
    rewrite Hz. cbn [andb negb orb].
    destruct (isSubsecond (currentSection st)); cbn; now rewrite app_nil_r. }
  destruct ((unicode_ToUpper r =? 84) || (r =? 58) || (r =? 47)) eqn:Hsep.
  { assert (Hz : (unicode_ToUpper r =? 90) = false).
    { apply orb_true_iff in Hsep as [E | E];
        [apply orb_true_iff in E as [E | E]|].
      - apply Z.eqb_eq in E. rewrite E. reflexivity.
      - apply Z.eqb_eq in E. now subst r.
      - apply Z.eqb_eq in E. now subst r. }
    rewrite Hz. cbn. now rewrite app_nil_r. }
  cbn [andb negb orb].
  destruct (unicode_ToUpper r =? 90).
  { cbn [andb negb orb].
    destruct (inZoneOrSubsecond (currentSection st)); cbn;
      now rewrite ?app_nil_r. }
  cbn [andb negb orb].
  destruct (unicode_IsSpace r); cbn; now rewrite ?app_nil_r.
Qed.

(** The list of unparsed characters after the loop: the offending runes
    among those the loop met, each with its offset, in the order of the
    input. *)
Lemma scanLoop_records (rs : list (Z * rune)) (st : Scan) :
  unparsed (scanLoop st rs)
  = unparsed st ++ map recorded (List.filter offending (examined st rs)).
Proof.
  revert st. induction rs as [|[i r] rs IH]; intros st.
  - cbn. now rewrite app_nil_r.
  - cbn [scanLoop examined List.filter offending].
    pose proof (scanRune_records st i r) as Hstep.
    destruct (scanRune st i r) as [st' brk]. cbn [fst snd] in Hstep.
    destruct brk.
    + rewrite Hstep. destruct (offends (currentSection st) r); reflexivity.
    + rewrite IH, Hstep.
      destruct (offends (currentSection st) r); cbn [map recorded app];
        now rewrite <- ?app_assoc.
Qed.

(** The loop meets every rune of the input, up to and including the first
    Z or z met in the Subsecond or Zone state, if there is one. *)
Lemma examined_extent (rs : list (Z * rune)) (st : Scan) :
  map met (examined st rs) = rs
  \/ exists ex s i r after,
       examined st rs = ex ++ [(s, i, r)]
       /\ rs = map met ex ++ (i, r) :: after
       /\ unicode_ToUpper r = 0x5A /\ inZoneOrSubsecond s = true.
Proof.
  revert st. induction rs as [|[i r] rs IH]; intros st; [now left|].
  cbn [examined]. pose proof (scanRune_break st i r) as Hbrk.
  destruct (scanRune st i r) as [st' brk]. cbn [fst snd] in Hbrk.
  destruct brk.
  - right. destruct (Hbrk eq_refl) as (Hz & Hs & _).
    exists [], (currentSection st), i, r, rs. auto.
  - destruct (IH st') as [Hall | (ex & s & j & q & after & He & Hr & Hz & Hs)].
    + left. cbn [map met]. now rewrite Hall.
    + right. exists ((currentSection st, i, r) :: ex), s, j, q, after.
      rewrite He. cbn [map met app]. rewrite <- Hr. auto.
Qed.

(** The section an iteration is listed with is the one the scanner is in
    after the runes before it. *)
Lemma examined_section (rs : list (Z * rune)) (st : Scan)
  (ex ex' : list (ScanSection * Z * rune)) (s : ScanSection) (i : Z)
  (r : rune) :
  examined st rs = ex ++ (s, i, r) :: ex' ->
  s = currentSection (scanLoop st (map met ex)).
Proof.
  revert st ex. induction rs as [|[j q] rs IH]; intros st ex He.
  - destruct ex; discriminate He.
  - cbn [examined] in He. destruct ex as [|e ex].
    + cbn in He. injection He as <- _ _ _. reflexivity.
    + cbn [app] in He. injection He as <- Hrest.
      cbn [map met scanLoop].
      destruct (scanRune st j q) as [st' brk]. destruct brk.
      * destruct ex; discriminate Hrest.
      * now apply IH.
Qed.

(** A sign is taken into account in the Subsecond state only; elsewhere it
    changes nothing. *)
Lemma scanRune_sign (st : Scan) (i : Z) (r : rune) :
  r = 0x2B \/ r = 0x2D ->
  scanRune st i r
  = if isSubsecond (currentSection st)
    then (withSection (withSign st (r =? 0x2B)) zoneSection, false)
    else (st, false).
Proof. intros [-> | ->]; reflexivity. Qed.

(** Z or z: in the Subsecond or Zone state "0000" is appended to the zone
    buffer and the rest of the input is dropped; elsewhere the rune is
    recorded as unparsed. *)
Lemma scanLoop_Z (st : Scan) (i : Z) (r : rune) (rest : list (Z * rune)) :
  r = 0x5A \/ r = 0x7A ->
  (inZoneOrSubsecond (currentSection st) = true ->
   scanLoop st ((i, r) :: rest) = withZone st (zonePart st ++ [48; 48; 48; 48]))
  /\ (inZoneOrSubsecond (currentSection st) = false ->
      scanRune st i r = (flag st r i, false)).
Proof.
  intros Hr. split; intros Hs.
  - simpl. destruct Hr as [-> | ->]; unfold scanRune; simpl; now rewrite Hs.
  - destruct Hr as [-> | ->]; unfold scanRune; simpl; now rewrite Hs.
Qed.

End ScanRuneFacts.

(** C4, at the failing input.  "20060102T150405.123456789+0700" holds no
    '-' at all, its only sign is '+', and yet the resolved offset is
    -25200 s: the ninth subsecond digit has already moved the scanner to the
    Zone state, where the '+' is ignored and [offsetPositive] keeps its
    initial [false].  The same happens when the zone digits follow nine
    subsecond digits with no sign.  What the second half of the claim says
    does hold: a sign is recorded, and forces the Zone state, in the
    Subsecond state only. *)
Theorem C4_plus_sign_lost `{GoLib} :
  forallb (fun b => negb (b =? 0x2D))
    (bytes "20060102T150405.123456789+0700") = true
  /\ parseISOFields "20060102T150405.123456789+0700"
     = Ok (mkParsed (mkFields 2006 1 2 15 4 5 123456789) (ZoneOffset (-25200)))
  /\ fst (ParseISOTimestamp "20060102T150405.123456789+0700" UTC ∅)
     = Ok (mkTime 1136239445 123456789 (FixedZone "FixedZone" (-25200)))
  /\ parseISOFields "20060102T150405.1234567890700"
     = Ok (mkParsed (mkFields 2006 1 2 15 4 5 123456789) (ZoneOffset (-25200)))
  /\ (forall st i r, r = 0x2B \/ r = 0x2D ->
        scanRune st i r
        = if isSubsecond (currentSection st)
          then (withSection (withSign st (r =? 0x2B)) zoneSection, false)
          else (st, false)).
Proof.
  split; [reflexivity|]. split; [vm_compute; reflexivity|].
  split; [vm_compute; reflexivity|]. split; [vm_compute; reflexivity|].
  apply scanRune_sign.
Qed.

(** C5, at the failing input.  In "20060102T150405+07Z" the Z arrives in
    the Zone state with "07" already in the zone buffer; "0000" is appended,
    the buffer becomes "070000" and the offset resolves to +25200 s, not to
    UTC.  The rest of the claim holds: a Z or z in the Subsecond or Zone
    state ends the scan at once and drops the remaining input, on an empty
    zone buffer it leaves exactly "0000", in any other state it is recorded
    as unparsed, and "20060102T150405Z" and "20060102T150405+0000" give the
    same instant in UTC. *)
Theorem C5_Z_appended_to_zone `{GoLib} :
  zonePart (scan "20060102T150405+07Z") = [48; 55; 48; 48; 48; 48]
  /\ parseISOFields "20060102T150405+07Z"
     = Ok (mkParsed (mkFields 2006 1 2 15 4 5 0) (ZoneOffset 25200))
  /\ fst (ParseISOTimestamp "20060102T150405+07Z" UTC ∅)
     = Ok (mkTime 1136189045 0 (FixedZone "FixedZone" 25200))
  /\ (forall st i r rest, r = 0x5A \/ r = 0x7A ->
        (inZoneOrSubsecond (currentSection st) = true ->
         scanLoop st ((i, r) :: rest)
         = withZone st (zonePart st ++ [48; 48; 48; 48]))
        /\ (inZoneOrSubsecond (currentSection st) = false ->
            scanRune st i r = (flag st r i, false)))
  /\ (forall l c,
        ParseISOTimestamp "20060102T150405Z" l c
        = (Ok (mkTime 1136214245 0 UTC), c)
        /\ ParseISOTimestamp "20060102T150405+0000" l c
           = (Ok (mkTime 1136214245 0 UTC), c)).
Proof.
  split; [vm_compute; reflexivity|]. split; [vm_compute; reflexivity|].
  split; [vm_compute; reflexivity|]. split.
  - intros st i r rest Hr. now apply scanLoop_Z.
  - intros l c. split; vm_compute; reflexivity.
Qed.

(** C7 as stated fails where a Z ends the scan, and where the input is
    never scanned.  In "2006!0102T150405Z!" the '!' at offset 17 is a rune
    the scanner rejects in every state, yet the error lists only the '!' at
    offset 4; and "20060102T150405Z!!" holds two such runes and parses
    without error.  The 36 bytes of "2006!01!02T15:04:05.000000000+07:00!"
    hold three such runes, and the error is the one for an input longer
    than 35 bytes, which lists none of them. *)
Lemma C7_counterexample :
  nth_error (range "2006!0102T150405Z!") 17 = Some (17, 33)
  /\ (forall st, @scanRune sampleLib st 17 33 = (flag st 33 17, false))
  /\ @parseISOFields sampleLib "2006!0102T150405Z!"
     = Err (UnparsedCharacter [(33, 4)] "2006!0102T150405Z!")
  /\ fst (@ParseISOTimestamp sampleLib "20060102T150405Z!!" UTC ∅)
     = Ok (mkTime 1136214245 0 UTC)
  /\ @parseISOFields sampleLib "2006!01!02T15:04:05.000000000+07:00!"
     = Err (InputTooLong "2006!01!02T15:04:05.000000000+07:00" 36).
Proof.
  split; [reflexivity|]. split; [intros st; reflexivity|].
  repeat split; vm_compute; reflexivity.
Qed.

(** C7, amended.  The scanner does not stop at an unparsable character.
    The list of unparsed characters it ends with holds, in the order of
    the input and each with its byte offset, exactly the offending runes
    among those the loop met: a digit met in the After state, a Z or z met
    outside the Subsecond and Zone states, and any rune that is not a
    digit, one of [. - + T t : / Z z] or white space, whatever the state.
    Each rune is met in the state the scanner is in after the runes before
    it, and the loop meets the whole input, or the input up to and
    including the first Z or z met in the Subsecond or Zone state.  So a
    rune that offends where it is met is reported, also after a reported Z;
    and for an input of at most 35 bytes with at least one reported
    character the parse returns the single error that carries the whole
    list. *)
Theorem C7_unparsed_collected `{GoLib} (timeStr : string) :
  unparsed (scan timeStr)
  = map recorded (List.filter offending (examined initScan (range timeStr)))
  /\ (forall ex s i r ex',
        examined initScan (range timeStr) = ex ++ (s, i, r) :: ex' ->
        s = currentSection (scanLoop initScan (map met ex)))
  /\ (map met (examined initScan (range timeStr)) = range timeStr
      \/ exists ex s i r after,
           examined initScan (range timeStr) = ex ++ [(s, i, r)]
           /\ range timeStr = map met ex ++ (i, r) :: after
           /\ unicode_ToUpper r = 0x5A /\ inZoneOrSubsecond s = true)
  /\ (forall s i r,
        List.In (s, i, r) (examined initScan (range timeStr)) ->
        offends s r = true ->
        List.In (r, i) (unparsed (scan timeStr)))
  /\ (forall before i r after,
        range timeStr = before ++ (i, r) :: after ->
        Forall (fun e => unicode_ToUpper (snd e) <> 0x5A) before ->
        foreign r = true ->
        List.In (r, i) (unparsed (scan timeStr)))
  /\ (len timeStr <= 35 -> unparsed (scan timeStr) <> [] ->
      forall l c,
        ParseISOTimestamp timeStr l c
        = (Err (UnparsedCharacter (unparsed (scan timeStr)) timeStr), c)).
Proof.
  assert (Hrec : unparsed (scan timeStr)
                 = map recorded
                     (List.filter offending (examined initScan (range timeStr)))).
  { unfold scan. now rewrite scanLoop_records. }
  split; [exact Hrec|]. split.
  { intros ex s i r ex'. apply examined_section. }
  split; [apply examined_extent|]. split.
  { intros s i r Hin Hoff. rewrite Hrec.
    change (r, i) with (recorded (s, i, r)). apply in_map.
    apply List.filter_In. now split. }
  split.
  - intros before i r after Hr Hb Hf. unfold scan. rewrite Hr.
    now apply scanLoop_collects.
  - intros Hlen Hne l c. apply ParseISOTimestamp_Err.
    unfold parseISOFields, maxLength.
    destruct (Z.ltb_spec 35 (len timeStr)); [lia|].
    destruct (unparsed (scan timeStr)) as [|x u]; [now elim Hne|].
    reflexivity.
Qed.

(** Witness of [C7_unparsed_collected] at "20060102T150405+07005Z!": the
    zone buffer is full after "0700", so the '5' at offset 20 is a digit
    met in the After state, the 'Z' at offset 21 a Z outside the Subsecond
    and Zone states, and the '!' at offset 22 a rune after a reported Z;
    all three are reported, in one error. *)
Lemma C7_unparsed_collected_witness :
  unparsed (@scan sampleLib "20060102T150405+07005Z!")
  = [(53, 20); (90, 21); (33, 22)]
  /\ map met (@examined sampleLib initScan (range "20060102T150405+07005Z!"))
     = range "20060102T150405+07005Z!"
  /\ @ParseISOTimestamp sampleLib "20060102T150405+07005Z!" UTC ∅
     = (Err (UnparsedCharacter [(53, 20); (90, 21); (33, 22)]
               "20060102T150405+07005Z!"), ∅).
Proof.
  destruct (@C7_unparsed_collected sampleLib "20060102T150405+07005Z!")
    as (Hrec & _ & _ & _ & _ & Herr).
  split; [rewrite Hrec; vm_compute; reflexivity|].
  split; [vm_compute; reflexivity|].
  rewrite (Herr ltac:(vm_compute; discriminate) ltac:(vm_compute; discriminate)
             UTC ∅).
  rewrite Hrec. vm_compute. reflexivity.
Defined.

(** ** The offset cache *)

Lemma cacheSound_empty : cacheSound ∅.
Proof. intros k l Hk. rewrite lookup_empty in Hk. discriminate. Qed.

Lemma LocationFromOffset_sound (offsetSec : Z) (c : zones) :
  cacheSound c ->
  fst (LocationFromOffset offsetSec c) = FixedZone "FixedZone" offsetSec
  /\ cacheSound (snd (LocationFromOffset offsetSec c)).
Proof.
  intros Hc. unfold LocationFromOffset.
  destruct (c !! offsetSec) as [l|] eqn:Hl; simpl.
  - split; [now apply Hc|].
    destruct (50 <? Z.of_nat (size c)); [apply cacheSound_empty | exact Hc].
  - split; [reflexivity|]. intros k l Hk.
    destruct (decide (offsetSec = k)) as [<- | Hne].
    + rewrite lookup_insert_eq in Hk. congruence.
    + rewrite lookup_insert_ne in Hk by exact Hne. now apply Hc.
Qed.

(** A miss inserts and never clears, whatever the size. *)
Lemma LocationFromOffset_miss (offsetSec : Z) (c : zones) :
  c !! offsetSec = None ->
  snd (LocationFromOffset offsetSec c)
  = <[offsetSec := FixedZone "FixedZone" offsetSec]> c
  /\ size (snd (LocationFromOffset offsetSec c)) = S (size c).
Proof.
  intros Hm. unfold LocationFromOffset. rewrite Hm. simpl.
  split; [reflexivity | now apply map_size_insert_None].
Qed.

(** A hit on a cache of more than 50 entries empties it entirely; a hit on a
    smaller cache leaves it alone. *)
Lemma LocationFromOffset_hit (offsetSec : Z) (c : zones) (l : Location) :
  c !! offsetSec = Some l ->
  LocationFromOffset offsetSec c
  = (l, if 50 <? Z.of_nat (size c) then ∅ else c).
Proof. intros Hh. unfold LocationFromOffset. now rewrite Hh. Qed.

Lemma lookupAll_misses (offs : list Z) (c : zones) :
  List.NoDup offs -> (forall o, List.In o offs -> c !! o = None) ->
  size (lookupAll offs c) = (size c + length offs)%nat.
Proof.
  revert c. induction offs as [|o offs IH]; intros c Hnd Hc; simpl.
  - lia.
  - apply List.NoDup_cons_iff in Hnd as [Hno Hnd].
    destruct (LocationFromOffset_miss o c) as [Hs Hsize].
    { apply Hc. now left. }
    rewrite IH; [lia | exact Hnd |].
    intros o' Ho'. rewrite Hs.
    rewrite lookup_insert_ne by (intros ->; contradiction).
    apply Hc. now right.
Qed.

Lemma quarterOffsets_NoDup (n : nat) : List.NoDup (quarterOffsets n).
Proof.
  unfold quarterOffsets. apply Stdlib.Lists.Finite.Injective_map_NoDup.
  - intros a b Hab. lia.
  - apply seq_NoDup.
Qed.

(** C6, at a failing input.  Looking up [n] distinct offsets in an empty
    cache leaves [n] entries, for every [n]: 60 lookups leave 60 entries,
    above the bound of 50, and nothing is cleared, because the size is only
    tested on a hit.  What the claim says besides does hold: on a cache
    whose handles are sound every lookup of an offset returns the fixed zone
    of that offset (so two lookups of the same offset return equal handles),
    and a hit on more than 50 entries clears the whole cache. *)
Theorem C6_cache_unbounded :
  (forall n, size (lookupAll (quarterOffsets n) ∅) = n)
  /\ size (lookupAll (quarterOffsets 60) ∅) = 60%nat
  /\ (forall offsetSec c, cacheSound c ->
        fst (LocationFromOffset offsetSec c) = FixedZone "FixedZone" offsetSec
        /\ fst (LocationFromOffset offsetSec
                  (snd (LocationFromOffset offsetSec c)))
           = fst (LocationFromOffset offsetSec c))
  /\ (forall offsetSec c l, c !! offsetSec = Some l ->
        (50 < Z.of_nat (size c)) ->
        LocationFromOffset offsetSec c = (l, ∅)).
Proof.
  assert (Hgrow : forall n, size (lookupAll (quarterOffsets n) ∅) = n).
  { intros n. rewrite lookupAll_misses.
    - rewrite map_size_empty. unfold quarterOffsets.
      now rewrite length_map, length_seq.
    - apply quarterOffsets_NoDup.
    - intros o _. apply lookup_empty. }
  split; [exact Hgrow|]. split; [apply Hgrow|]. split.
  - intros offsetSec c Hc.
    destruct (LocationFromOffset_sound offsetSec c Hc) as [H1 H2].
    split; [exact H1|]. rewrite H1.
    now destruct (LocationFromOffset_sound offsetSec _ H2).
  - intros offsetSec c l Hl Hsz.
    rewrite (LocationFromOffset_hit offsetSec c l Hl).
    destruct (Z.ltb_spec 50 (Z.of_nat (size c))); [reflexivity | lia].
Qed.

(** ** The calendar *)

Lemma allFrom_spec (P : Z -> bool) (fuel : nat) (a : Z) :
  allFrom P fuel a = true ->
  forall x, a <= x < a + Z.of_nat fuel -> P x = true.
Proof.
  revert a. induction fuel as [|f IH]; intros a Hall x Hx; [lia|].
  simpl in Hall. apply andb_true_iff in Hall as [Ha Hrest].
  destruct (Z.eq_dec x a) as [-> | Hne]; [exact Ha|].
  apply (IH (a + 1) Hrest). lia.
Qed.

Lemma allBelow (P : Z -> bool) (n : Z) :
  allFrom P (Z.to_nat n) 0 = true -> forall x, 0 <= x < n -> P x = true.
Proof.
  intros Hall x Hx. apply (allFrom_spec P (Z.to_nat n) 0 Hall). lia.
Qed.

Lemma isLeap_shift (y k : Z) : isLeap (y + 400 * k) = isLeap y.
Proof.
  unfold isLeap.
  replace ((y + 400 * k) mod 4) with (y mod 4)
    by (replace (y + 400 * k) with (y + (100 * k) * 4) by ring;
        now rewrite Z.mod_add).
  replace ((y + 400 * k) mod 100) with (y mod 100)
    by (replace (y + 400 * k) with (y + (4 * k) * 100) by ring;
        now rewrite Z.mod_add).
  replace ((y + 400 * k) mod 400) with (y mod 400)
    by (replace (y + 400 * k) with (y + k * 400) by ring;
        now rewrite Z.mod_add).
  reflexivity.
Qed.

Lemma daysSinceEpoch_shift (y k : Z) :
  daysSinceEpoch (y + 400 * k) = daysSinceEpoch y + 146097 * k.
Proof.
  unfold daysSinceEpoch, daysPer400Years, daysPer100Years, daysPer4Years.
  replace (y + 400 * k - 1) with (y - 1 + k * 400) by ring.
  rewrite Z.div_add by lia.
  replace (y - 1 + k * 400 - 400 * ((y - 1) / 400 + k))
    with (y - 1 - 400 * ((y - 1) / 400)) by ring.
  cbv zeta. ring.
Qed.

Lemma civilDays_shift (y m d k : Z) :
  civilDays (y + 400 * k) m d = civilDays y m d + 146097 * k.
Proof.
  unfold civilDays. rewrite isLeap_shift, daysSinceEpoch_shift.
  destruct (isLeap y && (3 <=? m)); ring.
Qed.

Lemma dateInCycle_shift (y k d : Z) :
  dateInCycle (y + 400 * k) d
  = let '(yy, m, dd) := dateInCycle y d in (yy + 400 * k, m, dd).
Proof.
  unfold dateInCycle. cbv zeta.
  match goal with
  | |- context [isLeap (?a + 400 * k + ?b + ?c + ?e + 1)] =>
    replace (a + 400 * k + b + c + e + 1) with (a + b + c + e + 1 + 400 * k)
      by ring
  end.
  rewrite isLeap_shift.
  repeat match goal with
  | |- context [if ?b then _ else _] => destruct b
  end; reflexivity.
Qed.

Lemma cycle_checked : allFrom checkDay (Z.to_nat 146097) 0 = true.
Proof. vm_compute. reflexivity. Qed.

(** [absDate] inverts [civilDays] on every day number. *)
Lemma absDate_civilDays (days : Z) :
  let '(y, m, d) := absDate days in
  1 <= m <= 12 /\ 1 <= d <= 31 /\ civilDays y m d = days
  /\ (-366 <= days < 3652059 -> 0 <= y <= 9999).
Proof.
  unfold absDate, daysPer400Years. change (365 * 400 + 97) with 146097.
  pose proof (Z.div_mod days 146097 ltac:(lia)) as Hdm.
  pose proof (Z.mod_pos_bound days 146097 ltac:(lia)) as Hb.
  set (n := days / 146097) in *. set (r := days mod 146097) in *.
  replace (days - 146097 * n) with r by lia.
  replace (400 * n) with (0 + 400 * n) by ring.
  rewrite dateInCycle_shift.
  pose proof (allBelow checkDay 146097 cycle_checked r ltac:(lia)) as Hc.
  unfold checkDay in Hc. destruct (dateInCycle 0 r) as [[y m] d].
  rewrite !andb_true_iff, !Z.leb_le, Z.eqb_eq in Hc.
  destruct Hc as (((((H1 & H2) & H3) & H4) & H5) & H6).
  rewrite civilDays_shift. repeat split; try lia.
  - destruct (Z.ltb_spec r 145731);
      [apply andb_true_iff in H6 as [H6 _]; apply Z.leb_le in H6
      | apply Z.eqb_eq in H6]; lia.
  - destruct (Z.ltb_spec r 145731);
      [apply andb_true_iff in H6 as [_ H6]; apply Z.leb_le in H6
      | apply Z.eqb_eq in H6]; lia.
Qed.

(** ** Scanning ASCII text *)

Lemma rangeFrom_ascii (bs : list Z) (i : Z) :
  forallb isAscii bs = true -> rangeFrom i 0 bs = indexed i bs.
Proof.
  revert i. induction bs as [|b t IH]; intros i Hb; [reflexivity|].
  simpl in Hb. apply andb_true_iff in Hb as [Hb Ht].
  unfold isAscii in Hb. apply andb_true_iff in Hb as [_ Hb].
  cbn [rangeFrom utf8_DecodeRune]. rewrite Hb. cbn [Nat.pred].
  now rewrite IH.
Qed.

Lemma byteOf_asciiOfByte (b : Z) : 0 <= b < 256 -> byteOf (asciiOfByte b) = b.
Proof.
  intros Hb. unfold byteOf, asciiOfByte.
  rewrite N_ascii_embedding by lia. lia.
Qed.

Lemma bytes_ofBytes (bs : list Z) :
  forallb isAscii bs = true -> bytes (ofBytes bs) = bs.
Proof.
  induction bs as [|b t IH]; intros Hb; [reflexivity|].
  simpl in Hb. apply andb_true_iff in Hb as [Hb Ht].
  unfold isAscii in Hb. apply andb_true_iff in Hb as [H0 H1].
  apply Z.leb_le in H0. apply Z.ltb_lt in H1.
  simpl. rewrite byteOf_asciiOfByte by lia. now rewrite IH.
Qed.

Lemma len_ofBytes (bs : list Z) : len (ofBytes bs) = lenZ bs.
Proof.
  unfold len, lenZ. f_equal. induction bs; simpl; congruence.
Qed.

Lemma digit_isAscii (b : Z) : isAsciiDigit b = true -> isAscii b = true.
Proof.
  unfold isAsciiDigit, between, isAscii. rewrite !andb_true_iff, !Z.leb_le.
  intros [H0 H1]. split; [apply Z.leb_le | apply Z.ltb_lt]; lia.
Qed.

Section AsciiScan.
Context `{GoLib}.

Lemma scan_ofBytes (bs : list Z) :
  forallb isAscii bs = true -> scan (ofBytes bs) = scanLoop initScan (indexed 0 bs).
Proof.
  intros Hb. unfold scan, range. now rewrite bytes_ofBytes, rangeFrom_ascii.
Qed.

Lemma scanLoop_digit (st : Scan) (i : Z) (r : rune) (t : list (Z * rune)) :
  isAsciiDigit r = true ->
  scanLoop st ((i, r) :: t) = scanLoop (scanDigit st i r) t.
Proof.
  intros Hr. cbn [scanLoop]. unfold scanRune, unicode_IsDigit.
  unfold isAsciiDigit in Hr. rewrite Hr.
  assert (Hl : (r <=? MaxLatin1) = true).
  { unfold between in Hr. apply andb_true_iff in Hr as [_ Hr].
    apply Z.leb_le in Hr. apply Z.leb_le. unfold MaxLatin1. lia. }
  now rewrite Hl.
Qed.

(** 'T', ':' and '.' change nothing, in any state. *)
Lemma scanLoop_skip (st : Scan) (i : Z) (r : rune) (t : list (Z * rune)) :
  r = 0x54 \/ r = 0x3A \/ r = 0x2E ->
  scanLoop st ((i, r) :: t) = scanLoop st t.
Proof. intros [-> | [-> | ->]]; reflexivity. Qed.

Lemma scanLoop_sign (st : Scan) (i : Z) (r : rune) (t : list (Z * rune)) :
  r = 0x2B \/ r = 0x2D ->
  scanLoop st ((i, r) :: t)
  = scanLoop (if isSubsecond (currentSection st)
              then withSection (withSign st (r =? 0x2B)) zoneSection
              else st) t.
Proof.
  intros Hr. cbn [scanLoop]. rewrite (scanRune_sign st i r Hr).
  now destruct (isSubsecond (currentSection st)).
Qed.

End AsciiScan.

Ltac scan_step :=
  match goal with
  | |- context [scanLoop ?st ((?i, ?r) :: ?t)] =>
    first
      [ rewrite (scanLoop_digit st i r t) by assumption;
        let v := eval vm_compute in (scanDigit st i r) in
        change (scanDigit st i r) with v
      | rewrite (scanLoop_skip st i r t) by (auto; fail)
      | rewrite (scanLoop_sign st i r t) by (auto; fail);
        match goal with
        | |- context [scanLoop (if ?b then ?x else ?y) t] =>
          let v := eval vm_compute in (if b then x else y) in
          change (if b then x else y) with v
        end ]
  end.

Ltac scan_run := unfold initScan; cbn [indexed]; repeat scan_step.

(** ** Fixed-width decimal fields *)

Lemma eqList_eq (a b : list Z) : eqList a b = true -> a = b.
Proof.
  revert b. induction a as [|x a IH]; intros [|y b]; simpl; try discriminate.
  - reflexivity.
  - intros Hxy. apply andb_true_iff in Hxy as [Hx Hab].
    apply Z.eqb_eq in Hx. subst y. f_equal. now apply IH.
Qed.

Lemma okIs_eq (o : outcome Z) (v : Z) : okIs o v = true -> o = Ok v.
Proof.
  destruct o as [a| |]; simpl; try discriminate.
  intros Ha. apply Z.eqb_eq in Ha. now subst.
Qed.

Lemma appendInt_2 (n : Z) : 0 <= n < 100 -> appendInt n 2 = dig2 n.
Proof.
  intros Hn. apply eqList_eq.
  apply (allBelow (fun n => eqList (appendInt n 2) (dig2 n)) 100); [|exact Hn].
  vm_compute. reflexivity.
Qed.

Lemma appendInt_3 (n : Z) : 0 <= n < 1000 -> appendInt n 3 = dig3 n.
Proof.
  intros Hn. apply eqList_eq.
  apply (allBelow (fun n => eqList (appendInt n 3) (dig3 n)) 1000); [|exact Hn].
  vm_compute. reflexivity.
Qed.

Lemma appendInt_4 (n : Z) : 0 <= n < 10000 -> appendInt n 4 = dig4 n.
Proof.
  intros Hn. apply eqList_eq.
  apply (allBelow (fun n => eqList (appendInt n 4) (dig4 n)) 10000);
    [|exact Hn].
  vm_compute. reflexivity.
Qed.

Lemma dig2_digits (n : Z) :
  0 <= n < 100 -> forallb isAsciiDigit (dig2 n) = true.
Proof.
  intros Hn.
  apply (allBelow (fun n => forallb isAsciiDigit (dig2 n)) 100); [|exact Hn].
  vm_compute. reflexivity.
Qed.

Lemma dig3_digits (n : Z) :
  0 <= n < 1000 -> forallb isAsciiDigit (dig3 n) = true.
Proof.
  intros Hn.
  apply (allBelow (fun n => forallb isAsciiDigit (dig3 n)) 1000); [|exact Hn].
  vm_compute. reflexivity.
Qed.

Lemma dig4_digits (n : Z) :
  0 <= n < 10000 -> forallb isAsciiDigit (dig4 n) = true.
Proof.
  intros Hn.
  apply (allBelow (fun n => forallb isAsciiDigit (dig4 n)) 10000); [|exact Hn].
  vm_compute. reflexivity.
Qed.

Lemma decode2_dig2 (n : Z) : 0 <= n < 100 -> decode2 (dig2 n) = Ok n.
Proof.
  intros Hn. apply okIs_eq.
  apply (allBelow (fun n => okIs (decode2 (dig2 n)) n) 100); [|exact Hn].
  vm_compute. reflexivity.
Qed.

Lemma decode4_dig4 (n : Z) : 0 <= n < 10000 -> decode4 (dig4 n) = Ok n.
Proof.
  intros Hn. apply okIs_eq.
  apply (allBelow (fun n => okIs (decode4 (dig4 n)) n) 10000); [|exact Hn].
  vm_compute. reflexivity.
Qed.

Lemma decodeSubseconds_dig3 (n : Z) :
  0 <= n < 1000 -> decodeSubseconds (dig3 n) = Ok (n * 1000000).
Proof.
  intros Hn. apply okIs_eq.
  apply (allBelow (fun n => okIs (decodeSubseconds (dig3 n)) (n * 1000000))
           1000); [|exact Hn].
  vm_compute. reflexivity.
Qed.

Lemma zone_checked : allFrom zoneChecked (Z.to_nat 799) 0 = true.
Proof. vm_compute. reflexivity. Qed.

Lemma zone_field (k : Z) :
  -400 < k < 400 ->
  appendZone (900 * k) false
  = zoneSign k :: dig2 (zoneHours k) ++ dig2 (zoneMinutes k)
  /\ appendZone (900 * k) true
     = zoneSign k :: dig2 (zoneHours k) ++ [0x3A] ++ dig2 (zoneMinutes k)
  /\ forallb isAsciiDigit (dig2 (zoneHours k) ++ dig2 (zoneMinutes k)) = true
  /\ resolveZone (dig2 (zoneHours k) ++ dig2 (zoneMinutes k)) true
       (zoneSign k =? 0x2B) = Ok (zoneOf k).
Proof.
  intros Hk.
  pose proof (allBelow zoneChecked 799 zone_checked (k + 399) ltac:(lia)) as Hc.
  unfold zoneChecked in Hc. replace (k + 399 - 399) with k in Hc by ring.
  rewrite !andb_true_iff in Hc. destruct Hc as (((H1 & H2) & H3) & H4).
  repeat split; [now apply eqList_eq | now apply eqList_eq | exact H3 |].
  destruct (resolveZone _ true _) as [[| |a] | |]; destruct (zoneOf k);
    try discriminate; try reflexivity.
  apply Z.eqb_eq in H4. now subst.
Qed.

(** ** The four ISO layouts, as text *)

Ltac split_digits H :=
  cbn [forallb] in H;
  repeat (let Hd := fresh "Hd" in apply andb_true_iff in H as [Hd H]).

Section IsoText.
Context `{GoLib}.

Lemma scan_iso (ext msec : bool)
  (y1 y2 y3 y4 m1 m2 d1 d2 h1 h2 n1 n2 s1 s2 f1 f2 f3 z1 z2 z3 z4 sg : Z) :
  forallb isAsciiDigit
    [y1; y2; y3; y4; m1; m2; d1; d2; h1; h2; n1; n2; s1; s2; f1; f2; f3;
     z1; z2; z3; z4] = true ->
  sg = 0x2B \/ sg = 0x2D ->
  scanLoop initScan
    (indexed 0
       (isoBytes ext msec [y1; y2; y3; y4] [m1; m2] [d1; d2] [h1; h2] [n1; n2]
          [s1; s2] [f1; f2; f3] sg [z1; z2] [z3; z4]))
  = mkScan afterSection (sg =? 0x2B) [y1; y2; y3; y4] [m1; m2] [d1; d2]
      [h1; h2] [n1; n2] [s1; s2] (if msec then [f1; f2; f3] else [])
      [z1; z2; z3; z4] [].
Proof.
  intros Hd Hsg. split_digits Hd.
  destruct ext, msec; cbn [isoBytes sepDate sepTime app]; scan_run;
    reflexivity.
Qed.

End IsoText.

Lemma isAscii_app (a b : list Z) :
  forallb isAscii (a ++ b) = forallb isAscii a && forallb isAscii b.
Proof. apply forallb_app. Qed.

Lemma digits_isAscii (l : list Z) :
  forallb isAsciiDigit l = true -> forallb isAscii l = true.
Proof.
  induction l as [|b l IH]; simpl; [reflexivity|]. intros Hb.
  apply andb_true_iff in Hb as [Hb Hl].
  now rewrite (digit_isAscii b Hb), IH.
Qed.

Lemma decodeFields_digits (sec : ScanSection) (pos : bool)
  (y mo d h mi s ns : Z) (ff zz : list rune) (u : list (rune * Z)) :
  0 <= y < 10000 -> 0 <= mo < 100 -> 0 <= d < 100 -> 0 <= h < 100 ->
  0 <= mi < 100 -> 0 <= s < 100 -> decodeSubseconds ff = Ok ns ->
  decodeFields (mkScan sec pos (dig4 y) (dig2 mo) (dig2 d) (dig2 h) (dig2 mi)
                  (dig2 s) ff zz u)
  = Ok (mkFields y mo d h mi s ns).
Proof.
  intros Hy Hmo Hd Hh Hmi Hs Hff. unfold decodeFields.
  cbn [yearPart monthPart dayPart hourPart minutePart secondPart subsecondPart].
  change (defaultTime (dig2 h) (dig2 mi) (dig2 s))
    with (dig2 h, dig2 mi, dig2 s).
  change (checkLen (dig4 y) yearMax Year) with (@Ok unit tt).
  change (checkLen (dig2 mo) monthMax Month) with (@Ok unit tt).
  change (checkLen (dig2 d) dayMax Day) with (@Ok unit tt).
  change (checkLen (dig2 h) hourMax Hour) with (@Ok unit tt).
  change (checkLen (dig2 mi) minuteMax Minute) with (@Ok unit tt).
  change (checkLen (dig2 s) secondMax Second) with (@Ok unit tt).
  cbn [obind].
  rewrite (decode4_dig4 y Hy), (decode2_dig2 mo Hmo), (decode2_dig2 d Hd),
    (decode2_dig2 h Hh), (decode2_dig2 mi Hmi), (decode2_dig2 s Hs), Hff.
  reflexivity.
Qed.

Section IsoParse.
Context `{GoLib}.

(** The text of an ISO layout, as the scanner and the decoders read it. *)
Lemma parse_iso (ext msec : bool) (y mo d h mi s ms k : Z) :
  0 <= y < 10000 -> 0 <= mo < 100 -> 0 <= d < 100 -> 0 <= h < 100 ->
  0 <= mi < 100 -> 0 <= s < 100 -> 0 <= ms < 1000 -> -400 < k < 400 ->
  let text := isoBytes ext msec (dig4 y) (dig2 mo) (dig2 d) (dig2 h) (dig2 mi)
                (dig2 s) (dig3 ms) (zoneSign k) (dig2 (zoneHours k))
                (dig2 (zoneMinutes k)) in
  forallb isAscii text = true
  /\ List.In 0x54 text
  /\ (exists b0 rest, text = b0 :: rest /\ isAsciiDigit b0 = true)
  /\ (exists body bl, text = body ++ [bl] /\ isAsciiDigit bl = true)
  /\ parseISOFields (ofBytes text)
     = Ok (mkParsed (mkFields y mo d h mi s (if msec then ms * 1000000 else 0))
             (zoneOf k)).
Proof.
  intros Hy Hmo Hd Hh Hmi Hs Hms Hk text.
  destruct (zone_field k Hk) as (_ & _ & Hzd & Hzr).
  pose proof (dig4_digits y Hy) as Dy. pose proof (dig2_digits mo Hmo) as Dmo.
  pose proof (dig2_digits d Hd) as Dd. pose proof (dig2_digits h Hh) as Dh.
  pose proof (dig2_digits mi Hmi) as Dmi. pose proof (dig2_digits s Hs) as Ds.
  pose proof (dig3_digits ms Hms) as Dms.
  assert (Hsg : zoneSign k = 0x2B \/ zoneSign k = 0x2D).
  { unfold zoneSign. destruct (k <? 0); auto. }
  assert (Hall : forallb isAsciiDigit
            (dig4 y ++ dig2 mo ++ dig2 d ++ dig2 h ++ dig2 mi ++ dig2 s
               ++ dig3 ms ++ dig2 (zoneHours k) ++ dig2 (zoneMinutes k))
            = true).
  { rewrite !forallb_app, Dy, Dmo, Dd, Dh, Dmi, Ds, Dms.
    rewrite forallb_app in Hzd. now rewrite Hzd. }
  assert (Hascii : forallb isAscii text = true).
  { subst text. unfold isoBytes, sepDate, sepTime.
    pose proof (digits_isAscii _ Dy) as Ay.
    pose proof (digits_isAscii _ Dmo) as Amo.
    pose proof (digits_isAscii _ Dd) as Ad.
    pose proof (digits_isAscii _ Dh) as Ah.
    pose proof (digits_isAscii _ Dmi) as Ami.
    pose proof (digits_isAscii _ Ds) as As.
    pose proof (digits_isAscii _ Dms) as Ams.
    pose proof (digits_isAscii _ Hzd) as Az. rewrite isAscii_app in Az.
    apply andb_true_iff in Az as [Azh Azm].
    destruct Hsg as [-> | ->]; destruct ext, msec;
      rewrite ?isAscii_app; cbn [forallb];
      rewrite ?isAscii_app, ?Ay, ?Amo, ?Ad, ?Ah, ?Ami, ?As, ?Ams, ?Azh, ?Azm;
      reflexivity. }
  split; [exact Hascii|]. split.
  { subst text. unfold isoBytes. rewrite !in_app_iff.
    right. right. right. right. right. left. now left. }
  split.
  { subst text. unfold isoBytes, dig4. cbn [app]. eexists _, _.
    split; [reflexivity|].
    cbn [forallb] in Dy. now apply andb_true_iff in Dy as [Dy0 _]. }
  split.
  { subst text. unfold isoBytes.
    rewrite forallb_app in Hzd. apply andb_true_iff in Hzd as [_ Hzm].
    unfold dig2 in Hzm |- *. cbn [forallb] in Hzm.
    apply andb_true_iff in Hzm as [_ Hzm].
    apply andb_true_iff in Hzm as [Hzl _].
    change [48 + zoneMinutes k / 10; 48 + zoneMinutes k mod 10]
      with ([48 + zoneMinutes k / 10] ++ [48 + zoneMinutes k mod 10]).
    rewrite !app_assoc. eexists _, _. split; [reflexivity | exact Hzl]. }
  unfold parseISOFields.
  assert (Hlen : (maxLength <? len (ofBytes text)) = false).
  { rewrite len_ofBytes. subst text. apply Z.ltb_ge.
    unfold maxLength, isoBytes, sepDate, sepTime, lenZ.
    rewrite !length_app. destruct ext, msec; simpl; lia. }
  rewrite Hlen, (scan_ofBytes text Hascii). subst text.
  unfold dig4, dig3, dig2 in Hall |- *. cbn [app] in Hall.
  rewrite (scan_iso ext msec _ _ _ _ _ _ _ _ _ _ _ _ _ _ _ _ _ _ _ _ _ _
             Hall Hsg).
  cbn [unparsed lenZ length Z.of_nat Z.ltb Z.compare].
  unfold decodeScan. cbn [zonePart offsetPositive].
  change (padZone [48 + zoneHours k / 10; 48 + zoneHours k mod 10;
                   48 + zoneMinutes k / 10; 48 + zoneMinutes k mod 10])
    with (Ok ([48 + zoneHours k / 10; 48 + zoneHours k mod 10;
               48 + zoneMinutes k / 10; 48 + zoneMinutes k mod 10], true)).
  cbn [obind].
  pose proof (decodeFields_digits afterSection (zoneSign k =? 43) y mo d h mi s
                (if msec then ms * 1000000 else 0)
                (if msec then dig3 ms else [])
                (dig2 (zoneHours k) ++ dig2 (zoneMinutes k)) []
                Hy Hmo Hd Hh Hmi Hs) as Hdf.
  unfold dig4, dig3, dig2 in Hdf. cbn [app] in Hdf. rewrite Hdf.
  - cbn [obind]. unfold dig2 in Hzr. cbn [app] in Hzr. rewrite Hzr.
    reflexivity.
  - destruct msec; [apply (decodeSubseconds_dig3 ms Hms) | reflexivity].
Qed.

End IsoParse.

(** ** From an instant to its text and back *)

Lemma Norm_id (hi lo base : Z) : 0 <= lo < base -> Norm hi lo base = (hi, lo).
Proof.
  intros Hlo. unfold Norm.
  destruct (Z.ltb_spec lo 0); [lia|].
  destruct (Z.geb_spec lo base); [lia | reflexivity].
Qed.

(** The clock reading of a second of the day. *)
Lemma clock_of_seconds (sec : Z) :
  0 <= sec < 86400 ->
  let hour := sec / 3600 in
  let min := (sec - hour * 3600) / 60 in
  let s := sec - hour * 3600 - min * 60 in
  0 <= hour < 24 /\ 0 <= min < 60 /\ 0 <= s < 60
  /\ hour * 3600 + min * 60 + s = sec.
Proof.
  intros Hs hour min s. subst hour min s.
  pose proof (Z.div_mod sec 3600 ltac:(lia)) as H1.
  pose proof (Z.mod_pos_bound sec 3600 ltac:(lia)) as H2.
  assert (H3 : 0 <= sec / 3600 < 24).
  { split; [apply Z.div_pos; lia | apply Z.div_lt_upper_bound; lia]. }
  set (h := sec / 3600) in *.
  replace (sec - h * 3600) with (sec mod 3600) by lia.
  set (r := sec mod 3600) in *.
  pose proof (Z.div_mod r 60 ltac:(lia)) as H4.
  pose proof (Z.mod_pos_bound r 60 ltac:(lia)) as H5.
  assert (H6 : 0 <= r / 60 < 60).
  { split; [apply Z.div_pos; lia | apply Z.div_lt_upper_bound; lia]. }
  lia.
Qed.

Section BackAndForth.
Context `{GoLib}.

Lemma fixedAt_UTC : fixedAt UTC 0.
Proof. intros x. reflexivity. Qed.

Lemma fixedAt_FixedZone (name : string) (off : Z) :
  fixedAt (FixedZone name off) off.
Proof. intros x. reflexivity. Qed.

(** [time.Date] on the date and clock of an instant, in a zone of the same
    offset, gives the instant back. *)
Lemma time_Date_back (t : Time) (ns : Z) (l' : Location) :
  0 <= ns < 1000000000 ->
  fixedAt l' (zoneOffset (loc t) (unixSec t)) ->
  let '(y, mo, d) := Date t in
  let '(h, mi, s) := Clock t in
  time_Date y mo d h mi s ns l' = mkTime (unixSec t) ns l'.
Proof.
  intros Hns Hl. unfold fixedAt in Hl. unfold Date, Clock.
  set (abs := absSeconds t).
  pose proof (absDate_civilDays (abs / secondsPerDay)) as Hc.
  destruct (absDate (abs / secondsPerDay)) as [[y mo] d].
  destruct Hc as (Hmo & Hd & Hcd & _).
  pose proof (Z.mod_pos_bound abs secondsPerDay ltac:(unfold secondsPerDay; lia))
    as Hsec.
  pose proof (Z.div_mod abs secondsPerDay ltac:(unfold secondsPerDay; lia))
    as Hdm.
  unfold secondsPerDay in Hsec, Hdm |- *.
  set (sec := abs mod 86400) in *.
  destruct (clock_of_seconds sec Hsec) as (Hh & Hmi & Hs & Hsum).
  cbv zeta in Hh, Hmi, Hs, Hsum |- *.
  set (h := sec / 3600) in *. set (mi := (sec - h * 3600) / 60) in *.
  unfold time_Date, wallSeconds.
  rewrite (Norm_id y (mo - 1) 12) by lia.
  rewrite (Norm_id (sec - h * 3600 - mi * 60) ns 1000000000) by lia.
  rewrite (Norm_id mi (sec - h * 3600 - mi * 60) 60) by lia.
  rewrite (Norm_id h mi 60) by lia.
  rewrite (Norm_id d h 24) by lia.
  replace (mo - 1 + 1) with mo by ring. rewrite Hcd, Hl.
  unfold secondsPerDay.
  assert (Habs : abs / 86400 * 86400 + (h * 3600 + mi * 60 +
                   (sec - h * 3600 - mi * 60)) - unixEpochDays * 86400
                 = unixSec t + zoneOffset (loc t) (unixSec t)).
  { unfold abs, absSeconds, secondsPerDay in *. lia. }
  assert (Hzo : forall x, zoneOffset l' x = zoneOffset (loc t) (unixSec t)).
  { intros x. unfold zoneOffset at 1. now rewrite Hl. }
  rewrite Habs, Hzo.
  destruct (Z.eqb_spec (zoneOffset (loc t) (unixSec t)) 0) as [E|E].
  - rewrite E. f_equal. lia.
  - match goal with |- context [if ?b then _ else _] => destruct b end;
      f_equal; lia.
Qed.

Lemma clock_bounds (t : Time) :
  let '(h, mi, s) := Clock t in 0 <= h < 24 /\ 0 <= mi < 60 /\ 0 <= s < 60.
Proof.
  unfold Clock.
  pose proof (Z.mod_pos_bound (absSeconds t) secondsPerDay
                ltac:(unfold secondsPerDay; lia)) as Hsec.
  unfold secondsPerDay in *.
  destruct (clock_of_seconds _ Hsec) as (Hh & Hmi & Hs & _).
  cbv zeta in *. auto.
Qed.

(** What [time.Format] prints for the four ISO layouts. *)
Lemma format_iso (ext msec : bool) (t : Time) (k : Z) :
  zoneOffset (loc t) (unixSec t) = 900 * k -> -400 < k < 400 ->
  -366 <= absSeconds t / secondsPerDay < 3652059 ->
  0 <= nsec t < 1000000000 ->
  let '(y, mo, d) := Date t in
  let '(h, mi, s) := Clock t in
  time_Format (isoLayout ext msec) t
  = ofBytes (isoBytes ext msec (dig4 y) (dig2 mo) (dig2 d) (dig2 h) (dig2 mi)
               (dig2 s) (dig3 (nsec t / 1000000)) (zoneSign k)
               (dig2 (zoneHours k)) (dig2 (zoneMinutes k)))
  /\ 0 <= y < 10000 /\ 0 <= mo < 100 /\ 0 <= d < 100
  /\ 0 <= nsec t / 1000000 < 1000.
Proof.
  intros Hoff Hk Hday Hns.
  pose proof (clock_bounds t) as Hcl.
  pose proof (absDate_civilDays (absSeconds t / secondsPerDay)) as Hc.
  unfold time_Format, formatChunk. unfold Date in *.
  destruct (absDate (absSeconds t / secondsPerDay)) as [[y mo] d].
  destruct (Clock t) as [[h mi] s].
  destruct Hc as (Hmo & Hd & _ & Hy). specialize (Hy Hday).
  destruct Hcl as (Hh & Hmi & Hs).
  destruct (zone_field k Hk) as (Hz0 & Hz1 & _ & _).
  assert (Hms : 0 <= nsec t / 1000000 < 1000).
  { split; [apply Z.div_pos; lia | apply Z.div_lt_upper_bound; lia]. }
  split; [|repeat split; lia].
  f_equal. rewrite Hoff.
  destruct ext, msec; cbn [isoLayout layoutCompact layoutCompactMsec
    layoutISO8601 layoutISO8601Msec flat_map isoBytes sepDate sepTime bytes];
    rewrite ?Hz0, ?Hz1;
    rewrite (appendInt_4 y) by lia; rewrite (appendInt_2 mo) by lia;
    rewrite (appendInt_2 d) by lia; rewrite (appendInt_2 h) by lia;
    rewrite (appendInt_2 mi) by lia; rewrite (appendInt_2 s) by lia;
    try (change (10 ^ (9 - 3)) with 1000000;
         rewrite (appendInt_3 (nsec t / 1000000)) by lia);
    reflexivity.
Qed.

End BackAndForth.

(** ** Trimming and classifying ASCII text *)

Lemma indexed_app (a b : list Z) (i : Z) :
  indexed i (a ++ b) = indexed i a ++ indexed (i + lenZ a) b.
Proof.
  revert i. induction a as [|x a IH]; intros i.
  - change (lenZ (@nil Z)) with 0. now rewrite Z.add_0_r.
  - cbn [app indexed]. rewrite IH.
    replace (i + 1 + lenZ a) with (i + lenZ (x :: a))
      by (unfold lenZ; cbn [length]; lia).
    reflexivity.
Qed.

Lemma lastNonSpaceEnd_last (es : list (Z * rune)) (e : Z * rune) (n acc : Z) :
  unicode_IsSpace (snd e) = false ->
  lastNonSpaceEnd (es ++ [e]) n acc = n.
Proof.
  intros He. revert acc. induction es as [|x es IH]; intros acc; simpl.
  - now rewrite He.
  - apply IH.
Qed.

Lemma substring_all (s : string) : String.substring 0 (String.length s) s = s.
Proof. induction s as [|a s IH]; simpl; [reflexivity | now rewrite IH]. Qed.

Lemma digit_not_space (b : Z) :
  isAsciiDigit b = true -> unicode_IsSpace b = false.
Proof. intros Hb. digit_cases b Hb; reflexivity. Qed.

(** Text made of ASCII bytes whose first and last bytes are not white space
    is left alone by [strings.TrimSpace]. *)
Lemma TrimSpace_id (bs : list Z) :
  forallb isAscii bs = true ->
  (exists b0 rest, bs = b0 :: rest /\ unicode_IsSpace b0 = false) ->
  (exists body bl, bs = body ++ [bl] /\ unicode_IsSpace bl = false) ->
  strings_TrimSpace (ofBytes bs) = ofBytes bs.
Proof.
  intros Ha (b0 & rest & Hfirst & Hb0) (body & bl & Hlast & Hbl).
  unfold strings_TrimSpace, range. rewrite (bytes_ofBytes bs Ha).
  rewrite (rangeFrom_ascii bs 0 Ha).
  assert (Hstart : firstNonSpace (indexed 0 bs) (len (ofBytes bs)) = 0).
  { rewrite Hfirst. unfold firstNonSpace. simpl. now rewrite Hb0. }
  rewrite Hstart.
  assert (Hstop : lastNonSpaceEnd (indexed 0 bs) (len (ofBytes bs)) 0
                  = len (ofBytes bs)).
  { rewrite Hlast at 1. rewrite indexed_app. simpl indexed.
    now apply lastNonSpaceEnd_last. }
  rewrite Hstop. unfold len.
  replace (Z.to_nat (Z.of_nat (String.length (ofBytes bs)) - 0))
    with (String.length (ofBytes bs)) by lia.
  apply substring_all.
Qed.

Lemma reDigits_bytes (bs : list Z) (b : Z) :
  rmatch reDigits bs = true -> List.In b bs -> digit b = true \/ dot b = true.
Proof.
  unfold reDigits. intros Hm Hb.
  apply rmatch_Seq in Hm as (a & rest & -> & Ha & Hrest).
  apply rmatch_Seq in Hrest as (o & d & -> & Ho & Hd).
  apply rmatch_Plus in Ha as [_ Hfa]. apply rmatch_Plus in Hd as [_ Hfd].
  rewrite forallb_forall in Hfa, Hfd.
  apply in_app_or in Hb as [Hb | Hb]; [left; now apply Hfa|].
  apply in_app_or in Hb as [Hb | Hb]; [|left; now apply Hfd].
  apply rmatch_optdot in Ho as [-> | ->]; [destruct Hb|].
  destruct Hb as [<- | []]. now right.
Qed.

Section DispatchISO.
Context `{GoLib}.

(** Text holding a byte that is neither a digit nor a dot is no numeric
    candidate. *)
Lemma isTS_other (s : string) (b : Z) :
  List.In b (bytes s) -> digit b = false -> dot b = false -> isTS s = false.
Proof.
  intros Hb Hd Hdot. unfold isTS, MatchString.
  destruct (rmatch reDigits (bytes s)) eqn:Hm; [|reflexivity].
  destruct (reDigits_bytes _ b Hm Hb); congruence.
Qed.

Lemma parseTimestamp_iso_ok (timeStr : string) (l : Location) (isoOnly : bool)
  (c c' : zones) (t : Time) :
  isTS (strings_TrimSpace timeStr) = false ->
  ParseISOTimestamp (strings_TrimSpace timeStr) l c = (Ok t, c') ->
  parseTimestamp timeStr l isoOnly c
  = mkDispatched (Ok t) c' [TryISO (strings_TrimSpace timeStr)].
Proof. unfold parseTimestamp. now intros -> ->. Qed.

(** Round trip through one of the four ISO layouts. *)
Lemma roundtrip_iso (ext msec : bool) (t : Time) (k : Z) (c : zones) :
  zoneOffset (loc t) (unixSec t) = 900 * k -> -400 < k < 400 ->
  -366 <= absSeconds t / secondsPerDay < 3652059 ->
  0 <= nsec t < 1000000000 ->
  nsec t mod (if msec then 1000000 else 1000000000) = 0 ->
  cacheSound c ->
  exists t' c',
    ParseInUTC (time_Format (isoLayout ext msec) t) c
    = mkDispatched (Ok t') c' [TryISO (time_Format (isoLayout ext msec) t)]
    /\ unixSec t' = unixSec t /\ nsec t' = nsec t
    /\ zoneOffset (loc t') (unixSec t') = zoneOffset (loc t) (unixSec t)
    /\ cacheSound c'.
Proof.
  intros Hoff Hk Hday Hns Hmod Hc.
  pose proof (format_iso ext msec t k Hoff Hk Hday Hns) as Hf.
  pose proof (clock_bounds t) as Hcl.
  pose proof (time_Date_back t) as Hback.
  destruct (Date t) as [[y mo] d]. destruct (Clock t) as [[h mi] s].
  destruct Hf as (Htext & Hy & Hmo & Hd & Hms).
  destruct Hcl as (Hh & Hmi & Hs).
  destruct (parse_iso ext msec y mo d h mi s (nsec t / 1000000) k)
    as (Ha & HT & (b0 & rest & Hfirst & Hb0) & (body & bl & Hlast & Hbl) & Hp);
    try lia.
  rewrite Htext.
  set (text := isoBytes ext msec (dig4 y) (dig2 mo) (dig2 d) (dig2 h) (dig2 mi)
                 (dig2 s) (dig3 (nsec t / 1000000)) (zoneSign k)
                 (dig2 (zoneHours k)) (dig2 (zoneMinutes k))) in *.
  assert (Htrim : strings_TrimSpace (ofBytes text) = ofBytes text).
  { apply TrimSpace_id; [exact Ha | |].
    - exists b0, rest. split; [exact Hfirst | now apply digit_not_space].
    - exists body, bl. split; [exact Hlast | now apply digit_not_space]. }
  assert (Hts : isTS (ofBytes text) = false).
  { apply (isTS_other _ 0x54); [|reflexivity|reflexivity].
    now rewrite (bytes_ofBytes text Ha). }
  assert (Hnsec : (if msec then nsec t / 1000000 * 1000000 else 0) = nsec t).
  { destruct msec.
    - pose proof (Z.div_mod (nsec t) 1000000 ltac:(lia)). lia.
    - rewrite Z.mod_small in Hmod by lia. lia. }
  unfold ParseInUTC.
  assert (Hiso : exists t' c',
             ParseISOTimestamp (ofBytes text) UTC c = (Ok t', c')
             /\ unixSec t' = unixSec t /\ nsec t' = nsec t
             /\ zoneOffset (loc t') (unixSec t')
                = zoneOffset (loc t) (unixSec t)
             /\ cacheSound c').
  { unfold ParseISOTimestamp. rewrite Hp. cbn [pZone pFields]. unfold dateOf.
    cbn [fYear fMonth fDay fHour fMinute fSecond fSubseconds].
    rewrite Hnsec. unfold zoneOf.
    destruct (Z.eqb_spec k 0) as [-> | Hk0].
    - rewrite (Hback (nsec t) UTC Hns)
        by (rewrite Hoff; apply fixedAt_UTC).
      eexists _, c. split; [reflexivity|]. cbn [unixSec nsec loc].
      repeat split; try exact Hc. now rewrite Hoff.
    - destruct (LocationFromOffset_sound (900 * k) c Hc) as [Hl Hc'].
      destruct (LocationFromOffset (900 * k) c) as [l c'].
      cbn [fst snd] in Hl, Hc'. subst l.
      rewrite (Hback (nsec t) (FixedZone "FixedZone" (900 * k)) Hns)
        by (rewrite Hoff; apply fixedAt_FixedZone).
      eexists _, c'. split; [reflexivity|]. cbn [unixSec nsec loc].
      repeat split; try exact Hc'. now rewrite Hoff. }
  destruct Hiso as (t' & c' & Hiso & Hu & Hn & Hz & Hc').
  exists t', c'. rewrite <- Htrim in Hiso, Hts.
  rewrite (parseTimestamp_iso_ok _ UTC false c c' t' Hts Hiso), Htrim.
  auto.
Qed.

End DispatchISO.

(** ** The HTTP date *)

Lemma digitsRev_ascii (fuel : nat) (u : Z) :
  forallb isAscii (digitsRev fuel u) = true.
Proof.
  revert u. induction fuel as [|f IH]; intros u; [reflexivity|].
  cbn [digitsRev forallb].
  assert (Hd : isAscii (48 + u mod 10) = true).
  { pose proof (Z.mod_pos_bound u 10 ltac:(lia)). unfold isAscii.
    apply andb_true_iff. split; [apply Z.leb_le | apply Z.ltb_lt]; lia. }
  rewrite Hd. destruct (u <? 10); [reflexivity | apply IH].
Qed.

Lemma appendInt_ascii (x width : Z) : forallb isAscii (appendInt x width) = true.
Proof.
  unfold appendInt, utoa. rewrite !forallb_app.
  assert (H1 : forallb isAscii (if x <? 0 then [45] else []) = true)
    by (destruct (x <? 0); reflexivity).
  assert (H2 : forall n, forallb isAscii (repeat 48 n) = true)
    by (induction n; simpl; auto).
  assert (H3 : forallb isAscii (rev (digitsRev 20 (Z.abs x))) = true).
  { rewrite forallb_forall. intros b Hb. apply in_rev in Hb.
    pose proof (digitsRev_ascii 20 (Z.abs x)) as Ha.
    rewrite forallb_forall in Ha. now apply Ha. }
  now rewrite H1, H2, H3.
Qed.

Lemma monthName_ascii (i : nat) :
  forallb isAscii (bytes (nth i shortMonthNames ""%string)) = true.
Proof.
  do 12 (destruct i as [|i]; [reflexivity|]). now destruct i.
Qed.

(** The outline of an HTTP date: a three-letter day name first, "GMT"
    last. *)
Lemma http_shape (c0 c1 c2 : Z) (dd mn yy hh mi ss : list Z) :
  forallb isAscii [c0; c1; c2] = true -> forallb isAscii dd = true ->
  forallb isAscii mn = true -> forallb isAscii yy = true ->
  forallb isAscii hh = true -> forallb isAscii mi = true ->
  forallb isAscii ss = true ->
  let text := [c0; c1; c2] ++ bytes ", " ++ dd ++ bytes " " ++ mn ++ bytes " "
                ++ yy ++ bytes " " ++ hh ++ bytes ":" ++ mi ++ bytes ":" ++ ss
                ++ bytes " GMT" ++ [] in
  (exists rest, text = c0 :: c1 :: rest)
  /\ (exists body, text = body ++ [0x54])
  /\ forallb isAscii text = true.
Proof.
  intros H0 H1 H2 H3 H4 H5 H6 text. subst text. split; [|split].
  - eexists. cbn [app]. reflexivity.
  - exists ([c0; c1; c2] ++ bytes ", " ++ dd ++ bytes " " ++ mn ++ bytes " "
              ++ yy ++ bytes " " ++ hh ++ bytes ":" ++ mi ++ bytes ":" ++ ss
              ++ [0x20; 0x47; 0x4D]).
    rewrite <- !app_assoc. reflexivity.
  - rewrite !forallb_app, H0, H1, H2, H3, H4, H5, H6. reflexivity.
Qed.

Section HttpDate.
Context `{GoLib}.

(** The first two bytes of a day name: the first is not white space, not a
    digit, not a dot and not Z; the second is a rune the scanner rejects. *)
Lemma dayName_head (w : Z) :
  exists c0 c1 c2, bytes (nth (Z.to_nat (w mod 7)) shortDayNames ""%string)
                   = [c0; c1; c2]
    /\ forallb isAscii [c0; c1; c2] = true
    /\ unicode_IsSpace c0 = false /\ digit c0 = false /\ dot c0 = false
    /\ unicode_ToUpper c0 <> 0x5A /\ foreign c1 = true.
Proof.
  pose proof (Z.mod_pos_bound w 7 ltac:(lia)) as Hw.
  assert (Hn : (Z.to_nat (w mod 7) < 7)%nat) by lia.
  destruct (Z.to_nat (w mod 7)) as [|[|[|[|[|[|[|n]]]]]]]; try lia;
    eexists _, _, _; (split; [reflexivity|]);
    repeat split; try reflexivity; discriminate.
Qed.

(** The text [RFC7232] prints is no numeric candidate and is rejected by the
    ISO scanner, so [ParseInUTC] passes it to the fallback formats, the
    first of which is the layout that printed it. *)
Lemma RFC7232_dispatch (t t' : Time) (c : zones) :
  time_ParseInLocation httpLayoutText (RFC7232 t) UTC = Some t' ->
  ParseInUTC (RFC7232 t) c
  = mkDispatched (Ok t') c
      [TryISO (RFC7232 t); TryLayout httpLayoutText (RFC7232 t)].
Proof.
  intros Hparse. unfold RFC7232 in *. set (u := In t UTC) in *.
  unfold time_Format in *.
  set (text := flat_map (formatChunk u) http_TimeFormat) in *.
  assert (Hshape : exists c0 c1 rest body,
             text = c0 :: c1 :: rest /\ text = body ++ [0x54]
             /\ forallb isAscii text = true
             /\ unicode_IsSpace c0 = false /\ digit c0 = false
             /\ dot c0 = false /\ unicode_ToUpper c0 <> 0x5A
             /\ foreign c1 = true).
  { subst text. unfold http_TimeFormat, formatChunk.
    unfold Date. destruct (absDate (absSeconds u / secondsPerDay)) as [[y mo] d].
    destruct (Clock u) as [[h mi] s]. unfold Weekday.
    destruct (dayName_head (absSeconds u / secondsPerDay + 1))
      as (c0 & c1 & c2 & Hname & Ha & Hs0 & Hd0 & Hdot0 & Hz0 & Hf1).
    cbn [flat_map]. rewrite Hname.
    destruct (http_shape c0 c1 c2 (appendInt d 2)
                (bytes (nth (Z.to_nat (mo - 1)) shortMonthNames ""%string))
                (appendInt y 4) (appendInt h 2) (appendInt mi 2)
                (appendInt s 2) Ha (appendInt_ascii _ _) (monthName_ascii _)
                (appendInt_ascii _ _) (appendInt_ascii _ _)
                (appendInt_ascii _ _) (appendInt_ascii _ _))
      as ((rest & Hrest) & (body & Hbody) & Hascii).
    exists c0, c1, rest, body. auto 10. }
  destruct Hshape
    as (c0 & c1 & rest & body & Htext & Hlast & Ha & Hs0 & Hd0 & Hdot0 & Hz0
        & Hf1).
  assert (Htrim : strings_TrimSpace (ofBytes text) = ofBytes text).
  { apply TrimSpace_id; [exact Ha | |].
    - exists c0, (c1 :: rest). now split.
    - exists body, 0x54. split; [exact Hlast | reflexivity]. }
  assert (Hts : isTS (ofBytes text) = false).
  { apply (isTS_other _ c0); [|exact Hd0|exact Hdot0].
    rewrite (bytes_ofBytes text Ha), Htext. now left. }
  assert (Hiso : exists e, ParseISOTimestamp (ofBytes text) UTC c = (Err e, c)).
  { assert (Hu : unparsed (scan (ofBytes text)) <> []).
    { rewrite (scan_ofBytes text Ha), Htext. cbn [indexed].
      pose proof (scanLoop_collects [(0, c0)] (indexed (0 + 1 + 1) rest)
                    (0 + 1) c1 initScan) as Hin.
      cbn [app] in Hin.
      intros Hnil. rewrite Hnil in Hin. apply Hin; [|exact Hf1].
      constructor; [exact Hz0 | constructor]. }
    unfold ParseISOTimestamp, parseISOFields.
    destruct (maxLength <? len (ofBytes text)); [eauto|].
    destruct (unparsed (scan (ofBytes text))) as [|x l]; [now elim Hu|].
    cbn [lenZ length]. eauto. }
  destruct Hiso as [e Hiso].
  unfold ParseInUTC, parseTimestamp. rewrite Htrim, Hts, Hiso.
  cbn [negb]. unfold afterISO. rewrite Hts.
  cbn [nonISOTimeFormats tryFormats].
  change "Mon, 02 Jan 2006 15:04:05 GMT"%string with httpLayoutText.
  now rewrite Hparse.
Qed.

End HttpDate.

(** ** Parsing the HTTP date *)

Lemma monthDay_checked : allFrom checkMonthDay (Z.to_nat 146097) 0 = true.
Proof. vm_compute. reflexivity. Qed.

Lemma daysIn_shift (m y k : Z) : daysIn m (y + 400 * k) = daysIn m y.
Proof. unfold daysIn. now rewrite isLeap_shift. Qed.

(** The day of the month of a date never exceeds the length of its
    month. *)
Lemma absDate_daysIn (days : Z) :
  let '(y, m, d) := absDate days in d <= daysIn m y.
Proof.
  unfold absDate, daysPer400Years. change (365 * 400 + 97) with 146097.
  pose proof (Z.div_mod days 146097 ltac:(lia)) as Hdm.
  pose proof (Z.mod_pos_bound days 146097 ltac:(lia)) as Hb.
  set (n := days / 146097) in *. set (r := days mod 146097) in *.
  replace (days - 146097 * n) with r by lia.
  replace (400 * n) with (0 + 400 * n) by ring.
  rewrite dateInCycle_shift.
  pose proof (allBelow checkMonthDay 146097 monthDay_checked r ltac:(lia)) as Hc.
  unfold checkMonthDay in Hc.
  destruct (dateInCycle 0 r) as [[y m] d].
  rewrite daysIn_shift. now apply Z.leb_le.
Qed.

Lemma getnum_dig2 (n : Z) (fixed : bool) (c : Z) (rest : list Z) :
  0 <= n < 100 -> isAsciiDigit c = false ->
  getnum (dig2 n ++ c :: rest) fixed = Some (n, c :: rest).
Proof.
  intros Hn Hc. pose proof (dig2_digits n Hn) as Hd. unfold dig2 in *.
  cbn [forallb] in Hd. apply andb_true_iff in Hd as [H1 Hd].
  apply andb_true_iff in Hd as [H2 _].
  unfold getnum, isDigitAt. cbn [app nth_error]. rewrite H1, H2. cbn [negb].
  f_equal. f_equal.
  pose proof (Z.div_mod n 10 ltac:(lia)). lia.
Qed.

Lemma decimal_dig4 (n : Z) : 0 <= n < 10000 -> decimal (dig4 n) = n.
Proof.
  intros Hn. apply Z.eqb_eq.
  apply (allBelow (fun n => decimal (dig4 n) =? n) 10000); [|exact Hn].
  vm_compute. reflexivity.
Qed.

Lemma lookup_dayName (w : Z) (rest : list Z) :
  0 <= w < 7 ->
  exists j, lookup shortDayNames
              (bytes (nth (Z.to_nat w) shortDayNames ""%string) ++ rest)
            = Some (j, rest).
Proof.
  intros Hw. assert (Hn : (Z.to_nat w < 7)%nat) by lia.
  destruct (Z.to_nat w) as [|[|[|[|[|[|[|n]]]]]]]; try lia;
    eexists; reflexivity.
Qed.

Lemma lookup_monthName (m : Z) (rest : list Z) :
  1 <= m <= 12 ->
  lookup shortMonthNames
    (bytes (nth (Z.to_nat (m - 1)) shortMonthNames ""%string) ++ rest)
  = Some (m - 1, rest).
Proof.
  intros Hm.
  assert (Hc : m = 1 \/ m = 2 \/ m = 3 \/ m = 4 \/ m = 5 \/ m = 6 \/ m = 7
               \/ m = 8 \/ m = 9 \/ m = 10 \/ m = 11 \/ m = 12) by lia.
  destruct Hc as [->|[->|[->|[->|[->|[->|[->|[->|[->|[->|[->| ->]]]]]]]]]]];
    reflexivity.
Qed.

(** The head of a two-digit or a four-digit field is no space. *)
Lemma dig2_head (n : Z) :
  0 <= n < 100 -> (48 + n / 10 =? 32) = false.
Proof.
  intros Hn. apply Z.eqb_neq.
  assert (0 <= n / 10) by (apply Z.div_pos; lia). lia.
Qed.

(** [parse] on the text of an HTTP date. *)
Lemma parseChunks_http (w mo d y h mi s : Z) :
  0 <= w < 7 -> 1 <= mo <= 12 -> 0 <= d < 100 -> 0 <= y < 10000 ->
  0 <= h < 24 -> 0 <= mi < 60 -> 0 <= s < 60 ->
  parseChunks http_TimeFormat startReading
    (httpBytes (bytes (nth (Z.to_nat w) shortDayNames ""%string))
       (bytes (nth (Z.to_nat (mo - 1)) shortMonthNames ""%string))
       (dig2 d) (dig4 y) (dig2 h) (dig2 mi) (dig2 s))
  = Go (mkReading y (Some mo) (Some d) h mi s 0) [].
Proof.
  intros Hw Hmo Hd Hy Hh Hmi Hs. unfold httpBytes, http_TimeFormat.
  cbn [app parseChunks parseChunk].
  assert (Hsk2 : forall c rest, (c =? 32) = false ->
            skip (32 :: c :: rest) (bytes " ") = Some (c :: rest)).
  { intros c rest Hc. unfold skip. cbn. now rewrite Hc. }
  assert (Hsk3 : forall rest, skip (58 :: rest) (bytes ":") = Some rest)
    by reflexivity.
  (* the day name, ", " and the day *)
  match goal with
  | |- context [lookup shortDayNames (_ ++ ?r)] =>
    destruct (lookup_dayName w r Hw) as [j ->]
  end.
  assert (Hsk1 : forall n rest, 0 <= n < 100 ->
            skip (44 :: 32 :: dig2 n ++ rest) (bytes ", ")
            = Some (dig2 n ++ rest)).
  { intros n rest Hn. unfold skip, dig2. cbn. now rewrite (dig2_head n Hn). }
  rewrite Hsk1 by exact Hd.
  rewrite (getnum_dig2 d true 32) by (lia || reflexivity).
  cbn [rYear rMonth rDay rHour rMin rSec rNsec startReading].
  (* " " and the month *)
  assert (Hmon : exists c0 c1 c2,
             bytes (nth (Z.to_nat (mo - 1)) shortMonthNames ""%string)
             = [c0; c1; c2] /\ (c0 =? 32) = false).
  { assert (Hc : mo = 1 \/ mo = 2 \/ mo = 3 \/ mo = 4 \/ mo = 5 \/ mo = 6
                 \/ mo = 7 \/ mo = 8 \/ mo = 9 \/ mo = 10 \/ mo = 11 \/ mo = 12)
      by lia.
    destruct Hc as [->|[->|[->|[->|[->|[->|[->|[->|[->|[->|[->| ->]]]]]]]]]]];
      eexists _, _, _; split; reflexivity. }
  destruct Hmon as (c0 & c1 & c2 & Hname & Hc0).
  match goal with
  | |- context [bytes (nth (Z.to_nat (mo - 1)) shortMonthNames ""%string) ++ ?r] =>
    pose proof (lookup_monthName mo r Hmo) as Hlk
  end.
  rewrite Hname in Hlk |- *. cbn [app] in Hlk |- *.
  rewrite (Hsk2 c0 _ Hc0), Hlk.
  replace (mo - 1 + 1) with mo by ring.
  cbn [rYear rMonth rDay rHour rMin rSec rNsec].
  (* " " and the year *)
  pose proof (dig4_digits y Hy) as Dy.
  assert (Hy0 : (48 + y / 1000 =? 32) = false).
  { apply Z.eqb_neq. assert (0 <= y / 1000) by (apply Z.div_pos; lia). lia. }
  assert (Hyear : forall rest,
            skip (32 :: dig4 y ++ rest) (bytes " ") = Some (dig4 y ++ rest)
            /\ ((length (dig4 y ++ rest) <? 4)%nat
                || negb (isDigitAt (dig4 y ++ rest) 0)) = false
            /\ firstn 4 (dig4 y ++ rest) = dig4 y
            /\ skipn 4 (dig4 y ++ rest) = rest).
  { intros rest. unfold dig4 in *. cbn [forallb] in Dy.
    apply andb_true_iff in Dy as [D0 _].
    unfold isDigitAt. cbn [app nth_error length firstn skipn].
    rewrite (Hsk2 _ _ Hy0), D0. repeat split. }
  match goal with
  | |- context [dig4 y ++ ?r] =>
    destruct (Hyear r) as (Hy1 & Hy2 & Hy3 & Hy4);
      rewrite Hy1, Hy2, Hy3, Hy4, Dy
  end.
  rewrite (decimal_dig4 y Hy).
  cbn [rYear rMonth rDay rHour rMin rSec rNsec].
  (* " ", the hour, ":", the minute, ":", the second *)
  assert (Hsk4 : forall n rest, 0 <= n < 100 ->
            skip (32 :: dig2 n ++ rest) (bytes " ") = Some (dig2 n ++ rest)).
  { intros n rest Hn. unfold dig2. cbn [app].
    now rewrite (Hsk2 _ _ (dig2_head n Hn)). }
  rewrite Hsk4 by lia.
  rewrite (getnum_dig2 h false 58) by (lia || reflexivity).
  destruct (Z.ltb_spec h 0); [lia|]. destruct (Z.leb_spec 24 h); [lia|].
  cbn [orb rYear rMonth rDay rHour rMin rSec rNsec].
  rewrite Hsk3. rewrite (getnum_dig2 mi true 58) by (lia || reflexivity).
  destruct (Z.ltb_spec mi 0); [lia|]. destruct (Z.leb_spec 60 mi); [lia|].
  cbn [orb rYear rMonth rDay rHour rMin rSec rNsec].
  rewrite Hsk3. rewrite (getnum_dig2 s true 32) by (lia || reflexivity).
  destruct (Z.ltb_spec s 0); [lia|]. destruct (Z.leb_spec 60 s); [lia|].
  reflexivity.
Qed.

Section HttpRoundTrip.
Context `{GoLib}.

Lemma dayName_ascii (i : nat) :
  forallb isAscii (bytes (nth i shortDayNames ""%string)) = true.
Proof.
  do 7 (destruct i as [|i]; [reflexivity|]). now destruct i.
Qed.

(** What [RFC7232] prints for an instant whose UTC date lies in the years
    0 to 9999. *)
Lemma RFC7232_text (t : Time) :
  firstDay <= absSeconds (In t UTC) / secondsPerDay <= lastDay ->
  let '(y, mo, d) := Date (In t UTC) in
  let '(h, mi, s) := Clock (In t UTC) in
  RFC7232 t
  = ofBytes (httpBytes
               (bytes (nth (Z.to_nat (Weekday (In t UTC))) shortDayNames
                         ""%string))
               (bytes (nth (Z.to_nat (mo - 1)) shortMonthNames ""%string))
               (dig2 d) (dig4 y) (dig2 h) (dig2 mi) (dig2 s))
  /\ 0 <= y < 10000 /\ 1 <= mo <= 12 /\ 1 <= d <= daysIn mo y /\ d < 100
  /\ 0 <= h < 24 /\ 0 <= mi < 60 /\ 0 <= s < 60.
Proof.
  intros Hday. change firstDay with (-366) in Hday.
  change lastDay with 3652058 in Hday.
  unfold RFC7232, time_Format, http_TimeFormat. set (u := In t UTC) in *.
  pose proof (clock_bounds u) as Hcl.
  cbn [flat_map]. unfold formatChunk, Date.
  pose proof (absDate_civilDays (absSeconds u / secondsPerDay)) as Hc.
  pose proof (absDate_daysIn (absSeconds u / secondsPerDay)) as Hdi.
  destruct (absDate (absSeconds u / secondsPerDay)) as [[y mo] d].
  destruct (Clock u) as [[h mi] s].
  destruct Hc as (Hmo & Hd & _ & Hy). specialize (Hy ltac:(lia)).
  destruct Hcl as (Hh & Hmi & Hs).
  rewrite (appendInt_2 d), (appendInt_4 y), (appendInt_2 h), (appendInt_2 mi),
    (appendInt_2 s) by lia.
  split; [|repeat split; lia].
  unfold httpBytes. rewrite app_nil_r. reflexivity.
Qed.

(** [time.ParseInLocation] with the layout of the HTTP date gives back, in
    UTC and without nanoseconds, the second [RFC7232] printed. *)
Lemma RFC7232_parsed (t : Time) :
  firstDay <= absSeconds (In t UTC) / secondsPerDay <= lastDay ->
  time_ParseInLocation httpLayoutText (RFC7232 t) UTC
  = Some (mkTime (unixSec t) 0 UTC).
Proof.
  intros Hday. pose proof (RFC7232_text t Hday) as Htext.
  pose proof (time_Date_back (In t UTC) 0 UTC ltac:(lia) fixedAt_UTC) as Hback.
  pose proof (Z.mod_pos_bound (absSeconds (In t UTC) / secondsPerDay + 1) 7
                ltac:(lia)) as Hw.
  fold (Weekday (In t UTC)) in Hw.
  destruct (Date (In t UTC)) as [[y mo] d].
  destruct (Clock (In t UTC)) as [[h mi] s].
  destruct Htext as (-> & Hy & Hmo & Hd & Hd' & Hh & Hmi & Hs).
  unfold time_ParseInLocation. change (chunksOf httpLayoutText)
    with (Some http_TimeFormat).
  unfold time_parse. rewrite bytes_ofBytes.
  - rewrite (parseChunks_http _ mo d y h mi s) by lia.
    cbn [rYear rMonth rDay rHour rMin rSec rNsec].
    destruct (Z.ltb_spec d 1); [lia|].
    destruct (Z.ltb_spec (daysIn mo y) d); [lia|].
    cbn [orb]. now rewrite Hback.
  - unfold httpBytes. rewrite !isAscii_app.
    rewrite dayName_ascii, monthName_ascii.
    rewrite (digits_isAscii _ (dig2_digits d ltac:(lia))).
    rewrite (digits_isAscii _ (dig4_digits y Hy)).
    rewrite (digits_isAscii _ (dig2_digits h ltac:(lia))).
    rewrite (digits_isAscii _ (dig2_digits mi ltac:(lia))).
    rewrite (digits_isAscii _ (dig2_digits s ltac:(lia))).
    reflexivity.
Qed.

End HttpRoundTrip.

(** ** The offsets a successful ISO parse can produce *)

Lemma Norm_range (hi lo base : Z) :
  0 < base -> 0 <= snd (Norm hi lo base) < base.
Proof.
  intros Hb. unfold Norm. destruct (Z.ltb_spec lo 0) as [Hneg | Hpos].
  - rewrite Z.quot_div_nonneg by lia.
    pose proof (Z.div_mod (- lo - 1) base ltac:(lia)) as Hdm.
    pose proof (Z.mod_pos_bound (- lo - 1) base Hb) as Hm.
    set (q := (- lo - 1) / base) in *.
    destruct (Z.geb_spec (lo + (q + 1) * base) base); [lia|]. cbn [snd]. lia.
  - destruct (Z.geb_spec lo base) as [Hge | Hlt]; cbn [snd]; [|lia].
    rewrite Z.quot_div_nonneg by lia.
    pose proof (Z.div_mod lo base ltac:(lia)) as Hdm.
    pose proof (Z.mod_pos_bound lo base Hb) as Hm. lia.
Qed.

Lemma high_bit_not_digit (c x : Z) :
  0 <= x -> 0 <= c -> Z.testbit c 7 = true -> isAsciiDigit (Z.lor c x) = false.
Proof.
  intros Hx Hc Hbit.
  assert (Hl : Z.testbit (Z.lor c x) 7 = true)
    by (rewrite Z.lor_spec, Hbit; reflexivity).
  assert (Hn : 0 <= Z.lor c x) by (apply Z.lor_nonneg; lia).
  apply Z.testbit_true in Hl; [|lia]. change (2 ^ 7) with 128 in Hl.
  assert (Hge : 128 <= Z.lor c x).
  { destruct (Z.lt_ge_cases (Z.lor c x) 128) as [Hlt | Hge]; [|exact Hge].
    rewrite Z.div_small in Hl by lia. discriminate. }
  unfold isAsciiDigit, between. apply andb_false_iff. right.
  apply Z.leb_gt. lia.
Qed.

(** A rune above Latin-1 is encoded with a first byte that is no ASCII
    digit and no sign. *)
Lemma EncodeRune_wide (r : Z) :
  255 < r ->
  exists b rest, utf8_EncodeRune r = b :: rest
    /\ isAsciiDigit b = false /\ b <> 0x2D /\ b <> 0x2B.
Proof.
  intros Hr. unfold utf8_EncodeRune.
  assert (H6 : 0 <= Z.shiftr r 6) by (apply Z.shiftr_nonneg; lia).
  assert (H12 : 0 <= Z.shiftr r 12) by (apply Z.shiftr_nonneg; lia).
  assert (H18 : 0 <= Z.shiftr r 18) by (apply Z.shiftr_nonneg; lia).
  assert (Hsign : forall c x, 0 <= x -> 0 <= c -> Z.testbit c 7 = true ->
                    Z.lor c x <> 45 /\ Z.lor c x <> 43).
  { intros c x Hx Hc Hb. pose proof (high_bit_not_digit c x Hx Hc Hb) as Hd.
    assert (Hl : Z.testbit (Z.lor c x) 7 = true)
      by (rewrite Z.lor_spec, Hb; reflexivity).
    split; intros E; rewrite E in Hl; discriminate. }
  destruct (between 0 127 r) eqn:E0.
  { unfold between in E0. apply andb_true_iff in E0 as [_ E0].
    apply Z.leb_le in E0. lia. }
  destruct (between 128 2047 r).
  { eexists _, _. split; [reflexivity|].
    split; [now apply high_bit_not_digit|]. now apply Hsign. }
  destruct ((r <? 0) || (1114111 <? r) || between 55296 57343 r).
  { eexists _, _. split; [reflexivity|]. repeat split; discriminate. }
  destruct (r <=? 65535).
  - eexists _, _. split; [reflexivity|].
    split; [now apply high_bit_not_digit|]. now apply Hsign.
  - eexists _, _. split; [reflexivity|].
    split; [now apply high_bit_not_digit|]. now apply Hsign.
Qed.

Lemma ParseInt_nondigit (b : Z) (rest : list Z) :
  isAsciiDigit b = false -> b <> 0x2D -> b <> 0x2B ->
  isOk (strconv_ParseInt (b :: rest)) = false.
Proof.
  intros Hd H1 H2. unfold strconv_ParseInt.
  destruct (Z.eqb_spec b 45); [contradiction|].
  destruct (Z.eqb_spec b 43); [contradiction|].
  cbn [forallb]. now rewrite Hd.
Qed.

Section ProducedOffsets.
Context `{GoLib}.

Lemma digitRune_latin (r : rune) :
  digitRune r -> r <= 255 -> isAsciiDigit r = true.
Proof.
  unfold digitRune, unicode_IsDigit, MaxLatin1, isAsciiDigit. intros Hd Hr.
  destruct (Z.leb_spec r 255); [exact Hd | lia].
Qed.

(** Two digit runes decode, if at all, to a value between 0 and 99. *)
Lemma decodeAtoi_pair (a b v : Z) :
  digitRune a -> digitRune b -> decodeAtoi [a; b] = Ok v -> 0 <= v <= 99.
Proof.
  intros Ha Hb Hv.
  destruct (Z.le_gt_cases a 255) as [Ha255 | Ha255].
  - pose proof (digitRune_latin a Ha Ha255) as Da.
    destruct (Z.le_gt_cases b 255) as [Hb255 | Hb255].
    + pose proof (digitRune_latin b Hb Hb255) as Db.
      rewrite (decodeAtoi_2 a b Da Db) in Hv. injection Hv as <-.
      apply (decimal_2_bounds a b Da Db).
    + unfold decodeAtoi in Hv. destruct (isZero [a; b]); [injection Hv; lia|].
      exfalso. unfold strconv_Atoi, RunesToString in Hv. cbn [flat_map] in Hv.
      destruct (EncodeRune_wide b ltac:(lia)) as (x & rest & Hx & Hd & _ & _).
      rewrite Hx, app_nil_r in Hv.
      assert (Ea : utf8_EncodeRune a = [a]).
      { digit_cases a Da; reflexivity. }
      rewrite Ea in Hv. cbn [app] in Hv. unfold strconv_ParseInt in Hv.
      assert (Hns : (a =? 45) = false /\ (a =? 43) = false).
      { digit_cases a Da; split; reflexivity. }
      destruct Hns as [Hn1 Hn2]. rewrite Hn1, Hn2 in Hv.
      cbn [forallb] in Hv. rewrite Hd in Hv.
      rewrite andb_false_l, andb_false_r in Hv. discriminate.
  - unfold decodeAtoi in Hv. destruct (isZero [a; b]); [injection Hv; lia|].
    exfalso. unfold strconv_Atoi, RunesToString in Hv. cbn [flat_map] in Hv.
    destruct (EncodeRune_wide a ltac:(lia)) as (x & rest & Hx & Hd & H1 & H2).
    rewrite Hx in Hv. cbn [app] in Hv.
    pose proof (ParseInt_nondigit x (rest ++ utf8_EncodeRune b ++ []) Hd H1 H2)
      as Hno.
    rewrite Hv in Hno. discriminate.
Qed.

Lemma scanRune_zoneDigits (st : Scan) (i : Z) (r : rune) :
  zoneDigits st -> zoneDigits (fst (scanRune st i r)).
Proof.
  unfold zoneDigits, scanRune. intros Hz.
  destruct (unicode_IsDigit r) eqn:Hr.
  { destruct st as [sec sg y m d h mi s ss z u].
    unfold scanDigit, addIf, advanceIf. cbn [fst].
    destruct sec; cbn;
      repeat match goal with |- context [if ?b then _ else _] =>
               destruct b; cbn end;
      try exact Hz.
    all: apply Forall_app; split; [exact Hz | repeat constructor; exact Hr]. }
  destruct (r =? 46); [exact Hz|].
  destruct ((r =? 45) || (r =? 43)).
  { now destruct (isSubsecond (currentSection st)). }
  destruct ((unicode_ToUpper r =? 84) || (r =? 58) || (r =? 47)); [exact Hz|].
  destruct (unicode_ToUpper r =? 90).
  { destruct (inZoneOrSubsecond (currentSection st)); cbn; [|exact Hz].
    apply Forall_app. split; [exact Hz|]. repeat constructor. }
  destruct (unicode_IsSpace r); exact Hz.
Qed.

Lemma scan_zoneDigits (timeStr : string) : zoneDigits (scan timeStr).
Proof.
  unfold scan. generalize (range timeStr).
  assert (H0 : zoneDigits initScan) by constructor.
  revert H0. generalize initScan.
  intros st Hst rs. revert st Hst.
  induction rs as [|[i r] rs IH]; intros st Hst; simpl; [exact Hst|].
  pose proof (scanRune_zoneDigits st i r Hst) as Hstep.
  destruct (scanRune st i r) as [st' brk]. cbn [fst] in Hstep.
  destruct brk; [exact Hstep | now apply IH].
Qed.

(** A resolved offset is a whole number of quarter hours below 100 hours. *)
Lemma resolveZone_quarters (zp : list rune) (zf pos : bool) (off : Z) :
  Forall digitRune zp -> 4 <= lenZ zp ->
  resolveZone zp zf pos = Ok (ZoneOffset off) ->
  exists k, off = 900 * k /\ -400 < k < 400.
Proof.
  intros Hd Hlen Hr. unfold resolveZone in Hr.
  destruct (negb zf); [discriminate|]. destruct (isZero zp); [discriminate|].
  obind_inv Hr. rename a into offsetH. obind_inv Hr. rename a into offsetM.
  destruct (quarterHour offsetM) eqn:Hq; [|discriminate].
  injection Hr as <-.
  destruct zp as [|a [|b zp']]; unfold lenZ in Hlen; simpl in Hlen; try lia.
  cbn [firstn] in Ha.
  inversion Hd as [|? ? Hda Hd']; subst. inversion Hd' as [|? ? Hdb _]; subst.
  pose proof (decodeAtoi_pair a b offsetH Hda Hdb Ha) as HH.
  unfold quarterHour in Hq. rewrite !orb_true_iff, !Z.eqb_eq in Hq.
  assert (Hj : exists j, offsetM = 15 * j /\ 0 <= j <= 3).
  { destruct Hq as [[[-> | ->] | ->] | ->];
      [exists 0 | exists 1 | exists 2 | exists 3]; lia. }
  destruct Hj as (j & -> & Hj).
  destruct pos; cbn [negb].
  - exists (4 * offsetH + j). lia.
  - exists (- (4 * offsetH + j)). lia.
Qed.

Lemma loc_dateOf (f : Fields) (l : Location) : loc (dateOf f l) = l.
Proof.
  unfold dateOf, time_Date. destruct (wallSeconds _ _ _ _ _ _ _) as [ab ns].
  now destruct (zoneLookup l _) as [[o st] en].
Qed.

(** Every instant [ParseISOTimestamp] returns with UTC as default has an
    offset of a whole number of quarter hours below 100 hours and
    nanoseconds below one second. *)
Lemma ParseISOTimestamp_produced (timeStr : string) (c c' : zones) (t : Time) :
  cacheSound c -> ParseISOTimestamp timeStr UTC c = (Ok t, c') ->
  (exists k, zoneOffset (loc t) (unixSec t) = 900 * k /\ -400 < k < 400)
  /\ 0 <= nsec t < 1000000000 /\ cacheSound c'.
Proof.
  intros Hc Hp. unfold ParseISOTimestamp in Hp.
  destruct (parseISOFields timeStr) as [p | |] eqn:Hf; try discriminate.
  assert (Hns : forall l, 0 <= nsec (dateOf (pFields p) l) < 1000000000).
  { intros l. unfold dateOf, time_Date, wallSeconds.
    pose proof (Norm_range (fSecond (pFields p)) (fSubseconds (pFields p))
                  1000000000 ltac:(lia)) as Hn.
    destruct (Norm (fYear (pFields p)) _ 12) as [yy mm].
    destruct (Norm (fSecond (pFields p)) _ 1000000000) as [s2 n2].
    destruct (Norm (fMinute (pFields p)) s2 60) as [m3 s3].
    destruct (Norm (fHour (pFields p)) m3 60) as [h4 m4].
    destruct (Norm (fDay (pFields p)) h4 24) as [d5 h5].
    destruct (zoneLookup l _) as [[o st] en]. exact Hn. }
  destruct (pZone p) as [| |off] eqn:Hz.
  - injection Hp as <- <-. split; [|split; [apply Hns | exact Hc]].
    exists 0. rewrite loc_dateOf. cbn. lia.
  - injection Hp as <- <-. split; [|split; [apply Hns | exact Hc]].
    exists 0. rewrite loc_dateOf. cbn. lia.
  - destruct (LocationFromOffset_sound off c Hc) as [Hl Hc'].
    destruct (LocationFromOffset off c) as [l c2]. cbn [fst snd] in Hl, Hc'.
    injection Hp as <- <-. subst l.
    split; [|split; [apply Hns | exact Hc']].
    rewrite loc_dateOf. unfold zoneOffset. cbn [zoneLookup fst].
    unfold parseISOFields in Hf.
    destruct (maxLength <? len timeStr); [discriminate|].
    destruct (0 <? lenZ (unparsed (scan timeStr))); [discriminate|].
    unfold decodeScan in Hf. obind_inv Hf. destruct a as [zp zf].
    obind_inv Hf. obind_inv Hf. injection Hf as <-. cbn [pZone] in Hz.
    subst a0.
    pose proof (scan_zoneDigits timeStr) as Hzd. unfold zoneDigits in Hzd.
    destruct (padZone_cases (zonePart (scan timeStr)))
      as [[E Hpz] | [[E Hpz] | [[E Hpz] | [E Hpz]]]];
      rewrite Hpz in Ha; try discriminate; injection Ha as <- <-.
    + apply (resolveZone_quarters _ _ _ _) in Ha1; [exact Ha1 | |].
      * apply Forall_app. split; [exact Hzd | repeat constructor].
      * rewrite lenZ_app. change (lenZ [48; 48; 48; 48]) with 4. lia.
    + apply (resolveZone_quarters _ _ _ _) in Ha1; [exact Ha1 | |].
      * apply Forall_app. split; [exact Hzd | repeat constructor].
      * rewrite lenZ_app. change (lenZ [48; 48]) with 2. lia.
    + apply (resolveZone_quarters _ _ _ _ Hzd E Ha1).
Qed.

End ProducedOffsets.

(** ** Round trip *)

(** C8 as stated fails.  "20060102T150405.123456789Z" parses to an instant
    with 123456789 ns; every ISO format prints it without the digits below
    its precision and the re-parsed instant has 0 ns (123000000 ns for the
    millisecond formats).  And "99991231T235960Z" parses to
    10000-01-01T00:00:00Z, which [ISO8601Compact] prints with a five-digit
    year; the text re-parses to an instant in year 999.  [RFC7232] prints
    whole seconds, so the first instant comes back without its nanoseconds,
    and it prints the second with a five-digit year, which the layout that
    printed it refuses.  Below year 0: "00000001T000000Z" parses to
    -0001-12-01T00:00:00Z, which [ISO8601Compact] prints with a sign, and
    the text re-parses to an instant in year 1; and
    "00000101T000000+0700" parses to an instant whose date in UTC is
    -0001-12-31, which [RFC7232] prints with a sign that the layout
    refuses. *)
Lemma C8_counterexample :
  result (@ParseInUTC sampleLib "20060102T150405.123456789Z" ∅)
  = Ok (mkTime 1136214245 123456789 UTC)
  /\ result (@ParseInUTC sampleLib
               (@ISO8601Compact sampleLib (mkTime 1136214245 123456789 UTC)) ∅)
     = Ok (mkTime 1136214245 0 UTC)
  /\ result (@ParseInUTC sampleLib
               (@ISO8601 sampleLib (mkTime 1136214245 123456789 UTC)) ∅)
     = Ok (mkTime 1136214245 0 UTC)
  /\ result (@ParseInUTC sampleLib
               (@ISO8601CompactMsec sampleLib
                  (mkTime 1136214245 123456789 UTC)) ∅)
     = Ok (mkTime 1136214245 123000000 UTC)
  /\ result (@ParseInUTC sampleLib
               (@ISO8601Msec sampleLib (mkTime 1136214245 123456789 UTC)) ∅)
     = Ok (mkTime 1136214245 123000000 UTC)
  /\ result (@ParseInUTC sampleLib "99991231T235960Z" ∅)
     = Ok (mkTime 253402300800 0 UTC)
  /\ @ISO8601Compact sampleLib (mkTime 253402300800 0 UTC)
     = "100000101T000000+0000"%string
  /\ result (@ParseInUTC sampleLib "100000101T000000+0000" ∅)
     = Ok (mkTime (-30612088800) 0 UTC)
  /\ result (@ParseInUTC sampleLib
               (@RFC7232 sampleLib (mkTime 1136214245 123456789 UTC)) ∅)
     = Ok (mkTime 1136214245 0 UTC)
  /\ @RFC7232 sampleLib (mkTime 253402300800 0 UTC)
     = "Sat, 01 Jan 10000 00:00:00 GMT"%string
  /\ @time_parse sampleLib http_TimeFormat
       (bytes "Sat, 01 Jan 10000 00:00:00 GMT") UTC
     = Refused
  /\ result (@ParseInUTC sampleLib "00000001T000000Z" ∅)
     = Ok (mkTime (-62169897600) 0 UTC)
  /\ @ISO8601Compact sampleLib (mkTime (-62169897600) 0 UTC)
     = "-00011201T000000+0000"%string
  /\ result (@ParseInUTC sampleLib "-00011201T000000+0000" ∅)
     = Ok (mkTime (-62106739200) 0 UTC)
  /\ result (@ParseInUTC sampleLib "00000101T000000+0700" ∅)
     = Ok (mkTime (-62167244400) 0 (FixedZone "FixedZone" 25200))
  /\ @RFC7232 sampleLib
       (mkTime (-62167244400) 0 (FixedZone "FixedZone" 25200))
     = "Fri, 31 Dec -0001 17:00:00 GMT"%string
  /\ @time_parse sampleLib http_TimeFormat
       (bytes "Fri, 31 Dec -0001 17:00:00 GMT") UTC
     = Refused.
Proof. repeat split; vm_compute; reflexivity. Qed.

(** C8, amended.  Take an instant whose zone offset is a whole number of
    quarter hours below 100 hours, whose date in its own zone lies between
    0000-01-01 and 9999-12-31 and whose nanoseconds are below one second,
    and a cache whose handles are sound.  If the nanoseconds are a whole
    number of seconds, [ISO8601Compact] and [ISO8601] followed by
    [ParseInUTC] give back the same instant with the same offset; if they
    are a whole number of milliseconds, so do [ISO8601CompactMsec] and
    [ISO8601Msec].  If the nanoseconds are a whole number of seconds and the
    date in UTC lies between 0000-01-01 and 9999-12-31 as well, [RFC7232]
    followed by [ParseInUTC] gives back the same instant, in UTC: the ISO
    scanner rejects the text and the first fallback layout, the one that
    printed it, parses it.  Every instant the ISO scanner produces with UTC
    as default meets the conditions on the offset and on the nanoseconds. *)
Theorem C8_round_trip `{GoLib} (t : Time) (k : Z) (c : zones) :
  zoneOffset (loc t) (unixSec t) = 900 * k -> -400 < k < 400 ->
  firstDay <= absSeconds t / secondsPerDay <= lastDay ->
  0 <= nsec t < 1000000000 -> cacheSound c ->
  (nsec t = 0 -> roundTrips ISO8601Compact t c /\ roundTrips ISO8601 t c)
  /\ (nsec t mod 1000000 = 0 ->
      roundTrips ISO8601CompactMsec t c /\ roundTrips ISO8601Msec t c)
  /\ (nsec t = 0 ->
      firstDay <= absSeconds (In t UTC) / secondsPerDay <= lastDay ->
      exists t',
        ParseInUTC (RFC7232 t) c
        = mkDispatched (Ok t') c
            [TryISO (RFC7232 t); TryLayout httpLayoutText (RFC7232 t)]
        /\ sameInstant t' t /\ loc t' = UTC)
  /\ (forall timeStr c0 c1 t0,
        cacheSound c0 -> ParseISOTimestamp timeStr UTC c0 = (Ok t0, c1) ->
        (exists k0, zoneOffset (loc t0) (unixSec t0) = 900 * k0
                    /\ -400 < k0 < 400)
        /\ 0 <= nsec t0 < 1000000000 /\ cacheSound c1).
Proof.
  intros Hoff Hk Hday Hns Hc.
  assert (Hday' : -366 <= absSeconds t / secondsPerDay < 3652059).
  { change firstDay with (-366) in Hday. change lastDay with 3652058 in Hday.
    lia. }
  assert (Hrt : forall ext msec : bool,
             nsec t mod (if msec then 1000000 else 1000000000) = 0 ->
             roundTrips (time_Format (isoLayout ext msec)) t c).
  { intros ext msec Hmod.
    destruct (roundtrip_iso ext msec t k c Hoff Hk Hday' Hns Hmod Hc)
      as (t' & c' & Hp & Hu & Hn & Hz & _).
    exists t'. rewrite Hp. cbn [result]. unfold sameInstant. auto. }
  split; [|split; [|split]].
  - intros H0.
    assert (Hmod : nsec t mod 1000000000 = 0) by (rewrite H0; reflexivity).
    split; [apply (Hrt false false Hmod) | apply (Hrt true false Hmod)].
  - intros Hmod.
    split; [apply (Hrt false true Hmod) | apply (Hrt true true Hmod)].
  - intros H0 Hutc. exists (mkTime (unixSec t) 0 UTC).
    rewrite (RFC7232_dispatch t _ c (RFC7232_parsed t Hutc)).
    unfold sameInstant. cbn [unixSec nsec loc]. auto.
  - intros timeStr c0 c1 t0. apply ParseISOTimestamp_produced.
Qed.

(** Witness of [C8_round_trip] at 2006-01-02T15:04:05-07:00. *)
Lemma C8_round_trip_witness :
  @roundTrips sampleLib (@ISO8601Compact sampleLib)
    (mkTime 1136239445 0 (FixedZone "FixedZone" (-25200))) ∅
  /\ @roundTrips sampleLib (@ISO8601Msec sampleLib)
       (mkTime 1136239445 0 (FixedZone "FixedZone" (-25200))) ∅
  /\ exists t',
       @ParseInUTC sampleLib
         (@RFC7232 sampleLib
            (mkTime 1136239445 0 (FixedZone "FixedZone" (-25200)))) ∅
       = mkDispatched (Ok t') ∅
           [TryISO (@RFC7232 sampleLib
                      (mkTime 1136239445 0 (FixedZone "FixedZone" (-25200))));
            TryLayout httpLayoutText
              (@RFC7232 sampleLib
                 (mkTime 1136239445 0 (FixedZone "FixedZone" (-25200))))]
       /\ sameInstant t'
            (mkTime 1136239445 0 (FixedZone "FixedZone" (-25200)))
       /\ loc t' = UTC.
Proof.
  destruct (@C8_round_trip sampleLib
              (mkTime 1136239445 0 (FixedZone "FixedZone" (-25200))) (-28) ∅)
    as (Hsec & Hmsec & Hhttp & _).
  - reflexivity.
  - lia.
  - vm_compute. split; discriminate.
  - cbn [nsec]. lia.
  - apply cacheSound_empty.
  - split; [apply Hsec; reflexivity|].
    split; [apply Hmsec; reflexivity|].
    apply Hhttp; [reflexivity | vm_compute; split; discriminate].
Defined.

(* ===================================================================== *)
(** * Properties of the helpers *)
(* ===================================================================== *)

(** ** Wrap-around *)

Lemma wrap_fits (x : Z) : Int64.fits x -> Int64.wrap x = x.
Proof.
  unfold Int64.fits, Int64.wrap, minInt64, maxInt64. intros Hx.
  rewrite Z.mod_small; lia.
Qed.

Lemma wrap_range (x : Z) : Int64.fits (Int64.wrap x).
Proof.
  unfold Int64.fits, Int64.wrap, minInt64, maxInt64.
  pose proof (Z.mod_pos_bound (x + 2 ^ 63) (2 ^ 64) ltac:(lia)). lia.
Qed.

Lemma wrap_above (x : Z) :
  maxInt64 < x <= maxInt64 + 2 ^ 64 -> Int64.wrap x = x - 2 ^ 64.
Proof.
  unfold Int64.wrap, maxInt64. intros Hx.
  replace (x + 2 ^ 63) with ((x - 2 ^ 64 + 2 ^ 63) + 1 * 2 ^ 64) by lia.
  rewrite Z.mod_add by lia. rewrite Z.mod_small; lia.
Qed.

Lemma wrap_below (x : Z) :
  minInt64 - 2 ^ 64 <= x < minInt64 -> Int64.wrap x = x + 2 ^ 64.
Proof.
  unfold Int64.wrap, minInt64. intros Hx.
  replace (x + 2 ^ 63) with ((x + 2 ^ 64 + 2 ^ 63) + (-1) * 2 ^ 64) by lia.
  rewrite Z.mod_add by lia. rewrite Z.mod_small; lia.
Qed.

(** [overflow.Add64] reports [true] exactly when the sum fits. *)
Lemma Add64_spec (a b : Z) :
  Int64.fits a -> Int64.fits b ->
  (Int64.fits (a + b) -> overflow_Add64 a b = (a + b, true))
  /\ (~ Int64.fits (a + b) -> overflow_Add64 a b = (Int64.wrap (a + b), false)).
Proof.
  intros Ha Hb. unfold overflow_Add64, Int64.add. split; intros Hs.
  - rewrite (wrap_fits _ Hs). f_equal.
    destruct (Z.ltb_spec a (a + b)), (Z.ltb_spec 0 b); simpl; (reflexivity || lia).
  - f_equal. unfold Int64.fits, minInt64, maxInt64 in *.
    destruct (Z_lt_le_dec (2 ^ 63 - 1) (a + b)) as [Hhi | Hlo].
    + rewrite wrap_above by (unfold maxInt64; lia).
      destruct (Z.ltb_spec a (a + b - 2 ^ 64)), (Z.ltb_spec 0 b); simpl;
        (reflexivity || lia).
    + rewrite wrap_below by (unfold minInt64; lia).
      destruct (Z.ltb_spec a (a + b + 2 ^ 64)), (Z.ltb_spec 0 b); simpl;
        (reflexivity || lia).
Qed.

Lemma sumLoop_true (xs : list Z) (sum : Z) : snd (sumLoop sum true xs) = true.
Proof.
  revert sum. induction xs as [|x xs IH]; intros sum; simpl; [reflexivity|].
  destruct (Bool.eqb (sum <? Int64.add sum x) (0 <? x)); simpl;
    [apply IH | reflexivity].
Qed.

Lemma sumLoop_flag (xs : list Z) (sum : Z) (ok : bool) :
  xs <> [] -> snd (sumLoop sum ok xs) = true.
Proof.
  destruct xs as [|x xs]; [congruence|]. intros _. simpl.
  destruct (Bool.eqb (sum <? Int64.add sum x) (0 <? x)); simpl;
    [apply sumLoop_true | reflexivity].
Qed.

(** While every partial sum fits, the loop carries the exact sum. *)
Lemma sumLoop_exact (xs : list Z) (sum : Z) (ok : bool) :
  Int64.fits sum -> Forall Int64.fits xs ->
  (forall k, Int64.fits (sum + total (firstn k xs))) ->
  fst (sumLoop sum ok xs) = sum + total xs.
Proof.
  revert sum ok. induction xs as [|x xs IH]; intros sum ok Hs Hxs Hp.
  - unfold total. simpl. lia.
  - apply Forall_cons_iff in Hxs as [Hx Hxs].
    assert (Hsx : Int64.fits (sum + x)).
    { specialize (Hp 1%nat). unfold total in Hp. simpl in Hp.
      now rewrite Z.add_0_r in Hp. }
    cbn [sumLoop]. rewrite (proj1 (Add64_spec sum x Hs Hx) Hsx). cbn [negb].
    rewrite IH; [unfold total; simpl; lia | exact Hsx | exact Hxs |].
    intros k. specialize (Hp (S k)). unfold total in *. simpl in Hp.
    now rewrite Z.add_assoc in Hp.
Qed.

(** At the first partial sum that does not fit the loop returns the wrapped
    partial sum. *)
Lemma sumLoop_stops (pre post : list Z) (x sum : Z) (ok : bool) :
  Int64.fits sum -> Forall Int64.fits pre -> Int64.fits x ->
  (forall k, Int64.fits (sum + total (firstn k pre))) ->
  ~ Int64.fits (sum + total pre + x) ->
  sumLoop sum ok (pre ++ x :: post)
  = (Int64.wrap (sum + total pre + x), true).
Proof.
  revert sum ok. induction pre as [|p pre IH]; intros sum ok Hs Hpre Hx Hp Hno.
  - unfold total in *. cbn [fold_right] in *. rewrite Z.add_0_r in *.
    cbn [app sumLoop]. now rewrite (proj2 (Add64_spec sum x Hs Hx) Hno).
  - apply Forall_cons_iff in Hpre as [Hp0 Hpre].
    assert (Hsp : Int64.fits (sum + p)).
    { specialize (Hp 1%nat). unfold total in Hp. simpl in Hp.
      now rewrite Z.add_0_r in Hp. }
    cbn [app sumLoop]. rewrite (proj1 (Add64_spec sum p Hs Hp0) Hsp). cbn [negb].
    rewrite IH; try assumption.
    + unfold total. cbn [fold_right]. do 2 f_equal. lia.
    + intros k. specialize (Hp (S k)). unfold total in *. simpl in Hp.
      now rewrite Z.add_assoc in Hp.
    + unfold total in *. cbn [fold_right] in Hno. now rewrite Z.add_assoc in Hno.
Qed.

(** [Int64Overflows] and [DurationOverflows] return [true] for every
    non-empty argument list, whether or not the sum overflows, and [false]
    for the empty list only: once [overflow.Add64] has reported a sum that
    fits, the named result [ok] is [true], and on a sum that does not fit the
    function returns [true] itself. *)
Theorem Int64Overflows_flag :
  Int64Overflows [] = (0, false)
  /\ DurationOverflows [] = (0, false)
  /\ (forall x xs, snd (Int64Overflows (x :: xs)) = true)
  /\ (forall d ds, snd (DurationOverflows (d :: ds)) = true).
Proof.
  split; [reflexivity|]. split; [reflexivity|].
  split; intros x xs; now apply sumLoop_flag.
Qed.

(** The sum [Int64Overflows] returns, for arguments in the [int64] range:
    the exact sum when every partial sum fits, and otherwise the wrapped
    partial sum at the first argument whose addition does not fit, the
    arguments after it being ignored. *)
Theorem Int64Overflows_sum (xs : list Z) :
  Forall Int64.fits xs ->
  ((forall k, Int64.fits (total (firstn k xs))) ->
   fst (Int64Overflows xs) = total xs)
  /\ (forall pre x post,
        xs = pre ++ x :: post ->
        (forall k, Int64.fits (total (firstn k pre))) ->
        ~ Int64.fits (total pre + x) ->
        Int64Overflows xs = (Int64.wrap (total pre + x), true)).
Proof.
  intros Hxs.
  assert (H0 : Int64.fits 0) by (unfold Int64.fits, minInt64, maxInt64; lia).
  split.
  - intros Hp. unfold Int64Overflows.
    rewrite (sumLoop_exact xs 0 false H0 Hxs); [lia | exact Hp].
  - intros pre x post -> Hp Hno. unfold Int64Overflows.
    apply Forall_app in Hxs as [Hpre Hx].
    apply Forall_cons_iff in Hx as [Hx _].
    rewrite (sumLoop_stops pre post x 0 false H0 Hpre Hx); [reflexivity | |].
    + exact Hp.
    + exact Hno.
Qed.

(** Witness of [Int64Overflows_sum]: 1 + 2 + 3, and the largest [int64]
    plus one. *)
Lemma Int64Overflows_sum_witness :
  fst (Int64Overflows [1; 2; 3]) = 6
  /\ Int64Overflows [maxInt64; 1; 5] = (minInt64, true).
Proof.
  split.
  - apply (Int64Overflows_sum [1; 2; 3]).
    + repeat constructor; vm_compute; discriminate.
    + intros [|[|[|[|k]]]]; vm_compute; split; discriminate.
  - destruct (Int64Overflows_sum [maxInt64; 1; 5]) as [_ Hstop].
    + repeat constructor; vm_compute; discriminate.
    + apply (Hstop [maxInt64] 1 [5]).
      * reflexivity.
      * intros [|[|k]]; vm_compute; split; discriminate.
      * vm_compute. intros [_ Hhi]. now apply Hhi.
Defined.

(** ** Bounds *)

Lemma Unix_MaxTimestamp : Unix MaxTimestamp = 9223371974719179007.
Proof. reflexivity. Qed.

Lemma Unix_MinTimestamp : Unix MinTimestamp = -62135596800.
Proof. reflexivity. Qed.

(** [YearDiffOverflows] answers [true] exactly when the distance between the
    two years lies above [MaxTimestamp.Unix()] and still fits an [int64]; a
    distance that does overflow wraps to a negative number and is answered
    [false].  The order of the arguments does not matter. *)
Theorem YearDiffOverflows_window (startYear endYear : Z) :
  Int64.fits startYear -> Int64.fits endYear ->
  (YearDiffOverflows startYear endYear = true <->
   9223371974719179007 < Z.abs (startYear - endYear) <= maxInt64)
  /\ YearDiffOverflows startYear endYear = YearDiffOverflows endYear startYear.
Proof.
  intros Ha Hb.
  assert (Hcase : forall a b, Int64.fits a -> Int64.fits b -> b <= a ->
            ((9223371974719179007 <? Int64.sub a b) = true <->
             9223371974719179007 < a - b <= maxInt64)).
  { intros a b Ha' Hb' Hab. unfold Int64.sub, Int64.fits, minInt64, maxInt64 in *.
    rewrite Z.ltb_lt.
    destruct (Z_le_gt_dec (a - b) (2 ^ 63 - 1)) as [Hfit | Hover].
    - rewrite wrap_fits by (unfold Int64.fits, minInt64, maxInt64; lia). lia.
    - rewrite wrap_above by (unfold maxInt64; lia). lia. }
  unfold YearDiffOverflows. rewrite Unix_MaxTimestamp.
  split.
  - destruct (Z.ltb_spec endYear startYear) as [Hlt | Hge].
    + rewrite (Hcase startYear endYear Ha Hb) by lia. lia.
    + rewrite (Hcase endYear startYear Hb Ha) by lia. lia.
  - destruct (Z.ltb_spec endYear startYear) as [Hlt | Hge],
             (Z.ltb_spec startYear endYear) as [Hlt' | Hge'];
      try reflexivity; try lia.
    replace endYear with startYear by lia. reflexivity.
Qed.

(** Witness of [YearDiffOverflows_window]: the distance from -1 to the
    largest [int64] overflows and is answered [false]. *)
Lemma YearDiffOverflows_window_witness :
  YearDiffOverflows maxInt64 (-1) = YearDiffOverflows (-1) maxInt64
  /\ (YearDiffOverflows 2006 1970 = true <->
      9223371974719179007 < Z.abs (2006 - 1970) <= maxInt64).
Proof.
  split.
  - apply (YearDiffOverflows_window maxInt64 (-1));
      vm_compute; split; discriminate.
  - apply (YearDiffOverflows_window 2006 1970);
      vm_compute; split; discriminate.
Defined.

(** A year is in bounds exactly between [MinTimestamp.Unix()] and
    [MaxTimestamp.Unix()], both counts of seconds; [YearIsBeyondMin] holds of
    the years at or above the lower bound, so a year is out of bounds when
    [YearIsBeyondMax] holds of it or [YearIsBeyondMin] does not. *)
Theorem year_bounds (year : Z) :
  (YearIsOutOfBounds year = false <->
   -62135596800 <= year <= 9223371974719179007)
  /\ YearIsOutOfBounds year = YearIsBeyondMax year || negb (YearIsBeyondMin year)
  /\ (YearIsBeyondMin year = true <-> -62135596800 <= year)
  /\ (YearIsBeyondMax year = true <-> 9223371974719179007 < year).
Proof.
  unfold YearIsOutOfBounds, YearIsBeyondMax, YearIsBeyondMin.
  rewrite Unix_MaxTimestamp, Unix_MinTimestamp.
  rewrite orb_false_iff, !Z.ltb_ge, Z.leb_le, Z.ltb_lt.
  repeat split; lia.
Qed.

(** The year of a day number is within 10000 of 400 times its cycle. *)
Lemma absDate_year (days : Z) :
  let '(y, _, _) := absDate days in
  400 * (days / 146097) <= y <= 400 * (days / 146097) + 9999.
Proof.
  unfold absDate. change daysPer400Years with 146097.
  set (n := days / 146097). set (r := days - 146097 * n).
  assert (Hr : 0 <= r < 146097).
  { subst r n. pose proof (Z.div_mod days 146097 ltac:(lia)).
    pose proof (Z.mod_pos_bound days 146097 ltac:(lia)). lia. }
  pose proof (dateInCycle_shift 0 n r) as Hs.
  replace (0 + 400 * n) with (400 * n) in Hs by lia. rewrite Hs.
  pose proof (absDate_civilDays r) as Hc. unfold absDate in Hc.
  change daysPer400Years with 146097 in Hc.
  rewrite (Z.div_small r 146097 Hr) in Hc.
  replace (400 * 0) with 0 in Hc by lia.
  replace (r - 146097 * 0) with r in Hc by lia.
  destruct (dateInCycle 0 r) as [[y m] d].
  destruct Hc as (_ & _ & _ & Hy). specialize (Hy ltac:(lia)). lia.
Qed.

(** [TimeIsOutOfBounds] is the test [t.Unix() < 0]: the year of an instant
    never exceeds [MaxTimestamp.Unix()], a count of seconds, so every instant
    before 1970 is out of bounds and no instant from 1970 on is. *)
Theorem TimeIsOutOfBounds_epoch `{GoLib} (t : Time) :
  - 2 ^ 62 <= unixSec t <= 2 ^ 62 ->
  - 2 ^ 31 <= zoneOffset (loc t) (unixSec t) <= 2 ^ 31 ->
  TimeIsOutOfBounds t = (unixSec t <? 0).
Proof.
  intros Hu Ho. unfold TimeIsOutOfBounds, Date.
  rewrite Unix_MaxTimestamp. unfold Unix.
  pose proof (absDate_year (absSeconds t / secondsPerDay)) as Hy.
  destruct (absDate (absSeconds t / secondsPerDay)) as [[y m] d].
  cbn [fst].
  assert (Hyear : y <= 9223371974719179007).
  { unfold absSeconds, unixEpochDays, secondsPerDay in Hy.
    set (a := unixSec t + zoneOffset (loc t) (unixSec t) + 719162 * 86400) in *.
    assert (Ha : a <= 2 ^ 63) by (subst a; lia).
    assert (Hd : a / 86400 <= 2 ^ 47) by (apply Z.div_le_upper_bound; lia).
    assert (Hc : a / 86400 / 146097 <= 2 ^ 47)
      by (apply Z.div_le_upper_bound; lia).
    lia. }
  destruct (Z.ltb_spec 9223371974719179007 y); [lia|].
  now rewrite orb_false_r.
Qed.

(** Witness of [TimeIsOutOfBounds_epoch] at 1969-12-31T23:59:59Z. *)
Lemma TimeIsOutOfBounds_epoch_witness :
  @TimeIsOutOfBounds sampleLib (mkTime (-1) 0 UTC) = true.
Proof.
  apply (@TimeIsOutOfBounds_epoch sampleLib (mkTime (-1) 0 UTC));
    vm_compute; split; discriminate.
Defined.

(** [StartTimeIsBeforeEndTime] compares whole seconds: for instants within
    2^62 seconds of the epoch it holds exactly when the start's second lies
    before the end's; the nanoseconds play no part, so of two instants within
    one second neither is before the other. *)
Theorem StartTimeIsBeforeEndTime_seconds (t1 t2 : Time) :
  - 2 ^ 62 <= unixSec t1 < 2 ^ 62 -> - 2 ^ 62 <= unixSec t2 < 2 ^ 62 ->
  (StartTimeIsBeforeEndTime t1 t2 = true <-> unixSec t1 < unixSec t2)
  /\ (unixSec t1 = unixSec t2 -> StartTimeIsBeforeEndTime t1 t2 = false)
  /\ (StartTimeIsBeforeEndTime t1 t2 = true ->
      StartTimeIsBeforeEndTime t2 t1 = false).
Proof.
  intros H1 H2.
  assert (Hcase : forall a b, - 2 ^ 62 <= a < 2 ^ 62 -> - 2 ^ 62 <= b < 2 ^ 62 ->
            (0 <? Int64.sub b a) = (a <? b)).
  { intros a b Ha Hb. unfold Int64.sub.
    rewrite wrap_fits by (unfold Int64.fits, minInt64, maxInt64; lia).
    destruct (Z.ltb_spec 0 (b - a)), (Z.ltb_spec a b); (reflexivity || lia). }
  unfold StartTimeIsBeforeEndTime, Unix.
  rewrite !Hcase by assumption. rewrite Z.ltb_lt, !Z.ltb_ge. lia.
Qed.

(** Witness of [StartTimeIsBeforeEndTime_seconds]: half a second apart
    within one second. *)
Lemma StartTimeIsBeforeEndTime_seconds_witness :
  StartTimeIsBeforeEndTime (mkTime 1136214245 0 UTC)
    (mkTime 1136214245 500000000 UTC) = false.
Proof.
  destruct (StartTimeIsBeforeEndTime_seconds (mkTime 1136214245 0 UTC)
              (mkTime 1136214245 500000000 UTC)) as (_ & Hsame & _);
    [cbn [unixSec]; lia | cbn [unixSec]; lia | apply Hsame; reflexivity].
Defined.

(** ** Two-digit offsets *)

Lemma EncodeRune_ascii (r : Z) : 0 <= r <= 127 -> utf8_EncodeRune r = [r].
Proof.
  intros Hr. unfold utf8_EncodeRune, between.
  destruct (Z.leb_spec 0 r), (Z.leb_spec r 127); simpl; (reflexivity || lia).
Qed.

Lemma RunesToString_ascii (rs : list Z) :
  forallb isAscii rs = true -> RunesToString rs = rs.
Proof.
  unfold RunesToString. induction rs as [|r rs IH]; intros Hrs; [reflexivity|].
  simpl in Hrs. apply andb_true_iff in Hrs as [Hr Hrs].
  unfold isAscii in Hr. apply andb_true_iff in Hr as [Hlo Hhi].
  apply Z.leb_le in Hlo. apply Z.ltb_lt in Hhi.
  cbn [flat_map]. rewrite EncodeRune_ascii by lia. rewrite IH by exact Hrs.
  reflexivity.
Qed.

Lemma dig2_bounds (n : Z) :
  0 <= n < 100 -> 0 <= n / 10 <= 9 /\ 0 <= n mod 10 <= 9.
Proof.
  intros Hn. pose proof (Z.mod_pos_bound n 10 ltac:(lia)).
  pose proof (Z.div_mod n 10 ltac:(lia)). lia.
Qed.

Lemma dig2_ascii (n : Z) : 0 <= n < 100 -> forallb isAscii (dig2 n) = true.
Proof.
  intros Hn. apply digits_isAscii. now apply dig2_digits.
Qed.

Lemma digitVal_digit (b : Z) :
  0 <= b < 256 ->
  tooBig (digitVal b) = negb (isAsciiDigit b)
  /\ (isAsciiDigit b = true -> digitVal b = b - 48).
Proof.
  intros Hb. unfold tooBig, digitVal, isAsciiDigit, between.
  destruct (Z_lt_le_dec b 48) as [Hlo | Hlo].
  - replace (b - 48) with (b + 208 + (-1) * 256) by lia.
    rewrite Z.mod_add by lia. rewrite Z.mod_small by lia.
    destruct (Z.ltb_spec (b + 208) 0), (Z.ltb_spec 9 (b + 208)),
             (Z.leb_spec 48 b), (Z.leb_spec b 57); simpl;
      split; try reflexivity; try lia; discriminate.
  - rewrite Z.mod_small by lia.
    destruct (Z.ltb_spec (b - 48) 0), (Z.ltb_spec 9 (b - 48)),
             (Z.leb_spec 48 b), (Z.leb_spec b 57); simpl;
      split; try reflexivity; try lia; discriminate.
Qed.

(** [atoi2] on two bytes and whatever follows them. *)
Lemma atoi2_pair (a b : Z) (rest : list Z) :
  0 <= a < 256 -> 0 <= b < 256 ->
  atoi2 (a :: b :: rest)
  = (if isAsciiDigit a && isAsciiDigit b
     then Ok ((a - 48) * 10 + (b - 48)) else Err CannotParseNumber).
Proof.
  intros Ha Hb.
  destruct (digitVal_digit a Ha) as [Ta Va], (digitVal_digit b Hb) as [Tb Vb].
  unfold atoi2. rewrite Ta, Tb.
  destruct (isAsciiDigit a); [|reflexivity].
  destruct (isAsciiDigit b); [|reflexivity].
  simpl. now rewrite Va, Vb.
Qed.

(** [atoi2] and [atoi4] on the bytes of a string: too short a string panics;
    otherwise the first two (four) bytes decide, whatever follows them: the
    decimal value if they are all ASCII digits, the error "couldn't parse
    number" if not.  The byte-wide subtraction wraps bytes below '0' to
    values above 9, so they are rejected too. *)
Theorem atoi_digits (a b c d : Z) (rest : list Z) :
  0 <= a < 256 -> 0 <= b < 256 -> 0 <= c < 256 -> 0 <= d < 256 ->
  atoi2 (a :: b :: rest)
  = (if isAsciiDigit a && isAsciiDigit b
     then Ok ((a - 48) * 10 + (b - 48)) else Err CannotParseNumber)
  /\ atoi4 (a :: b :: c :: d :: rest)
     = (if isAsciiDigit a && isAsciiDigit b && isAsciiDigit c && isAsciiDigit d
        then Ok ((a - 48) * 1000 + (b - 48) * 100 + (c - 48) * 10 + (d - 48))
        else Err CannotParseNumber)
  /\ atoi2 [] = Panic /\ atoi2 [a] = Panic
  /\ atoi4 [] = Panic /\ atoi4 [a] = Panic /\ atoi4 [a; b] = Panic
  /\ atoi4 [a; b; c] = Panic.
Proof.
  intros Ha Hb Hc Hd.
  destruct (digitVal_digit a Ha) as [Ta Va], (digitVal_digit b Hb) as [Tb Vb],
           (digitVal_digit c Hc) as [Tc Vc], (digitVal_digit d Hd) as [Td Vd].
  split; [|split; [|repeat split]].
  - now apply atoi2_pair.
  - unfold atoi4. rewrite Ta, Tb, Tc, Td.
    destruct (isAsciiDigit a); [|reflexivity].
    destruct (isAsciiDigit b); [|reflexivity].
    destruct (isAsciiDigit c); [|reflexivity].
    destruct (isAsciiDigit d); [|reflexivity].
    simpl. now rewrite Va, Vb, Vc, Vd.
Qed.

(** Witness of [atoi_digits]: "07" and "2006" decode. *)
Lemma atoi_digits_witness :
  atoi2 (bytes "07") = Ok 7 /\ atoi4 (bytes "2006") = Ok 2006.
Proof.
  split.
  - apply (atoi_digits 48 55 50 48 []); lia.
  - apply (atoi_digits 50 48 48 54 []); lia.
Defined.

(** The text [TwoDigitOffset] builds for a number it accepts. *)
Lemma TwoDigitOffset_inside (i : Z) :
  -99 <= i <= 99 ->
  TwoDigitOffset i false = Some (ofBytes (dig2 (Z.abs i)))
  /\ TwoDigitOffset i true
     = Some (ofBytes ((if i <? 0 then 0x2D else 0x2B) :: dig2 (Z.abs i))).
Proof.
  intros Hi. unfold TwoDigitOffset.
  assert (Hin : (99 <? i) || (i <? -99) = false).
  { destruct (Z.ltb_spec 99 i), (Z.ltb_spec i (-99)); simpl;
      (reflexivity || lia). }
  rewrite Hin.
  assert (Ha : 0 <= Z.abs i < 100) by lia.
  destruct (dig2_bounds _ Ha) as [Hq Hr].
  assert (Hdig : forall j, j = Z.abs i ->
            [48 + Z.quot j 10; 48 + Z.rem j 10] = dig2 (Z.abs i)).
  { intros j ->. unfold dig2.
    rewrite Z.quot_div_nonneg, Z.rem_mod_nonneg by lia. reflexivity. }
  pose proof (dig2_ascii _ Ha) as Hasc.
  destruct (Z.ltb_spec i 0) as [Hneg | Hpos]; cbv beta iota zeta.
  + rewrite (Hdig (- i)) by lia.
    rewrite !RunesToString_ascii; [split; reflexivity | | exact Hasc].
    cbn [forallb]. now rewrite Hasc.
  + rewrite (Hdig i) by lia.
    rewrite !RunesToString_ascii; [split; reflexivity | | exact Hasc].
    cbn [forallb]. now rewrite Hasc.
Qed.

(** [TwoDigitOffset] fails exactly outside -99..99; inside, the text is the
    two decimal digits of the absolute value, preceded, when a prefix is
    asked for, by '-' for a negative number and by '+' otherwise (zero
    included). *)
Theorem TwoDigitOffset_text (i : Z) :
  (forall addPrefix,
     TwoDigitOffset i addPrefix = None <-> i < -99 \/ 99 < i)
  /\ (-99 <= i <= 99 ->
      TwoDigitOffset i false = Some (ofBytes (dig2 (Z.abs i)))
      /\ TwoDigitOffset i true
         = Some (ofBytes ((if i <? 0 then 0x2D else 0x2B) :: dig2 (Z.abs i)))).
Proof.
  split.
  - intros p. unfold TwoDigitOffset.
    destruct (Z.ltb_spec 99 i), (Z.ltb_spec i (-99)); simpl;
      try (split; [lia | reflexivity]).
    destruct (i <? 0), p; split; (discriminate || lia).
  - apply TwoDigitOffset_inside.
Qed.

(** Witness of [TwoDigitOffset_text] at -7. *)
Lemma TwoDigitOffset_text_witness :
  TwoDigitOffset (-7) true = Some "-07"%string.
Proof.
  destruct (TwoDigitOffset_text (-7)) as [_ Hin].
  destruct Hin as [_ Hp]; [lia | exact Hp].
Defined.

(** Decoding what [TwoDigitOffset] prints: [atoi2] on the unprefixed text
    gives back the absolute value, and [strconv.Atoi] on the prefixed text
    the number itself. *)
Theorem TwoDigitOffset_decoded (i : Z) :
  -99 <= i <= 99 ->
  (exists s, TwoDigitOffset i false = Some s /\ atoi2 (bytes s) = Ok (Z.abs i))
  /\ (exists s, TwoDigitOffset i true = Some s
                /\ strconv_Atoi (bytes s) = Ok i).
Proof.
  intros Hi. destruct (TwoDigitOffset_inside i Hi) as [Hplain Hsigned].
  assert (Ha : 0 <= Z.abs i < 100) by lia.
  destruct (dig2_bounds _ Ha) as [Hq Hr].
  pose proof (Z.div_mod (Z.abs i) 10 ltac:(lia)) as Hdm.
  split.
  - eexists. split; [exact Hplain|].
    rewrite bytes_ofBytes by now apply dig2_ascii.
    unfold dig2.
    rewrite atoi2_pair by lia. unfold isAsciiDigit, between.
    destruct (Z.leb_spec 48 (48 + Z.abs i / 10)),
             (Z.leb_spec (48 + Z.abs i / 10) 57),
             (Z.leb_spec 48 (48 + Z.abs i mod 10)),
             (Z.leb_spec (48 + Z.abs i mod 10) 57); simpl; try lia.
    f_equal. lia.
  - eexists. split; [exact Hsigned|].
    assert (Hd : forallb isAsciiDigit (dig2 (Z.abs i)) = true)
      by now apply dig2_digits.
    assert (Hv : decimal (dig2 (Z.abs i)) = Z.abs i).
    { unfold decimal, dig2. simpl. lia. }
    rewrite bytes_ofBytes.
    + unfold strconv_Atoi, strconv_ParseInt.
      destruct (Z.ltb_spec i 0) as [Hneg | Hpos].
      * change (45 =? 45) with true. cbv iota beta.
        unfold dig2 at 1. rewrite Hd, Hv.
        unfold minInt64, maxInt64.
        destruct (Z.leb_spec (- 2 ^ 63) (- Z.abs i)),
                 (Z.leb_spec (- Z.abs i) (2 ^ 63 - 1)); simpl; try lia.
        f_equal. lia.
      * change (43 =? 45) with false. change (43 =? 43) with true.
        cbv iota beta. unfold dig2 at 1. rewrite Hd, Hv.
        unfold minInt64, maxInt64.
        destruct (Z.leb_spec (- 2 ^ 63) (Z.abs i)),
                 (Z.leb_spec (Z.abs i) (2 ^ 63 - 1)); simpl; try lia.
        f_equal. lia.
    + cbn [forallb]. rewrite dig2_ascii by exact Ha.
      now destruct (i <? 0).
Qed.

(** Witness of [TwoDigitOffset_decoded] at 45. *)
Lemma TwoDigitOffset_decoded_witness :
  exists s, TwoDigitOffset 45 false = Some s /\ atoi2 (bytes s) = Ok (Z.abs 45).
Proof.
  apply (TwoDigitOffset_decoded 45). lia.
Defined.

(** ** Zones from hours and minutes *)

(** [ZoneFromHM] on a sound cache returns the fixed zone whose offset is
    [offsetH] hours plus the absolute value of [offsetM] minutes: the sign of
    the minutes is dropped, and under negative hours the minutes pull the
    offset back toward zero (-5 hours and 30 minutes is -04:30).
    [OffsetForTime] of an instant in that zone is this offset in
    nanoseconds. *)
Theorem ZoneFromHM_offset `{GoLib} (offsetH offsetM : Z) (c : zones) :
  - 2 ^ 20 <= offsetH <= 2 ^ 20 -> - 2 ^ 20 <= offsetM <= 2 ^ 20 ->
  cacheSound c ->
  let offsetSec := offsetH * 3600 + Z.abs offsetM * 60 in
  fst (ZoneFromHM offsetH offsetM c) = FixedZone "FixedZone" offsetSec
  /\ cacheSound (snd (ZoneFromHM offsetH offsetM c))
  /\ ZoneFromHM offsetH (- offsetM) c = ZoneFromHM offsetH offsetM c
  /\ (forall sec ns,
        OffsetForTime (mkTime sec ns (fst (ZoneFromHM offsetH offsetM c)))
        = offsetSec * 1000000000).
Proof.
  intros Hh Hm Hc offsetSec.
  assert (Hz : forall m, ZoneFromHM offsetH m c
                         = LocationFromOffset (offsetH * 3600 + Z.abs m * 60) c).
  { intros m. unfold ZoneFromHM. f_equal.
    destruct (Z.ltb_spec m 0); lia. }
  rewrite !Hz. rewrite Z.abs_opp.
  destruct (LocationFromOffset_sound offsetSec c Hc) as [Hl Hs].
  fold offsetSec. rewrite Hl. repeat split; try assumption.
  intros sec ns. unfold OffsetForTime, zoneOffset, Int64.mul. cbn.
  apply wrap_fits. unfold Int64.fits, minInt64, maxInt64. subst offsetSec. lia.
Qed.

(** Witness of [ZoneFromHM_offset]: -5 hours and 30 minutes. *)
Lemma ZoneFromHM_offset_witness :
  fst (ZoneFromHM (-5) 30 ∅) = FixedZone "FixedZone" (-16200).
Proof.
  destruct (@ZoneFromHM_offset sampleLib (-5) 30 ∅) as [Hz _];
    [lia | lia | apply cacheSound_empty | exact Hz].
Defined.

(** ** Days *)

Section DayFacts.
Context `{GoLib}.

Lemma zoneOffset_fixedAt (l : Location) (off x : Z) :
  fixedAt l off -> zoneOffset l x = off.
Proof. intros Hl. unfold zoneOffset. now rewrite Hl. Qed.

(** [time.Date] in a zone of constant offset, on a month and a clock reading
    that are in range; the day of the month is free. *)
Lemma time_Date_fixed (y m d h mi s ns off : Z) (l : Location) :
  1 <= m <= 12 -> 0 <= h < 24 -> 0 <= mi < 60 -> 0 <= s < 60 ->
  0 <= ns < 1000000000 -> fixedAt l off ->
  time_Date y m d h mi s ns l
  = mkTime (civilDays y m d * 86400 + (h * 3600 + mi * 60 + s)
            - unixEpochDays * 86400 - off) ns l.
Proof.
  intros Hm Hh Hmi Hs Hns Hl.
  pose proof (zoneOffset_fixedAt l off) as Hzo.
  unfold time_Date, wallSeconds.
  rewrite (Norm_id y (m - 1) 12) by lia.
  rewrite (Norm_id s ns 1000000000) by lia.
  rewrite (Norm_id mi s 60) by lia.
  rewrite (Norm_id h mi 60) by lia.
  rewrite (Norm_id d h 24) by lia.
  replace (m - 1 + 1) with m by ring. rewrite Hl. unfold secondsPerDay.
  rewrite Hzo by exact Hl.
  destruct (Z.eqb_spec off 0) as [E | E].
  - f_equal. lia.
  - match goal with |- context [if ?b then _ else _] => destruct b end;
      f_equal; lia.
Qed.

Lemma civilDays_next (y m d k : Z) : civilDays y m (d + k) = civilDays y m d + k.
Proof.
  unfold civilDays. destruct (isLeap y && (3 <=? m)); lia.
Qed.

(** The instant at which local day [day] begins in a zone of offset [off]
    is [midnight day off l]; it is its own date-only part. *)
Lemma midnight_day (day off : Z) (l : Location) :
  fixedAt l off ->
  absSeconds (midnight day off l) = day * 86400.
Proof.
  intros Hl. unfold absSeconds, midnight. cbn [unixSec loc].
  rewrite (zoneOffset_fixedAt l off) by exact Hl.
  unfold secondsPerDay. lia.
Qed.

Lemma TimeDateOnly_fixed (t : Time) (off : Z) :
  fixedAt (loc t) off ->
  TimeDateOnly t = midnight (absSeconds t / secondsPerDay) off (loc t).
Proof.
  intros Hl. unfold TimeDateOnly, Date.
  pose proof (absDate_civilDays (absSeconds t / secondsPerDay)) as Hc.
  destruct (absDate (absSeconds t / secondsPerDay)) as [[y m] d].
  destruct Hc as (Hm & Hd & Hcd & _).
  rewrite (time_Date_fixed y m d 0 0 0 0 off (loc t)) by (assumption || lia).
  rewrite Hcd. unfold midnight, secondsPerDay. f_equal. lia.
Qed.

Lemma Date_midnight (day off : Z) (l : Location) :
  fixedAt l off ->
  Date (midnight day off l) = absDate day
  /\ Clock (midnight day off l) = (0, 0, 0).
Proof.
  intros Hl. unfold Date, Clock. rewrite (midnight_day day off l Hl).
  unfold secondsPerDay. rewrite Z.div_mul, Z.mod_mul by lia. split; reflexivity.
Qed.

(** [AddDate(0, 0, k)] from a midnight leads to the midnight [k] days on. *)
Lemma AddDate_midnight (day off k : Z) (l : Location) :
  fixedAt l off ->
  AddDate (midnight day off l) 0 0 k = midnight (day + k) off l.
Proof.
  intros Hl. unfold AddDate.
  destruct (Date_midnight day off l Hl) as [Hd Hc]. rewrite Hd, Hc.
  pose proof (absDate_civilDays day) as Hcd.
  destruct (absDate day) as [[y m] d]. destruct Hcd as (Hm & _ & Hcd & _).
  rewrite !Z.add_0_r.
  change (nsec (midnight day off l)) with 0.
  change (loc (midnight day off l)) with l.
  rewrite (time_Date_fixed y m (d + k) 0 0 0 0 off l) by (assumption || lia).
  rewrite civilDays_next, Hcd. unfold midnight, secondsPerDay. f_equal. lia.
Qed.

Lemma After_midnight (d e off : Z) (l l' : Location) :
  After (midnight d off l) (midnight e off l') = (e <? d).
Proof.
  unfold After, midnight, secondsPerDay. cbn [unixSec nsec].
  rewrite Z.ltb_irrefl, andb_false_r, orb_false_r.
  destruct (Z.ltb_spec ((e - unixEpochDays) * 86400 - off)
              ((d - unixEpochDays) * 86400 - off)), (Z.ltb_spec e d);
    (reflexivity || lia).
Qed.

(** The closure, started at two midnights of one offset. *)
Lemma calls_midnights (n : nat) (d e off : Z) (l l' : Location) :
  fixedAt l off ->
  calls n (Running (midnight d off l) (midnight e off l'))
  = map (fun k => if d + Z.of_nat k <=? e
                  then Some (midnight (d + Z.of_nat k) off l)
                  else Some zeroTime) (seq 0 n).
Proof.
  intros Hl. revert d. induction n as [|n IH]; intros d; [reflexivity|].
  cbn [calls call seq map]. rewrite After_midnight.
  destruct (Z.ltb_spec e d) as [Hpast | Hin].
  - destruct (Z.leb_spec (d + Z.of_nat 0) e); [lia|]. f_equal.
    rewrite <- seq_shift, map_map.
    transitivity (map (fun _ : nat => Some zeroTime) (seq 0 n)).
    + clear IH. generalize 0%nat at 1.
      induction n as [|n IHn]; intros s; [reflexivity|].
      cbn [calls call seq map]. rewrite After_midnight.
      destruct (Z.ltb_spec e d); [|lia]. f_equal. apply IHn.
    + apply map_ext. intros k.
      destruct (Z.leb_spec (d + Z.of_nat (S k)) e); [lia | reflexivity].
  - destruct (Z.leb_spec (d + Z.of_nat 0) e); [|lia].
    rewrite Z.add_0_r. f_equal.
    rewrite (AddDate_midnight d off 1 l Hl), IH.
    rewrite <- seq_shift, map_map. apply map_ext. intros k.
    replace (d + 1 + Z.of_nat k) with (d + Z.of_nat (S k)) by lia.
    reflexivity.
Qed.

End DayFacts.

(** [TimeDateOnly] in a zone of constant offset: the instant at which the
    local day of [t] began, that is [t] less the seconds and nanoseconds
    elapsed since local midnight; it has the date of [t], reads 00:00:00,
    keeps the location, and is its own date-only part. *)
Theorem TimeDateOnly_midnight `{GoLib} (t : Time) (off : Z) :
  fixedAt (loc t) off ->
  let d := TimeDateOnly t in
  unixSec d = unixSec t - absSeconds t mod secondsPerDay
  /\ nsec d = 0 /\ loc d = loc t
  /\ Date d = Date t /\ Clock d = (0, 0, 0)
  /\ TimeDateOnly d = d.
Proof.
  intros Hl d. subst d. rewrite (TimeDateOnly_fixed t off Hl).
  set (day := absSeconds t / secondsPerDay).
  destruct (Date_midnight day off (loc t) Hl) as [Hd Hc].
  split; [|split; [reflexivity | split; [reflexivity | split; [|split]]]].
  - unfold midnight. cbn [unixSec]. subst day.
    assert (Ha : absSeconds t = unixSec t + off + unixEpochDays * secondsPerDay).
    { unfold absSeconds. now rewrite (zoneOffset_fixedAt (loc t) off) by exact Hl. }
    pose proof (Z.div_mod (absSeconds t) secondsPerDay
                  ltac:(unfold secondsPerDay; lia)) as Hdm.
    set (a := absSeconds t) in *. unfold secondsPerDay in *. lia.
  - rewrite Hd. reflexivity.
  - exact Hc.
  - rewrite (TimeDateOnly_fixed (midnight day off (loc t)) off) by exact Hl.
    rewrite (midnight_day day off (loc t) Hl).
    unfold secondsPerDay. now rewrite Z.div_mul by lia.
Qed.

(** Witness of [TimeDateOnly_midnight] at 2006-01-02T15:04:05-07:00. *)
Lemma TimeDateOnly_midnight_witness :
  unixSec (@TimeDateOnly sampleLib
             (mkTime 1136239445 0 (FixedZone "FixedZone" (-25200))))
  = 1136239445 - 54245.
Proof.
  apply (@TimeDateOnly_midnight sampleLib
           (mkTime 1136239445 0 (FixedZone "FixedZone" (-25200))) (-25200)).
  apply fixedAt_FixedZone.
Defined.

(** [RangeOverTimes] on two instants in zones of one constant offset: the
    successive calls of the closure return the local midnight of the start's
    day, then of each following day up to and including the end's day, and
    the zero time from then on (from the first call on when the end's day
    precedes the start's); no call fails. *)
Theorem RangeOverTimes_days `{GoLib} (start stop : Time) (off : Z) (n : nat) :
  fixedAt (loc start) off -> fixedAt (loc stop) off ->
  let first := absSeconds start / secondsPerDay in
  let last := absSeconds stop / secondsPerDay in
  calls n (RangeOverTimes start stop)
  = map (fun k => if first + Z.of_nat k <=? last
                  then Some (midnight (first + Z.of_nat k) off (loc start))
                  else Some zeroTime) (seq 0 n).
Proof.
  intros Hs He first last. unfold RangeOverTimes.
  rewrite (zoneOffset_fixedAt _ off _ Hs), (zoneOffset_fixedAt _ off _ He).
  rewrite Z.eqb_refl. cbn [negb].
  rewrite (TimeDateOnly_fixed start off Hs), (TimeDateOnly_fixed stop off He).
  now apply calls_midnights.
Qed.

(** Witness of [RangeOverTimes_days]: from 2006-01-30T15:04:05Z to
    2006-02-01T01:00:00Z the closure returns three days, then the zero
    time. *)
Lemma RangeOverTimes_days_witness :
  @calls sampleLib 5
    (@RangeOverTimes sampleLib (mkTime 1138633445 0 UTC)
       (mkTime 1138755600 0 UTC))
  = [Some (mkTime 1138579200 0 UTC); Some (mkTime 1138665600 0 UTC);
     Some (mkTime 1138752000 0 UTC); Some zeroTime; Some zeroTime].
Proof.
  rewrite (@RangeOverTimes_days sampleLib (mkTime 1138633445 0 UTC)
             (mkTime 1138755600 0 UTC) 0 5);
    [reflexivity | apply fixedAt_UTC | apply fixedAt_UTC].
Defined.

(** When the offsets of the two instants differ, every call of the closure
    [RangeOverTimes] returns fails. *)
Theorem RangeOverTimes_zones `{GoLib} (start stop : Time) (n : nat) :
  zoneOffset (loc start) (unixSec start) <> zoneOffset (loc stop) (unixSec stop) ->
  calls n (RangeOverTimes start stop) = repeat None n.
Proof.
  intros Hne. unfold RangeOverTimes.
  destruct (Z.eqb_spec (zoneOffset (loc start) (unixSec start))
              (zoneOffset (loc stop) (unixSec stop))) as [E | _]; [contradiction|].
  cbn [negb]. induction n as [|n IH]; [reflexivity|].
  cbn [calls call repeat]. now rewrite IH.
Qed.

(** Witness of [RangeOverTimes_zones]: UTC against -07:00. *)
Lemma RangeOverTimes_zones_witness :
  @calls sampleLib 2
    (@RangeOverTimes sampleLib (mkTime 1136214245 0 UTC)
       (mkTime 1136239445 0 (FixedZone "FixedZone" (-25200))))
  = [None; None].
Proof.
  apply (@RangeOverTimes_zones sampleLib (mkTime 1136214245 0 UTC)
           (mkTime 1136239445 0 (FixedZone "FixedZone" (-25200))) 2).
  vm_compute. discriminate.
Defined.

(** ** [pkg/utility] and [intPow] *)

Lemma fits_small (x : Z) : - 2 ^ 63 <= x < 2 ^ 63 -> Int64.fits x.
Proof. unfold Int64.fits, minInt64, maxInt64. lia. Qed.

Lemma pow10_step (c : Z) : 1 <= c -> 10 ^ c = 10 * 10 ^ (c - 1).
Proof.
  intros Hc. replace c with (Z.succ (c - 1)) at 1 by lia.
  apply Z.pow_succ_r. lia.
Qed.

(** The loop of [DigitCount]: with fuel for every decimal digit of
    [number] it ends, having added the number of those digits to [count]. *)
Lemma digitCountLoop_spec (fuel : nat) (number count : Z) :
  Int64.fits number -> Z.abs number < 10 ^ Z.of_nat fuel ->
  0 <= count -> count + Z.of_nat fuel < 2 ^ 62 ->
  exists c, digitCountLoop fuel number count = Some (count + c)
    /\ 0 <= c <= Z.of_nat fuel
    /\ (number = 0 -> c = 0)
    /\ (number <> 0 -> 10 ^ (c - 1) <= Z.abs number < 10 ^ c).
Proof.
  revert number count.
  induction fuel as [|fuel IH]; intros number count Hfit Hn Hc Hcf.
  - change (10 ^ Z.of_nat 0) with 1 in Hn.
    assert (number = 0) as -> by lia. exists 0. simpl.
    rewrite Z.add_0_r. repeat split; (lia || reflexivity || congruence).
  - destruct (Z.eqb_spec number 0) as [-> | Hne].
    + exists 0. simpl. rewrite Z.add_0_r.
      repeat split; (lia || reflexivity || congruence).
    + cbn [digitCountLoop]. destruct (Z.eqb_spec number 0); [contradiction|].
      rewrite Nat2Z.inj_succ in Hn, Hcf |- *.
      rewrite Z.pow_succ_r in Hn by lia.
      assert (Hq : Z.abs (Z.quot number 10) = Z.abs number / 10).
      { rewrite <- Z.quot_abs by lia. change (Z.abs 10) with 10.
        rewrite Z.quot_div_nonneg; lia. }
      pose proof (Z.div_mod (Z.abs number) 10 ltac:(lia)) as Hdm.
      pose proof (Z.mod_pos_bound (Z.abs number) 10 ltac:(lia)) as Hm.
      unfold Int64.fits, minInt64, maxInt64 in Hfit.
      unfold Int64.div, Int64.add.
      rewrite (wrap_fits (Z.quot number 10)) by (apply fits_small; lia).
      rewrite (wrap_fits (count + 1)) by (apply fits_small; lia).
      destruct (IH (Z.quot number 10) (count + 1)) as (c & Hr & Hcb & H0 & H1);
        try lia.
      { apply fits_small. lia. }
      exists (c + 1). rewrite Hr. split; [f_equal; lia|].
      split; [lia|]. split; [contradiction|]. intros _.
      replace (c + 1 - 1) with c by lia.
      destruct (Z.eq_dec (Z.quot number 10) 0) as [Hz | Hnz].
      * rewrite (H0 Hz). change (10 ^ 0) with 1. change (10 ^ (0 + 1)) with 10.
        rewrite Hz in Hq. lia.
      * specialize (H1 Hnz).
        assert (Hc1 : 1 <= c).
        { destruct (Z_lt_le_dec c 1) as [Hlt | Hge]; [|exact Hge].
          assert (c = 0) as -> by lia. change (10 ^ 0) with 1 in H1. lia. }
        rewrite (pow10_step (c + 1)) by lia. replace (c + 1 - 1) with c by lia.
        rewrite (pow10_step c Hc1) in H1 |- *. lia.
Qed.

(** [DigitCount] returns, for every [int64], the number of decimal digits of
    the absolute value: the [c] with [10^(c-1) <= |number| < 10^c]; for 0
    that is 0, not 1.  The loop ends within 19 iterations. *)
Theorem DigitCount_digits (number : Z) :
  Int64.fits number ->
  exists c, DigitCount number = Some c
    /\ 0 <= c <= 19
    /\ (number = 0 -> c = 0)
    /\ (number <> 0 -> 10 ^ (c - 1) <= Z.abs number < 10 ^ c).
Proof.
  intros Hfit. unfold DigitCount.
  assert (Hn : Z.abs number < 10 ^ Z.of_nat 19).
  { unfold Int64.fits, minInt64, maxInt64 in Hfit.
    change (10 ^ Z.of_nat 19) with 10000000000000000000. lia. }
  destruct (digitCountLoop_spec 19 number 0 Hfit Hn) as (c & Hr & Hc & H0 & H1);
    try lia.
  exists c. split; [|auto].
  rewrite Z.add_0_l in Hr. rewrite <- Hr.
  (* one more unit of fuel changes nothing *)
  clear -Hfit Hn. revert Hn Hfit. generalize 0. generalize number.
  generalize 19%nat. intros fuel. induction fuel as [|fuel IH]; intros n z Hn Hfit.
  - change (10 ^ Z.of_nat 0) with 1 in Hn. assert (n = 0) as -> by lia.
    reflexivity.
  - cbn [digitCountLoop]. destruct (Z.eqb_spec n 0) as [|Hne]; [reflexivity|].
    apply IH.
    + rewrite Nat2Z.inj_succ, Z.pow_succ_r in Hn by lia.
      unfold Int64.fits, minInt64, maxInt64 in Hfit. unfold Int64.div.
      assert (Hq : Z.abs (Z.quot n 10) = Z.abs n / 10).
      { rewrite <- Z.quot_abs by lia. change (Z.abs 10) with 10.
        rewrite Z.quot_div_nonneg; lia. }
      pose proof (Z.div_mod (Z.abs n) 10 ltac:(lia)) as Hdm.
      pose proof (Z.mod_pos_bound (Z.abs n) 10 ltac:(lia)) as Hm.
      rewrite wrap_fits by (apply fits_small; lia). lia.
    + apply wrap_range.
Qed.

(** Witness of [DigitCount_digits] at -2006. *)
Lemma DigitCount_digits_witness :
  exists c, DigitCount (-2006) = Some c
    /\ 0 <= c <= 19
    /\ (-2006 = 0 -> c = 0)
    /\ (-2006 <> 0 -> 10 ^ (c - 1) <= Z.abs (-2006) < 10 ^ c).
Proof.
  apply (DigitCount_digits (-2006)). vm_compute. split; discriminate.
Defined.

(** [Norm] carries the floored quotient of [lo] by [base] into [hi] and
    leaves the non-negative remainder. *)
Lemma Norm_divmod (hi lo base : Z) :
  0 < base -> Norm hi lo base = (hi + lo / base, lo mod base).
Proof.
  intros Hbase.
  pose proof (Z.div_mod lo base ltac:(lia)) as Hdm.
  pose proof (Z.mod_pos_bound lo base ltac:(lia)) as Hm.
  unfold Norm. destruct (Z.ltb_spec lo 0) as [Hneg | Hpos].
  - rewrite Z.quot_div_nonneg by lia.
    pose proof (Z.div_mod (- lo - 1) base ltac:(lia)) as Hdm'.
    pose proof (Z.mod_pos_bound (- lo - 1) base ltac:(lia)) as Hm'.
    set (q := (- lo - 1) / base) in *.
    assert (Hq : lo / base = - (q + 1)).
    { symmetry. apply (Z.div_unique lo base (- (q + 1)) (lo + (q + 1) * base));
        lia. }
    destruct (Z.geb_spec (lo + (q + 1) * base) base); [lia|].
    f_equal; [lia|]. rewrite Z.mod_eq by lia. rewrite Hq. lia.
  - destruct (Z.geb_spec lo base) as [Hge | Hlt].
    + rewrite Z.quot_div_nonneg by lia. f_equal. rewrite Z.mod_eq by lia. lia.
    + rewrite Z.div_small, Z.mod_small by lia. f_equal. lia.
Qed.

(** [utility.Norm] keeps the contract of its comment wherever its arithmetic
    stays clear of the [int64] bounds: the result is [hi] plus the floored
    quotient and the non-negative remainder of [lo] by [base], so
    [nhi * base + nlo = hi * base + lo] and [0 <= nlo < base]; on such
    operands it is the normalisation [time.Date] applies. *)
Theorem Norm64_contract (hi lo base : Z) :
  - 2 ^ 61 <= hi <= 2 ^ 61 -> - 2 ^ 61 <= lo <= 2 ^ 61 -> 0 < base <= 2 ^ 61 ->
  Norm64 hi lo base = (hi + lo / base, lo mod base)
  /\ Norm64 hi lo base = Norm hi lo base
  /\ fst (Norm64 hi lo base) * base + snd (Norm64 hi lo base) = hi * base + lo
  /\ 0 <= snd (Norm64 hi lo base) < base.
Proof.
  intros Hhi Hlo Hbase.
  pose proof (Z.div_mod lo base ltac:(lia)) as Hdm.
  pose proof (Z.mod_pos_bound lo base ltac:(lia)) as Hm.
  pose proof (Norm_divmod hi lo base ltac:(lia)) as Hn.
  assert (H64 : Norm64 hi lo base = Norm hi lo base).
  { unfold Norm64, Norm, Int64.add, Int64.sub, Int64.mul, Int64.div, Int64.neg.
    destruct (Z.ltb_spec lo 0) as [Hneg | Hpos].
    - rewrite (wrap_fits (- lo)) by (apply fits_small; lia).
      rewrite (wrap_fits (- lo - 1)) by (apply fits_small; lia).
      rewrite Z.quot_div_nonneg by lia.
      pose proof (Z.div_mod (- lo - 1) base ltac:(lia)) as Hdm'.
      pose proof (Z.mod_pos_bound (- lo - 1) base ltac:(lia)) as Hm'.
      assert (Hq0 : 0 <= (- lo - 1) / base) by (apply Z.div_pos; lia).
      assert (Hq1 : (- lo - 1) / base <= - lo - 1)
        by (apply Z.div_le_upper_bound; nia).
      set (q := (- lo - 1) / base) in *.
      rewrite (wrap_fits q) by (apply fits_small; lia).
      rewrite (wrap_fits (q + 1)) by (apply fits_small; lia).
      rewrite (wrap_fits (hi - (q + 1))) by (apply fits_small; lia).
      rewrite (wrap_fits ((q + 1) * base)) by (apply fits_small; nia).
      rewrite (wrap_fits (lo + (q + 1) * base)) by (apply fits_small; nia).
      destruct (Z.geb_spec (lo + (q + 1) * base) base); [lia | reflexivity].
    - destruct (Z.geb_spec lo base) as [Hge | Hlt]; [|reflexivity].
      rewrite Z.quot_div_nonneg by lia.
      assert (Hq0 : 0 <= lo / base) by (apply Z.div_pos; lia).
      assert (Hq1 : lo / base <= lo) by (apply Z.div_le_upper_bound; nia).
      rewrite (wrap_fits (lo / base)) by (apply fits_small; lia).
      rewrite (wrap_fits (hi + lo / base)) by (apply fits_small; lia).
      rewrite (wrap_fits (lo / base * base)) by (apply fits_small; nia).
      rewrite (wrap_fits (lo - lo / base * base)) by (apply fits_small; nia).
      reflexivity. }
  rewrite H64, Hn. cbn [fst snd]. repeat split; lia.
Qed.

(** Witness of [Norm64_contract]: month 13 of a year is month 1 of the
    next, and second -1 of a minute second 59 of the one before. *)
Lemma Norm64_contract_witness :
  Norm64 2006 12 12 = (2007, 0) /\ Norm64 4 (-1) 60 = (3, 59).
Proof.
  split.
  - destruct (Norm64_contract 2006 12 12) as [Hn _]; [lia | lia | lia |].
    exact Hn.
  - destruct (Norm64_contract 4 (-1) 60) as [Hn _]; [lia | lia | lia |].
    exact Hn.
Defined.

Lemma wrap_mul_l (a b : Z) : Int64.wrap (Int64.wrap a * b) = Int64.wrap (a * b).
Proof.
  unfold Int64.wrap at 2. rewrite (Z.mod_eq (a + 2 ^ 63) (2 ^ 64)) by lia.
  set (k := (a + 2 ^ 63) / 2 ^ 64).
  replace ((a + 2 ^ 63 - 2 ^ 64 * k - 2 ^ 63) * b) with (a * b + (- k * b) * 2 ^ 64)
    by ring.
  unfold Int64.wrap.
  replace (a * b + - k * b * 2 ^ 64 + 2 ^ 63)
    with (a * b + 2 ^ 63 + (- k * b) * 2 ^ 64) by ring.
  now rewrite Z.mod_add by lia.
Qed.

Lemma intPow_iter (n : Z) (k : nat) :
  Nat.iter k (fun result => Int64.mul result n) (Int64.wrap n)
  = Int64.wrap (n ^ Z.of_nat (S k)).
Proof.
  induction k as [|k IH].
  - change (Nat.iter 0 ?f ?x) with x. now rewrite Z.pow_1_r.
  - change (Nat.iter (S k) ?f ?x) with (f (Nat.iter k f x)).
    rewrite IH. unfold Int64.mul. rewrite wrap_mul_l.
    f_equal. rewrite (Nat2Z.inj_succ (S k)), Z.pow_succ_r by lia. ring.
Qed.

(** [intPow] is the power reduced to the [int] range: 1 for exponent 0, and
    for an exponent [m >= 1] the product of [m] factors [n] with
    wrap-around, which is [n ^ m] itself whenever that fits; for a negative
    exponent the loop is not entered and the result is [n].  (For the
    largest [int] as exponent the loop counter wraps and the Go loop does not
    end; the exponent is taken below it.) *)
Theorem intPow_power (n m : Z) :
  Int64.fits n -> m < maxInt64 ->
  (m = 0 -> intPow n m = 1)
  /\ (1 <= m -> intPow n m = Int64.wrap (n ^ m))
  /\ (1 <= m -> Int64.fits (n ^ m) -> intPow n m = n ^ m)
  /\ (m < 0 -> intPow n m = n).
Proof.
  intros Hn Hm.
  assert (Hpos : 1 <= m -> intPow n m = Int64.wrap (n ^ m)).
  { intros H1. unfold intPow. destruct (Z.eqb_spec m 0); [lia|].
    pose proof (intPow_iter n (Z.to_nat (m - 1))) as Hi.
    rewrite (wrap_fits n Hn) in Hi. rewrite Hi. f_equal. f_equal. lia. }
  split; [intros ->; reflexivity|]. split; [exact Hpos|]. split.
  - intros H1 Hfit. rewrite (Hpos H1). now apply wrap_fits.
  - intros Hneg. unfold intPow. destruct (Z.eqb_spec m 0); [lia|].
    replace (Z.to_nat (m - 1)) with 0%nat by lia. reflexivity.
Qed.

(** Witness of [intPow_power]: 10 to the 9th, and 2 to the 64th, which
    wraps to 0. *)
Lemma intPow_power_witness :
  intPow 10 9 = 1000000000 /\ intPow 2 64 = 0.
Proof.
  split.
  - destruct (intPow_power 10 9) as (_ & _ & Hfit & _);
      [vm_compute; split; discriminate | reflexivity |].
    apply Hfit; [lia | vm_compute; split; discriminate].
  - destruct (intPow_power 2 64) as (_ & Hw & _);
      [vm_compute; split; discriminate | reflexivity |].
    now rewrite Hw by lia.
Defined.

(** ** Unix timestamps *)

Lemma decimal_snoc (ds : list Z) (b : Z) :
  decimal (ds ++ [b]) = decimal ds * 10 + (b - 48).
Proof. unfold decimal. now rewrite fold_left_app. Qed.

Lemma decimal_bound (ds : list Z) :
  forallb isAsciiDigit ds = true -> 0 <= decimal ds < 10 ^ lenZ ds.
Proof.
  induction ds as [|x ds IH] using rev_ind; intros Hd.
  - change (decimal []) with 0. change (10 ^ lenZ (@nil Z)) with 1. lia.
  - rewrite forallb_app in Hd. apply andb_true_iff in Hd as [Hds Hx].
    cbn [forallb] in Hx. rewrite andb_true_r in Hx.
    unfold isAsciiDigit, between in Hx. apply andb_true_iff in Hx as [H0 H1].
    apply Z.leb_le in H0, H1. specialize (IH Hds).
    pose proof (lenZ_nonneg ds) as Hl.
    rewrite decimal_snoc, lenZ_app. change (lenZ [x]) with 1.
    rewrite Z.pow_add_r by lia. change (10 ^ 1) with 10. lia.
Qed.

(** [strconv.ParseInt] on a run of at most 18 digits. *)
Lemma ParseInt_digits (ds : list Z) :
  ds <> [] -> forallb isAsciiDigit ds = true -> lenZ ds <= 18 ->
  strconv_ParseInt ds = Ok (decimal ds).
Proof.
  intros Hne Hd Hlen. pose proof (decimal_bound ds Hd) as Hb.
  assert (Hp : 10 ^ lenZ ds <= 10 ^ 18)
    by (apply Z.pow_le_mono_r; [lia | exact Hlen]).
  change (10 ^ 18) with 1000000000000000000 in Hp.
  destruct ds as [|b t]; [congruence|].
  assert (Hb0 : isAsciiDigit b = true).
  { cbn [forallb] in Hd. now apply andb_true_iff in Hd as [Hb0 _]. }
  unfold strconv_ParseInt.
  assert (Hs : (b =? 45) = false /\ (b =? 43) = false).
  { unfold isAsciiDigit, between in Hb0. apply andb_true_iff in Hb0 as [H0 H1].
    apply Z.leb_le in H0, H1. split; apply Z.eqb_neq; lia. }
  destruct Hs as [-> ->]. rewrite Hd.
  unfold minInt64, maxInt64.
  destruct (Z.leb_spec (- 2 ^ 63) (decimal (b :: t))),
           (Z.leb_spec (decimal (b :: t)) (2 ^ 63 - 1)); simpl;
    (reflexivity || lia).
Qed.

Lemma splitDot_digits (a : list Z) :
  forallb isAsciiDigit a = true -> splitDot a = (a, None).
Proof.
  induction a as [|b a IH]; intros Hd; [reflexivity|].
  cbn [forallb] in Hd. apply andb_true_iff in Hd as [Hb Ha].
  cbn [splitDot]. pose proof (digit_not_dot b Hb) as Hn. unfold dot in Hn.
  now rewrite Hn, (IH Ha).
Qed.

Lemma splitDot_dotted (a f : list Z) :
  forallb isAsciiDigit a = true -> splitDot (a ++ 0x2E :: f) = (a, Some f).
Proof.
  induction a as [|b a IH]; intros Hd; [reflexivity|].
  cbn [forallb] in Hd. apply andb_true_iff in Hd as [Hb Ha].
  cbn [app splitDot]. pose proof (digit_not_dot b Hb) as Hn. unfold dot in Hn.
  now rewrite Hn, (IH Ha).
Qed.

Lemma reDigits_digits (ds : list Z) :
  forallb isAsciiDigit ds = true -> 2 <= lenZ ds -> rmatch reDigits ds = true.
Proof.
  intros Hd Hlen. destruct ds as [|b [|b' t]]; try (unfold lenZ in Hlen; simpl in Hlen; lia).
  cbn [forallb] in Hd. apply andb_true_iff in Hd as [Hb Ht].
  unfold reDigits. apply rmatch_Seq. exists [b], (b' :: t).
  split; [reflexivity|]. split.
  - apply rmatch_Plus. split; [discriminate|]. cbn [forallb].
    fold isAsciiDigit. unfold digit. now rewrite Hb.
  - apply rmatch_Seq. exists [], (b' :: t). split; [reflexivity|].
    split; [reflexivity|]. apply rmatch_Plus. split; [discriminate | exact Ht].
Qed.

Lemma reDigits_dotted (a f : list Z) :
  a <> [] -> f <> [] ->
  forallb isAsciiDigit a = true -> forallb isAsciiDigit f = true ->
  rmatch reDigits (a ++ 0x2E :: f) = true.
Proof.
  intros Ha Hf Da Df. unfold reDigits. apply rmatch_Seq.
  exists a, (0x2E :: f). split; [reflexivity|]. split.
  - apply rmatch_Plus. now split.
  - apply rmatch_Seq. exists [0x2E], f. split; [reflexivity|]. split.
    + apply rmatch_optdot. now right.
    + apply rmatch_Plus. now split.
Qed.

Lemma bytes_app (s1 s2 : string) : bytes (s1 ++ s2) = bytes s1 ++ bytes s2.
Proof. induction s1 as [|c s1 IH]; simpl; [reflexivity | now rewrite IH]. Qed.

Lemma substring_ofBytes (a b c : list Z) :
  String.substring (length a) (length b) (ofBytes (a ++ b ++ c)) = ofBytes b.
Proof.
  induction a as [|x a IH]; [|exact IH].
  cbn [app length]. induction b as [|y b IHb].
  - destruct c; reflexivity.
  - cbn [app length ofBytes String.substring]. now rewrite IHb.
Qed.

(** [s[lo:hi]] on the text of a byte list cut in three. *)
Lemma slice_ofBytes (a b c : list Z) :
  slice (ofBytes (a ++ b ++ c)) (lenZ a) (lenZ a + lenZ b) = Some (ofBytes b).
Proof.
  unfold slice. rewrite len_ofBytes, !lenZ_app.
  pose proof (lenZ_nonneg a) as Ha. pose proof (lenZ_nonneg b) as Hb.
  pose proof (lenZ_nonneg c) as Hc.
  assert (Hin : (0 <=? lenZ a) && (lenZ a <=? lenZ a + lenZ b)
                && (lenZ a + lenZ b <=? lenZ a + (lenZ b + lenZ c)) = true).
  { rewrite !andb_true_iff, !Z.leb_le. lia. }
  rewrite Hin.
  replace (Z.to_nat (lenZ a)) with (length a) by (unfold lenZ; lia).
  replace (Z.to_nat (lenZ a + lenZ b - lenZ a)) with (length b)
    by (unfold lenZ; lia).
  now rewrite substring_ofBytes.
Qed.

Lemma time_Unix_id (sec nsec : Z) :
  0 <= nsec < 1000000000 -> time_Unix sec nsec = mkTime sec nsec Local.
Proof.
  intros Hn. unfold time_Unix.
  destruct (Z.ltb_spec nsec 0); [lia|].
  destruct (Z.geb_spec nsec 1000000000); [lia | reflexivity].
Qed.

Section UnixFacts.
Context `{GoLib}.

(** Text of at most ten characters goes to [parseUnixTS] as it is. *)
Lemma ParseUnixTS_short (bs : list Z) :
  forallb isAscii bs = true -> rmatch reDigits bs = true ->
  7 <= lenZ bs <= 10 ->
  ParseUnixTS (ofBytes bs)
  = (sn <- parseUnixTS (ofBytes bs) ;; let '(s, n) := sn in Ok (time_Unix s n)).
Proof.
  intros Hasc Hm Hlen. unfold ParseUnixTS, MatchString, toSend.
  rewrite (bytes_ofBytes bs Hasc), Hm, len_ofBytes.
  destruct (Z.ltb_spec 6 (lenZ bs)); [|lia].
  destruct (Z.ltb_spec 10 (lenZ bs)); [lia|]. reflexivity.
Qed.

(** A fraction of at most nine digits, scaled to nanoseconds. *)
Lemma fraction_nanos (f : list Z) :
  forallb isAsciiDigit f = true -> 1 <= lenZ f <= 9 ->
  scaleNanos (decimal f) (9 - lenZ f) = decimal f * 10 ^ (9 - lenZ f)
  /\ 0 <= decimal f * 10 ^ (9 - lenZ f) < 1000000000.
Proof.
  intros Df Hlen. unfold scaleNanos.
  destruct (Z.leb_spec 0 (9 - lenZ f)); [|lia]. split; [reflexivity|].
  pose proof (decimal_bound f Df) as Hb.
  assert (Hp : 10 ^ lenZ f * 10 ^ (9 - lenZ f) = 1000000000).
  { rewrite <- Z.pow_add_r by lia. replace (lenZ f + (9 - lenZ f)) with 9 by lia.
    reflexivity. }
  assert (H10 : 0 < 10 ^ (9 - lenZ f)) by (apply Z.pow_pos_nonneg; lia).
  nia.
Qed.

(** [parseUnixTS] on "seconds.fraction". *)
Lemma parseUnixTS_dotted (a f : list Z) :
  a <> [] -> forallb isAsciiDigit a = true -> lenZ a <= 18 ->
  forallb isAsciiDigit f = true -> lenZ f <= 9 ->
  parseUnixTS (ofBytes (a ++ 0x2E :: f))
  = (if lenZ f =? 0 then Err (StrconvSyntax [])
     else Ok (decimal a, decimal f * 10 ^ (9 - lenZ f))).
Proof.
  intros Ha Da La Df Lf. unfold parseUnixTS.
  assert (Hasc : forallb isAscii (a ++ 0x2E :: f) = true).
  { rewrite isAscii_app. cbn [forallb].
    now rewrite (digits_isAscii a Da), (digits_isAscii f Df). }
  rewrite (bytes_ofBytes _ Hasc), (splitDot_dotted a f Da).
  rewrite (ParseInt_digits a Ha Da La). cbn [obind].
  destruct f as [|x f]; [reflexivity|].
  assert (Hl : 1 <= lenZ (x :: f)).
  { pose proof (lenZ_nonneg f). unfold lenZ in *. cbn [length]. lia. }
  rewrite ParseInt_digits by (congruence || assumption || lia).
  cbn [obind]. destruct (Z.eqb_spec (lenZ (x :: f)) 0); [lia|].
  destruct (fraction_nanos (x :: f) Df ltac:(lia)) as [-> _]. reflexivity.
Qed.

(** Seven to ten digits are a count of whole seconds. *)
Lemma ParseUnixTS_whole (ds : list Z) :
  forallb isAsciiDigit ds = true -> 7 <= lenZ ds <= 10 ->
  ParseUnixTS (ofBytes ds) = Ok (mkTime (decimal ds) 0 Local).
Proof.
  intros Hd Hlen.
  rewrite ParseUnixTS_short;
    [| now apply digits_isAscii | apply reDigits_digits; [exact Hd | lia]
     | exact Hlen].
  unfold parseUnixTS.
  rewrite (bytes_ofBytes ds (digits_isAscii ds Hd)), (splitDot_digits ds Hd).
  rewrite ParseInt_digits; [| | exact Hd | lia].
  - cbn [obind]. now rewrite time_Unix_id by lia.
  - intros ->. unfold lenZ in Hlen. simpl in Hlen. lia.
Qed.

Lemma ParseUnixTS_brief (s : string) :
  len s <= 6 -> ParseUnixTS s = Err (UnixDecodeFailure s).
Proof.
  intros Hlen. unfold ParseUnixTS.
  destruct (Z.ltb_spec 6 (len s)); [lia|]. now rewrite andb_false_r.
Qed.

End UnixFacts.

(** [ParseUnixTS] on a text of seven to ten characters.  Digits only are
    the decimal count of seconds since the epoch, with no nanoseconds; in
    "seconds.fraction" the fraction is read as a decimal fraction of a
    second, its digits weighing tenths, hundredths and so on ("1136214.5" is
    half a second past second 1136214).  The instant is presented in the
    local zone. *)
Theorem ParseUnixTS_plain `{GoLib} (a : list Z) :
  forallb isAsciiDigit a = true ->
  (7 <= lenZ a <= 10 ->
   ParseUnixTS (ofBytes a) = Ok (mkTime (decimal a) 0 Local))
  /\ (forall f,
        a <> [] -> f <> [] -> forallb isAsciiDigit f = true ->
        7 <= lenZ a + 1 + lenZ f <= 10 ->
        ParseUnixTS (ofBytes (a ++ 0x2E :: f))
        = Ok (mkTime (decimal a) (decimal f * 10 ^ (9 - lenZ f)) Local)).
Proof.
  intros Da. split; [now apply ParseUnixTS_whole|].
  intros f Ha Hf Df Hlen.
  pose proof (lenZ_nonneg a) as La. pose proof (lenZ_nonneg f) as Lf.
  assert (Hf1 : 1 <= lenZ f).
  { destruct f; [congruence|]. pose proof (lenZ_nonneg f).
    unfold lenZ in *. cbn [length]. lia. }
  assert (Hl : lenZ (a ++ 0x2E :: f) = lenZ a + 1 + lenZ f).
  { rewrite lenZ_app. unfold lenZ. cbn [length]. lia. }
  rewrite ParseUnixTS_short.
  - rewrite parseUnixTS_dotted by (assumption || lia).
    destruct (Z.eqb_spec (lenZ f) 0); [lia|]. cbn [obind]. f_equal.
    apply time_Unix_id. now apply fraction_nanos; [|lia].
  - rewrite isAscii_app. cbn [forallb].
    now rewrite (digits_isAscii a Da), (digits_isAscii f Df).
  - now apply reDigits_dotted.
  - lia.
Qed.

(** Witness of [ParseUnixTS_plain] at "1136214245" and at "1136214.5". *)
Lemma ParseUnixTS_plain_witness :
  @ParseUnixTS sampleLib "1136214245" = Ok (mkTime 1136214245 0 Local)
  /\ @ParseUnixTS sampleLib "1136214.5" = Ok (mkTime 1136214 500000000 Local).
Proof.
  split.
  - destruct (@ParseUnixTS_plain sampleLib (bytes "1136214245")) as [Hw _];
      [reflexivity|].
    exact (Hw ltac:(vm_compute; split; discriminate)).
  - destruct (@ParseUnixTS_plain sampleLib (bytes "1136214")) as [_ Hf];
      [reflexivity|].
    exact (Hf (bytes "5") ltac:(discriminate) ltac:(discriminate) eq_refl
             ltac:(vm_compute; split; discriminate)).
Defined.

(** [ParseUnixTS] on twelve characters or more, digits throughout but for a
    dot that may stand at index 10: the text handed on is the first ten
    digits, a dot and the digits from index 11 up to, but not including, the
    last character, read as seconds and fraction of a second.  The character
    at index 10 and the last character do not enter the result, whatever
    they are; with nothing between them (twelve characters) the call
    fails. *)
Lemma ParseUnixTS_resliced `{GoLib} (a f : list Z) (x y : Z) :
  lenZ a = 10 -> forallb isAsciiDigit a = true ->
  forallb isAsciiDigit f = true -> lenZ f <= 9 ->
  isAsciiDigit x = true \/ x = 0x2E -> isAsciiDigit y = true ->
  toSend (ofBytes (a ++ x :: f ++ [y]))
  = Some (ofBytes a ++ "." ++ ofBytes f)%string
  /\ ParseUnixTS (ofBytes (a ++ x :: f ++ [y]))
     = (if lenZ f =? 0 then Err (StrconvSyntax [])
        else Ok (mkTime (decimal a) (decimal f * 10 ^ (9 - lenZ f)) Local)).
Proof.
  intros La Da Df Lf Hx Hy.
  pose proof (lenZ_nonneg f) as Lf0.
  assert (Ha : a <> []) by (intros ->; discriminate La).
  assert (Dfy : forallb isAsciiDigit (f ++ [y]) = true).
  { rewrite forallb_app, Df. cbn [forallb]. now rewrite Hy. }
  assert (Ax : isAscii x = true).
  { destruct Hx as [Hx | ->]; [now apply digit_isAscii | reflexivity]. }
  assert (Hasc : forallb isAscii (a ++ x :: f ++ [y]) = true).
  { rewrite isAscii_app. cbn [forallb].
    now rewrite (digits_isAscii a Da), Ax, (digits_isAscii _ Dfy). }
  assert (Hl : lenZ (a ++ x :: f ++ [y]) = 12 + lenZ f).
  { rewrite lenZ_app, La. unfold lenZ. cbn [length]. rewrite length_app.
    cbn [length]. lia. }
  assert (Hm : rmatch reDigits (a ++ x :: f ++ [y]) = true).
  { destruct Hx as [Hx | ->].
    - apply reDigits_digits; [|lia].
      rewrite forallb_app, Da. cbn [forallb]. now rewrite Hx, Dfy.
    - apply reDigits_dotted; try assumption. now destruct f. }
  assert (Hsec : slice (ofBytes (a ++ x :: f ++ [y])) 0 10 = Some (ofBytes a)).
  { pose proof (slice_ofBytes [] a (x :: f ++ [y])) as Hs.
    change (lenZ (@nil Z)) with 0 in Hs. rewrite La in Hs. exact Hs. }
  assert (Hnsec : slice (ofBytes (a ++ x :: f ++ [y])) 11
                    (len (ofBytes (a ++ x :: f ++ [y])) - 1)
                  = Some (ofBytes f)).
  { rewrite len_ofBytes, Hl.
    pose proof (slice_ofBytes (a ++ [x]) f [y]) as Hs.
    rewrite <- app_assoc in Hs. cbn [app] in Hs.
    rewrite lenZ_app, La in Hs. change (lenZ [x]) with 1 in Hs.
    replace (12 + lenZ f - 1) with (10 + 1 + lenZ f) by lia. exact Hs. }
  assert (Hto : toSend (ofBytes (a ++ x :: f ++ [y]))
                = Some (ofBytes a ++ "." ++ ofBytes f)%string).
  { unfold toSend. rewrite Hsec, Hnsec, len_ofBytes, Hl.
    now destruct (Z.ltb_spec 10 (12 + lenZ f)); [|lia]. }
  split; [exact Hto|].
  unfold ParseUnixTS, MatchString. rewrite Hto.
  rewrite (bytes_ofBytes _ Hasc), Hm, len_ofBytes, Hl.
  destruct (Z.ltb_spec 6 (12 + lenZ f)); [|lia].
  cbn [andb].
  assert (Hsent : (ofBytes a ++ "." ++ ofBytes f)%string
                  = ofBytes (a ++ 0x2E :: f)).
  { clear. induction a as [|b a IH]; [reflexivity|].
    cbn [app ofBytes String.append]. now rewrite <- IH. }
  rewrite Hsent, parseUnixTS_dotted by (assumption || lia).
  destruct (Z.eqb_spec (lenZ f) 0) as [Hz | Hnz]; [reflexivity|].
  cbn [obind]. f_equal. apply time_Unix_id.
  now apply fraction_nanos; [|lia].
Qed.

(** ** Numbers through the dispatcher *)

Lemma digits_trimmed (ds : list Z) :
  ds <> [] -> forallb isAsciiDigit ds = true ->
  strings_TrimSpace (ofBytes ds) = ofBytes ds.
Proof.
  intros Hne Hd. apply TrimSpace_id.
  - now apply digits_isAscii.
  - destruct ds as [|b t]; [congruence|]. exists b, t. split; [reflexivity|].
    cbn [forallb] in Hd. apply andb_true_iff in Hd as [Hb _].
    now apply digit_not_space.
  - destruct (exists_last Hne) as (body & bl & ->). exists body, bl.
    split; [reflexivity|]. rewrite forallb_app in Hd.
    apply andb_true_iff in Hd as [_ Hb]. cbn [forallb] in Hb.
    rewrite andb_true_r in Hb. now apply digit_not_space.
Qed.

(** [ParseInLocation] and [ParseInUTC] on a text of digits only, by its
    length: two to six digits are refused as a Unix timestamp; seven, nine
    or ten digits are the seconds since the epoch, presented in the location
    asked for; eleven digits make the slice bounds of [ParseUnixTS] cross and
    the call panics.  In each case the Unix decoder is the only strategy
    called and the zone cache is left alone. *)
Theorem ParseInLocation_digits `{GoLib} (ds : list Z) (location : Location)
  (c : zones) :
  forallb isAsciiDigit ds = true ->
  let s := ofBytes ds in
  (2 <= lenZ ds <= 6 ->
   ParseInLocation s location c
   = mkDispatched (Err (UnixParseFailure s)) c [TryUnix s])
  /\ (lenZ ds = 7 \/ lenZ ds = 9 \/ lenZ ds = 10 ->
      ParseInLocation s location c
      = mkDispatched (Ok (mkTime (decimal ds) 0 location)) c [TryUnix s])
  /\ (lenZ ds = 11 ->
      ParseInLocation s location c = mkDispatched Panic c [TryUnix s]).
Proof.
  intros Hd s.
  assert (Hgo : 2 <= lenZ ds -> lenZ ds <> 8 -> lenZ ds <> 14 ->
            ParseInLocation s location c
            = match ParseUnixTS s with
              | Ok t => mkDispatched (Ok (In t location)) c [TryUnix s]
              | Err _ => mkDispatched (Err (UnixParseFailure s)) c [TryUnix s]
              | Panic => mkDispatched Panic c [TryUnix s]
              end).
  { intros H2 H8 H14.
    assert (Hne : ds <> []) by (intros ->; unfold lenZ in H2; simpl in H2; lia).
    assert (Hts : isTS s = true).
    { apply isTS_true. subst s. unfold MatchString.
      rewrite (bytes_ofBytes ds (digits_isAscii ds Hd)), len_ofBytes.
      split; [now apply reDigits_digits | split; assumption]. }
    unfold ParseInLocation. rewrite parseTimestamp_numeric;
      subst s; rewrite (digits_trimmed ds Hne Hd); [|exact Hts].
    unfold afterISO. rewrite Hts. reflexivity. }
  split; [|split].
  - intros Hlen. rewrite Hgo by lia.
    rewrite ParseUnixTS_brief; [reflexivity|].
    subst s. rewrite len_ofBytes. lia.
  - intros Hlen. rewrite Hgo by lia. subst s.
    rewrite (ParseUnixTS_whole ds Hd) by lia. reflexivity.
  - intros Hlen. rewrite Hgo by lia.
    assert (Hp : ParseUnixTS s = Panic).
    { unfold ParseUnixTS, MatchString, toSend. subst s.
      rewrite (bytes_ofBytes ds (digits_isAscii ds Hd)), len_ofBytes, Hlen.
      rewrite reDigits_digits by (assumption || lia). cbn [andb Z.ltb Z.compare Pos.compare Pos.compare_cont].
      destruct (slice (ofBytes ds) 0 10); reflexivity. }
    now rewrite Hp.
Qed.

(** Witness of [ParseInLocation_digits]: ten digits asked for in a zone
    seven hours west of UTC, and eleven digits. *)
Lemma ParseInLocation_digits_witness :
  @ParseInLocation sampleLib "1136214245" (FixedZone "FixedZone" (-25200)) ∅
  = mkDispatched (Ok (mkTime 1136214245 0 (FixedZone "FixedZone" (-25200)))) ∅
      [TryUnix "1136214245"]
  /\ @ParseInLocation sampleLib "11362142451" UTC ∅
     = mkDispatched Panic ∅ [TryUnix "11362142451"].
Proof.
  split.
  - destruct (@ParseInLocation_digits sampleLib (bytes "1136214245")
                (FixedZone "FixedZone" (-25200)) ∅) as (_ & Hok & _);
      [reflexivity|].
    exact (Hok (or_intror (or_intror eq_refl))).
  - destruct (@ParseInLocation_digits sampleLib (bytes "11362142451") UTC ∅)
      as (_ & _ & Hp); [reflexivity|].
    exact (Hp eq_refl).
Defined.

(** ** The Unix decoder on eleven characters *)

Section ElevenCharacters.
Context `{GoLib}.

(** An accepted input of eleven characters: the second slice is
    [timeStr[11:10]], out of range. *)
Lemma ParseUnixTS_eleven (s : string) :
  MatchString reDigits s = true -> len s = 11 -> ParseUnixTS s = Panic.
Proof.
  intros Hm Hlen. unfold ParseUnixTS. rewrite Hm, Hlen. cbn [andb Z.ltb Z.compare].
  destruct (toSend_cases s) as [[Hl _] | [[_ ->] | [Hl _]]];
    [lia | reflexivity | lia].
Qed.

Lemma ParseUnixTS_rejected (s : string) :
  len s <= 6 \/ MatchString reSpecDigits s = false ->
  ParseUnixTS s = Err (UnixDecodeFailure s).
Proof.
  intros Hs. unfold ParseUnixTS.
  destruct (MatchString reDigits s) eqn:Hm; [|reflexivity].
  destruct Hs as [Hlen | Hno].
  - assert (Hl : (6 <? len s) = false) by (apply Z.ltb_ge; lia).
    now rewrite Hl.
  - apply reDigits_included in Hm. unfold MatchString in Hno. congruence.
Qed.

End ElevenCharacters.

(** C2, at the failing input.  "113621424.5" matches digits[.digits], is
    longer than 6 characters and its digit string without the dot has 10
    characters, not more: the claim has it passed on as it is.  The code
    compares the length with the dot counted, 11, with 10, enters the
    re-slicing and evaluates [timeStr[11:10]], which panics; so does every
    accepted input of exactly 11 characters.  The rest of the claim holds:
    an input of length 6 or less, or not matching, fails with the decode
    error; "1136214245" gives 1136214245 s and 0 ns; an accepted input of 7
    to 10 characters is passed on unchanged; an accepted input of 12
    characters or more has more than 10 characters besides the dot and is
    re-sliced to [timeStr[0:10] + "." + timeStr[11:len-1]], so that for ten
    digits [a], any digit or dot, up to nine digits [f] and a last digit
    the seconds are [a] and the nanoseconds [f] read as a decimal fraction
    (an empty [f] fails in [strconv.ParseInt]). *)
Theorem C2_ParseUnixTS_eleven `{GoLib} :
  (MatchString reSpecDigits "113621424.5" = true
   /\ MatchString reDigits "113621424.5" = true
   /\ 6 < len "113621424.5"
   /\ dotFreeLen "113621424.5" = 10
   /\ ParseUnixTS "113621424.5" = Panic)
  /\ (forall s, MatchString reDigits s = true -> len s = 11 ->
        ParseUnixTS s = Panic)
  /\ (forall s, len s <= 6 \/ MatchString reSpecDigits s = false ->
        ParseUnixTS s = Err (UnixDecodeFailure s))
  /\ ParseUnixTS "1136214245" = Ok (mkTime 1136214245 0 Local)
  /\ (forall s, MatchString reDigits s = true -> 6 < len s <= 10 ->
        toSend s = Some s)
  /\ (forall s, MatchString reDigits s = true -> 12 <= len s ->
        10 < dotFreeLen s
        /\ exists sec nsec,
             slice s 0 10 = Some sec /\ slice s 11 (len s - 1) = Some nsec
             /\ toSend s = Some (sec ++ "." ++ nsec)%string)
  /\ (forall a f x y,
        lenZ a = 10 -> forallb isAsciiDigit a = true ->
        forallb isAsciiDigit f = true -> lenZ f <= 9 ->
        isAsciiDigit x = true \/ x = 0x2E -> isAsciiDigit y = true ->
        ParseUnixTS (ofBytes (a ++ x :: f ++ [y]))
        = (if lenZ f =? 0 then Err (StrconvSyntax [])
           else Ok (mkTime (decimal a) (decimal f * 10 ^ (9 - lenZ f)) Local)))
  /\ ParseUnixTS "1136214245123456789" = Ok (mkTime 1136214245 234567800 Local).
Proof.
  split.
  { repeat split; vm_compute; reflexivity. }
  split; [apply ParseUnixTS_eleven|].
  split; [apply ParseUnixTS_rejected|].
  split; [vm_compute; reflexivity|].
  split.
  { intros s _ Hlen.
    destruct (toSend_cases s) as [[_ Hs] | [[Hl _] | [Hl _]]];
      [exact Hs | lia | lia]. }
  split.
  { intros s Hm Hlen.
    destruct (toSend_cases s) as [[Hl _] | [[Hl _] | [_ Hs]]]; [lia | lia |].
    split; [|exact Hs].
    pose proof (reDigits_dotFree _ Hm) as Hd. rewrite len_bytes in Hd.
    unfold dotFreeLen. lia. }
  split.
  { intros a f x y La Da Df Lf Hx Hy.
    now destruct (ParseUnixTS_resliced a f x y La Da Df Lf Hx Hy). }
  vm_compute. reflexivity.
Qed.

(** ** Zone buffers of every length *)

Lemma decimal_zeros (ds : list Z) : isZero ds = true -> decimal ds = 0.
Proof.
  induction ds as [|x ds IH] using rev_ind; intros Hz; [reflexivity|].
  rewrite isZero_app in Hz. apply andb_true_iff in Hz as [Hds Hx].
  cbn in Hx. rewrite andb_true_r in Hx. apply Z.eqb_eq in Hx.
  rewrite decimal_snoc, IH by exact Hds. lia.
Qed.

Lemma forallb_firstn {A} (p : A -> bool) (n : nat) (l : list A) :
  forallb p l = true -> forallb p (firstn n l) = true.
Proof.
  revert n. induction l as [|a l IH]; intros [|n] Hl; try reflexivity.
  cbn in *. apply andb_true_iff in Hl as [-> Hl]. now rewrite IH.
Qed.

Lemma forallb_skipn {A} (p : A -> bool) (n : nat) (l : list A) :
  forallb p l = true -> forallb p (skipn n l) = true.
Proof.
  revert n. induction l as [|a l IH]; intros [|n] Hl; try reflexivity;
    [exact Hl|].
  cbn in *. apply andb_true_iff in Hl as [_ Hl]. now apply IH.
Qed.

(** [strconv.Atoi] behind the [isZero] shortcut, on ASCII digits. *)
Lemma decodeAtoi_digits (ds : list Z) :
  forallb isAsciiDigit ds = true -> lenZ ds <= 18 ->
  decodeAtoi ds = Ok (decimal ds).
Proof.
  intros Hd Hlen. unfold decodeAtoi. destruct (isZero ds) eqn:Hz.
  - now rewrite decimal_zeros.
  - rewrite RunesToString_ascii by now apply digits_isAscii.
    apply ParseInt_digits; [|exact Hd | exact Hlen].
    intros ->. discriminate Hz.
Qed.

Lemma quarterHour_spec (offsetM : Z) :
  quarterHour offsetM = true
  <-> offsetM = 0 \/ offsetM = 15 \/ offsetM = 30 \/ offsetM = 45.
Proof.
  unfold quarterHour. rewrite !orb_true_iff, !Z.eqb_eq. tauto.
Qed.

(** Zone resolution on a padded buffer of ASCII digits that are not all
    zero: the hours are the first two digits, the minutes everything that
    follows them. *)
Lemma resolveZone_found (zp : list Z) (positive : bool) :
  forallb isAsciiDigit zp = true -> lenZ zp <= 18 -> isZero zp = false ->
  resolveZone zp true positive
  = if quarterHour (decimal (skipn 2 zp))
    then Ok (ZoneOffset (signed positive
                           (decimal (firstn 2 zp) * 60 * 60
                            + decimal (skipn 2 zp) * 60)))
    else Err (OffsetNotOnQuarterHour (decimal (skipn 2 zp))).
Proof.
  intros Hd Hlen Hz. unfold resolveZone. rewrite Hz. cbn [negb].
  assert (H1 : lenZ (firstn 2 zp) <= 18).
  { unfold lenZ in *. rewrite length_firstn. lia. }
  assert (H2 : lenZ (skipn 2 zp) <= 18).
  { unfold lenZ in *. rewrite length_skipn. lia. }
  rewrite (decodeAtoi_digits _ (forallb_firstn _ 2 zp Hd) H1).
  rewrite (decodeAtoi_digits _ (forallb_skipn _ 2 zp Hd) H2).
  cbn [obind]. destruct positive; reflexivity.
Qed.

Section ZoneLengths.
Context `{GoLib}.

Lemma scan_zone_bound (timeStr : string) : lenZ (zonePart (scan timeStr)) < 8.
Proof.
  destruct (scan_shape timeStr) as [Hs | Hs].
  - unfold shape in Hs. destruct (currentSection (scan timeStr)); lia.
  - unfold stopped in Hs. lia.
Qed.

(** The outcome for a zone buffer of ASCII digits, not all zero and of a
    length other than 1 and 3. *)
Lemma ParseISOTimestamp_zone (timeStr : string) (location : Location)
  (c : zones) (f : Fields) :
  let st := scan timeStr in
  let z := zonePart st in
  len timeStr <= 35 -> unparsed st = [] -> decodeFields st = Ok f ->
  isZero z = false -> lenZ z <> 1 -> lenZ z <> 3 ->
  forallb isAsciiDigit z = true ->
  ParseISOTimestamp timeStr location c
  = if quarterHour (decimal (skipn 2 z))
    then let '(l, c') :=
           LocationFromOffset
             (signed (offsetPositive st)
                (decimal (firstn 2 z) * 60 * 60 + decimal (skipn 2 z) * 60))
             c in
         (Ok (dateOf f l), c')
    else (Err (OffsetNotOnQuarterHour (decimal (skipn 2 z))), c).
Proof.
  intros st z Hlen Hu Hf Hz H1 H3 Hd.
  pose proof (scan_zone_bound timeStr) as Hb. fold st z in Hb.
  destruct (padZone_cases z) as [[E _] | [[E Hp] | [[E _] | [E Hp]]]];
    [| | lia |].
  - apply lenZ_nil_iff in E. rewrite E in Hz. discriminate Hz.
  - rewrite (ParseISOTimestamp_resolved timeStr location c f _ _
               Hlen Hu Hf Hp).
    destruct z as [|a [|b [|x z']]]; unfold lenZ in E; cbn in E; try lia.
    rewrite resolveZone_found;
      [| rewrite forallb_app, Hd; reflexivity | vm_compute; discriminate
       | rewrite isZero_app, Hz; reflexivity].
    cbn [app firstn skipn]. change (decimal [48; 48]) with 0.
    change (decimal []) with 0. fold st.
    destruct (quarterHour 0); reflexivity.
  - rewrite (ParseISOTimestamp_resolved timeStr location c f _ _
               Hlen Hu Hf Hp).
    rewrite resolveZone_found by (assumption || lia). fold st.
    destruct (quarterHour (decimal (skipn 2 z))); reflexivity.
Qed.

End ZoneLengths.

(** C3, at the failing input.  In "20060102T150405+073Z" the Z arrives in
    the Zone state with "073" in the zone buffer and "0000" is appended
    (the defect of C5), so the buffer is "0730000": [zone[0:2]] is 07 and
    [zone[2:4]] is 30, a quarter hour, and yet the parse fails with the
    quarter-hour error, because the code reads the minutes from
    [zonePart[2:]], here 30000.  On a buffer of at most four digits the two
    agree and the claim holds.  For an input of at most 35 bytes scanned
    without unparsed characters and whose fields decode to [f]: a zone
    buffer that is non-empty and entirely zeros (and not of the ambiguous
    lengths 1 or 3) gives the instant in UTC whatever the default location;
    an empty zone buffer gives it in the default location; otherwise, for a
    zone buffer of ASCII digits, the hours are [zone[0:2]], the minutes
    [zone[2:]], which is [zone[2:4]] up to length four, the parse fails with
    the quarter-hour error exactly when the minutes are none of 0, 15, 30
    and 45, and succeeds in the fixed zone of the signed offset otherwise;
    "2006/01/02T18.01.01+01:10" fails with the quarter-hour error. *)
Theorem C3_zone_minutes `{GoLib} :
  (zonePart (scan "20060102T150405+073Z") = [48; 55; 51; 48; 48; 48; 48]
   /\ firstn 2 (skipn 2 [48; 55; 51; 48; 48; 48; 48]) = [51; 48]
   /\ decimal [51; 48] = 30
   /\ forall location c,
        ParseISOTimestamp "20060102T150405+073Z" location c
        = (Err (OffsetNotOnQuarterHour 30000), c))
  /\ (forall timeStr location c f,
        let st := scan timeStr in
        let z := zonePart st in
        let offsetH := decimal (firstn 2 z) in
        let offsetM := decimal (skipn 2 z) in
        len timeStr <= 35 -> unparsed st = [] -> decodeFields st = Ok f ->
        (z <> [] -> isZero z = true -> lenZ z <> 1 -> lenZ z <> 3 ->
           ParseISOTimestamp timeStr location c = (Ok (dateOf f UTC), c))
        /\ (z = [] ->
           ParseISOTimestamp timeStr location c = (Ok (dateOf f location), c))
        /\ (isZero z = false -> lenZ z <> 1 -> lenZ z <> 3 ->
            forallb isAsciiDigit z = true ->
            (lenZ z <= 4 -> skipn 2 z = firstn 2 (skipn 2 z))
            /\ ((offsetM <> 0 /\ offsetM <> 15 /\ offsetM <> 30 /\ offsetM <> 45)
                <-> fst (ParseISOTimestamp timeStr location c)
                    = Err (OffsetNotOnQuarterHour offsetM))
            /\ (offsetM = 0 \/ offsetM = 15 \/ offsetM = 30 \/ offsetM = 45 ->
                ParseISOTimestamp timeStr location c
                = let '(l, c') :=
                    LocationFromOffset
                      (signed (offsetPositive st)
                         (offsetH * 60 * 60 + offsetM * 60))
                      c in
                  (Ok (dateOf f l), c'))))
  /\ (forall location c,
        fst (ParseISOTimestamp "2006/01/02T18.01.01+01:10" location c)
        = Err (OffsetNotOnQuarterHour 10)).
Proof.
  split.
  { split; [vm_compute; reflexivity|]. split; [reflexivity|].
    split; [reflexivity|]. intros location c. apply ParseISOTimestamp_Err.
    vm_compute. reflexivity. }
  split; [|intros location c; vm_compute; reflexivity].
  intros timeStr location c f st z offsetH offsetM Hlen Hu Hf.
  split; [|split].
  - intros Hne Hz H1 H3.
    assert (Hl0 : lenZ z <> 0) by (now rewrite lenZ_nil_iff).
    destruct (padZone_cases z) as [[E _] | [[E Hp] | [[E _] | [E Hp]]]];
      try lia.
    + rewrite (ParseISOTimestamp_resolved timeStr location c f _ _
                 Hlen Hu Hf Hp).
      unfold resolveZone. rewrite isZero_app. fold z. rewrite Hz. reflexivity.
    + rewrite (ParseISOTimestamp_resolved timeStr location c f _ _
                 Hlen Hu Hf Hp).
      unfold resolveZone. fold z. rewrite Hz. reflexivity.
  - intros Hz.
    assert (Hp : padZone z = Ok (z ++ [48; 48; 48; 48], false))
      by (rewrite Hz; reflexivity).
    now rewrite (ParseISOTimestamp_resolved timeStr location c f _ _
                   Hlen Hu Hf Hp).
  - intros Hz H1 H3 Hd. split.
    { intros H4. destruct z as [|a [|b [|x [|y [|w z']]]]]; try reflexivity.
      unfold lenZ in H4. cbn in H4. lia. }
    rewrite (ParseISOTimestamp_zone timeStr location c f Hlen Hu Hf Hz H1 H3 Hd).
    fold st z offsetH offsetM.
    pose proof (quarterHour_spec offsetM) as Hq.
    destruct (quarterHour offsetM).
    + assert (Hm : offsetM = 0 \/ offsetM = 15 \/ offsetM = 30 \/ offsetM = 45)
        by now apply Hq.
      split.
      * split; [lia|]. destruct (LocationFromOffset _ c). discriminate.
      * reflexivity.
    + assert (Hm : ~ (offsetM = 0 \/ offsetM = 15 \/ offsetM = 30 \/ offsetM = 45)).
      { intros Hm. apply Hq in Hm. discriminate Hm. }
      split.
      * split; [reflexivity | lia].
      * intros Hm'. now elim Hm.
Qed.

(** Witness of [C3_zone_minutes] at "20060102T150405+0000" (zeros),
    "20060102T150405" (no zone), "20060102T150405-0700" and
    "20060102T150405-0710". *)
Lemma C3_zone_minutes_witness :
  @ParseISOTimestamp sampleLib "20060102T150405+0000" Local ∅
  = (Ok (mkTime 1136214245 0 UTC), ∅)
  /\ @ParseISOTimestamp sampleLib "20060102T150405" Local ∅
     = (Ok (mkTime 1136214245 0 Local), ∅)
  /\ @ParseISOTimestamp sampleLib "20060102T150405-0700" Local ∅
     = (Ok (mkTime 1136239445 0 (FixedZone "FixedZone" (-25200))),
        {[ -25200 := FixedZone "FixedZone" (-25200) ]})
  /\ fst (@ParseISOTimestamp sampleLib "20060102T150405-0710" Local ∅)
     = Err (OffsetNotOnQuarterHour 10).
Proof.
  pose (f := mkFields 2006 1 2 15 4 5 0).
  destruct (@C3_zone_minutes sampleLib) as (_ & Hgen & _).
  split; [|split; [|split]].
  - destruct (Hgen "20060102T150405+0000"%string Local ∅ f) as (Hz & _);
      [vm_compute; discriminate | reflexivity | reflexivity |].
    apply Hz; [vm_compute; discriminate | reflexivity
              | vm_compute; discriminate | vm_compute; discriminate].
  - destruct (Hgen "20060102T150405"%string Local ∅ f) as (_ & He & _);
      [vm_compute; discriminate | reflexivity | reflexivity |].
    apply He. reflexivity.
  - destruct (Hgen "20060102T150405-0700"%string Local ∅ f) as (_ & _ & Hc);
      [vm_compute; discriminate | reflexivity | reflexivity |].
    destruct Hc as (_ & _ & Hq);
      [reflexivity | vm_compute; discriminate | vm_compute; discriminate
      | reflexivity |].
    exact (Hq (or_introl eq_refl)).
  - destruct (Hgen "20060102T150405-0710"%string Local ∅ f) as (_ & _ & Hc);
      [vm_compute; discriminate | reflexivity | reflexivity |].
    destruct Hc as (_ & Hq & _);
      [reflexivity | vm_compute; discriminate | vm_compute; discriminate
      | reflexivity |].
    apply Hq. vm_compute. repeat split; discriminate.
Defined.

(** ** Fields out of range *)

Section Rollover.
Context `{GoLib}.

(** [time.Date] in a zone of constant offset checks no field: each one
    enters the result with its weight, a month outside 1..12 by whole
    years. *)
Lemma time_Date_linear (y m d h mi s ns off : Z) (l : Location) :
  0 <= ns < 1000000000 -> fixedAt l off ->
  time_Date y m d h mi s ns l
  = mkTime (civilDays (y + (m - 1) / 12) ((m - 1) mod 12 + 1) d * 86400
            + (h * 3600 + mi * 60 + s) - unixEpochDays * 86400 - off) ns l.
Proof.
  intros Hns Hl. pose proof (zoneOffset_fixedAt l off) as Hzo.
  unfold time_Date, wallSeconds.
  rewrite (Norm_divmod y (m - 1) 12) by lia.
  rewrite (Norm_id s ns 1000000000) by lia.
  rewrite (Norm_divmod mi s 60) by lia.
  rewrite (Norm_divmod h (mi + s / 60) 60) by lia.
  rewrite (Norm_divmod d (h + (mi + s / 60) / 60) 24) by lia.
  rewrite civilDays_next. rewrite Hl. unfold secondsPerDay.
  rewrite Hzo by exact Hl.
  pose proof (Z.div_mod s 60 ltac:(lia)) as Hs.
  pose proof (Z.div_mod (mi + s / 60) 60 ltac:(lia)) as Hmi.
  pose proof (Z.div_mod (h + (mi + s / 60) / 60) 24 ltac:(lia)) as Hh.
  set (sq := s / 60) in *. set (sr := s mod 60) in *.
  set (mq := (mi + sq) / 60) in *. set (mr := (mi + sq) mod 60) in *.
  set (hq := (h + mq) / 24) in *. set (hr := (h + mq) mod 24) in *.
  set (day := civilDays (y + (m - 1) / 12) ((m - 1) mod 12 + 1) d).
  destruct (Z.eqb_spec off 0) as [E | E].
  - f_equal. lia.
  - match goal with |- context [if ?b then _ else _] => destruct b end;
      f_equal; lia.
Qed.

End Rollover.

(** [ParseISOTimestamp] checks the number of digits of each field, not its
    range: on a timestamp in one of the four ISO layouts every two-digit
    month, day, hour, minute and second is accepted, and so is every offset
    of whole quarter hours below 100 hours.  The result is the instant
    [time.Date] computes by carrying: each field enters with its weight, so
    that month 13 is January of the next year, month 00 December of the year
    before, day 00 the last day of the month before, hour 24 the next day and
    second 60 the next minute. *)
Theorem ParseISOTimestamp_rollover `{GoLib} (ext msec : bool)
  (y mo d h mi s ms k : Z) (location : Location) (c : zones) :
  0 <= y < 10000 -> 0 <= mo < 100 -> 0 <= d < 100 -> 0 <= h < 100 ->
  0 <= mi < 100 -> 0 <= s < 100 -> 0 <= ms < 1000 -> -400 < k < 400 ->
  cacheSound c ->
  exists t,
    fst (ParseISOTimestamp
           (ofBytes (isoBytes ext msec (dig4 y) (dig2 mo) (dig2 d) (dig2 h)
                       (dig2 mi) (dig2 s) (dig3 ms) (zoneSign k)
                       (dig2 (zoneHours k)) (dig2 (zoneMinutes k))))
           location c) = Ok t
    /\ unixSec t
       = civilDays (y + (mo - 1) / 12) ((mo - 1) mod 12 + 1) d * 86400
         + (h * 3600 + mi * 60 + s) - unixEpochDays * 86400 - 900 * k
    /\ nsec t = (if msec then ms * 1000000 else 0)
    /\ zoneOffset (loc t) (unixSec t) = 900 * k.
Proof.
  intros Hy Hmo Hd Hh Hmi Hs Hms Hk Hc.
  destruct (parse_iso ext msec y mo d h mi s ms k) as (_ & _ & _ & _ & Hp);
    try assumption.
  assert (Hns : 0 <= (if msec then ms * 1000000 else 0) < 1000000000)
    by (destruct msec; lia).
  unfold ParseISOTimestamp. rewrite Hp. cbn [pZone pFields]. unfold dateOf.
  cbn [fYear fMonth fDay fHour fMinute fSecond fSubseconds]. unfold zoneOf.
  destruct (Z.eqb_spec k 0) as [-> | Hk0].
  - rewrite (time_Date_linear y mo d h mi s _ 0 UTC Hns fixedAt_UTC).
    eexists. split; [reflexivity|]. cbn [unixSec nsec loc].
    split; [lia|]. split; reflexivity.
  - destruct (LocationFromOffset_sound (900 * k) c Hc) as [Hl _].
    destruct (LocationFromOffset (900 * k) c) as [l c'].
    cbn [fst] in Hl. subst l.
    rewrite (time_Date_linear y mo d h mi s _ (900 * k)
               (FixedZone "FixedZone" (900 * k)) Hns
               (fixedAt_FixedZone _ _)).
    eexists. split; [reflexivity|]. cbn [unixSec nsec loc fst].
    split; [reflexivity|]. split; reflexivity.
Qed.

(** Witness of [ParseISOTimestamp_rollover]: "2006-13-01T24:00:60+00:00" is
    2007-01-02T00:01:00Z. *)
Lemma ParseISOTimestamp_rollover_witness :
  exists t,
    fst (@ParseISOTimestamp sampleLib "2006-13-01T24:00:60+00:00" UTC ∅) = Ok t
    /\ unixSec t = 1167696060
    /\ nsec t = 0
    /\ @zoneOffset sampleLib (loc t) (unixSec t) = 0.
Proof.
  exact (@ParseISOTimestamp_rollover sampleLib true false 2006 13 1 24 0 60 0 0
           UTC ∅ ltac:(lia) ltac:(lia) ltac:(lia) ltac:(lia) ltac:(lia)
           ltac:(lia) ltac:(lia) ltac:(lia) cacheSound_empty).
Defined.

(** ** White space around the input *)

Lemma blank_cases (b : Z) :
  blank b = true -> isAscii b = true /\ unicode_IsSpace b = true.
Proof. unfold blank. intros Hb. now apply andb_true_iff in Hb. Qed.

Lemma blanks_ascii (l : list Z) :
  forallb blank l = true -> forallb isAscii l = true.
Proof.
  induction l as [|b l IH]; [reflexivity|]. cbn [forallb]. intros Hb.
  apply andb_true_iff in Hb as [Hb Hl].
  destruct (blank_cases b Hb) as [-> _]. now rewrite IH.
Qed.

Lemma firstNonSpace_padded (lead rest : list Z) (b0 n i : Z) :
  forallb blank lead = true -> unicode_IsSpace b0 = false ->
  firstNonSpace (indexed i (lead ++ b0 :: rest)) n = i + lenZ lead.
Proof.
  intros Hl Hb. revert i. induction lead as [|b lead IH]; intros i.
  - unfold firstNonSpace. cbn [app indexed find snd]. rewrite Hb.
    cbn [negb fst]. change (lenZ (@nil Z)) with 0. lia.
  - cbn [forallb] in Hl. apply andb_true_iff in Hl as [Hb' Hl].
    destruct (blank_cases b Hb') as [_ Hsp].
    unfold firstNonSpace in *. cbn [app indexed find snd]. rewrite Hsp.
    cbn [negb]. rewrite (IH Hl (i + 1)).
    unfold lenZ. cbn [length]. lia.
Qed.

Lemma lastNonSpaceEnd_blank (trail : list Z) (i n acc : Z) :
  forallb blank trail = true ->
  lastNonSpaceEnd (indexed i trail) n acc = acc.
Proof.
  revert i. induction trail as [|b trail IH]; intros i Hb; [reflexivity|].
  cbn [forallb] in Hb. apply andb_true_iff in Hb as [Hb Ht].
  destruct (blank_cases b Hb) as [_ Hsp].
  cbn [indexed lastNonSpaceEnd snd]. rewrite Hsp. now apply IH.
Qed.

Lemma lastNonSpaceEnd_padded (xs trail : list Z) (bl i n acc : Z) :
  unicode_IsSpace bl = false -> forallb blank trail = true ->
  n = i + lenZ xs + 1 + lenZ trail ->
  lastNonSpaceEnd (indexed i (xs ++ bl :: trail)) n acc = i + lenZ xs + 1.
Proof.
  intros Hb Ht. revert i acc. induction xs as [|x xs IH]; intros i acc Hn.
  - change (lenZ (@nil Z)) with 0 in *. cbn [app indexed lastNonSpaceEnd snd].
    rewrite Hb. rewrite (lastNonSpaceEnd_blank trail (i + 1) n _ Ht).
    destruct trail as [|t trail]; cbn [indexed fst].
    + change (lenZ (@nil Z)) with 0 in Hn. lia.
    + lia.
  - cbn [app indexed lastNonSpaceEnd]. rewrite IH.
    + unfold lenZ. cbn [length]. lia.
    + unfold lenZ in *. cbn [length] in Hn. lia.
Qed.

(** [strings.TrimSpace] removes the ASCII white space around a text that
    begins and ends with other ASCII bytes. *)
Lemma TrimSpace_padded (lead body trail : list Z) :
  forallb blank lead = true -> forallb blank trail = true ->
  forallb isAscii body = true ->
  unicode_IsSpace (List.hd 0x20 body) = false ->
  unicode_IsSpace (List.last body 0x20) = false ->
  strings_TrimSpace (ofBytes (lead ++ body ++ trail)) = ofBytes body.
Proof.
  intros Hl Ht Ha Hfirst Hlast.
  assert (Hne : body <> []) by (intros ->; discriminate Hfirst).
  destruct (exists_last Hne) as (xs & bl & Hbody).
  assert (Hbl : unicode_IsSpace bl = false).
  { rewrite Hbody, List.last_last in Hlast. exact Hlast. }
  assert (Hasc : forallb isAscii (lead ++ body ++ trail) = true).
  { now rewrite !isAscii_app, (blanks_ascii lead Hl), Ha, (blanks_ascii trail Ht). }
  unfold strings_TrimSpace, range.
  rewrite (bytes_ofBytes _ Hasc), (rangeFrom_ascii _ 0 Hasc), len_ofBytes.
  assert (Hstart : firstNonSpace (indexed 0 (lead ++ body ++ trail))
                     (lenZ (lead ++ body ++ trail)) = lenZ lead).
  { destruct body as [|b0 rest]; [congruence|]. cbn [hd] in Hfirst.
    cbn [app]. now rewrite firstNonSpace_padded. }
  rewrite Hstart.
  assert (Hstop : lastNonSpaceEnd (indexed 0 (lead ++ body ++ trail))
                    (lenZ (lead ++ body ++ trail)) (lenZ lead)
                  = lenZ lead + lenZ body).
  { rewrite Hbody. rewrite <- (app_assoc xs [bl] trail). cbn [app].
    rewrite (app_assoc lead xs (bl :: trail)).
    rewrite lastNonSpaceEnd_padded; try assumption.
    - rewrite !lenZ_app. change (lenZ [bl]) with 1. lia.
    - rewrite !lenZ_app. unfold lenZ. cbn [length]. lia. }
  rewrite Hstop.
  replace (Z.to_nat (lenZ lead)) with (length lead) by (unfold lenZ; lia).
  replace (Z.to_nat (lenZ lead + lenZ body - lenZ lead)) with (length body)
    by (unfold lenZ; lia).
  apply substring_ofBytes.
Qed.

(** The four entry points ignore ASCII white space before and after the
    timestamp: the padded text is trimmed to the timestamp itself, and the
    call gives what it gives on the timestamp alone, with the same strategies
    tried and the same zone cache. *)
Theorem parseTimestamp_padding `{GoLib} (lead body trail : list Z)
  (location : Location) (isoOnly : bool) (c : zones) :
  forallb blank lead = true -> forallb blank trail = true ->
  forallb isAscii body = true ->
  unicode_IsSpace (List.hd 0x20 body) = false ->
  unicode_IsSpace (List.last body 0x20) = false ->
  strings_TrimSpace (ofBytes (lead ++ body ++ trail)) = ofBytes body
  /\ parseTimestamp (ofBytes (lead ++ body ++ trail)) location isoOnly c
     = parseTimestamp (ofBytes body) location isoOnly c.
Proof.
  intros Hl Ht Ha Hfirst Hlast.
  pose proof (TrimSpace_padded lead body trail Hl Ht Ha Hfirst Hlast) as Hpad.
  pose proof (TrimSpace_padded [] body [] eq_refl eq_refl Ha Hfirst Hlast)
    as Hid.
  cbn [app] in Hid. rewrite app_nil_r in Hid.
  split; [exact Hpad|]. unfold parseTimestamp. now rewrite Hpad, Hid.
Qed.

(** Witness of [parseTimestamp_padding]: "20060102" between a space and a
    tab on one side and a line feed on the other. *)
Lemma parseTimestamp_padding_witness :
  strings_TrimSpace (ofBytes ([32; 9] ++ bytes "20060102" ++ [10]))
  = "20060102"%string.
Proof.
  exact (proj1 (@parseTimestamp_padding sampleLib [32; 9] (bytes "20060102")
                  [10] UTC false ∅ eq_refl eq_refl eq_refl eq_refl eq_refl)).
Defined.

(** ** The fallback layouts *)

Section Fallback.
Context `{GoLib}.

Lemma tryFormats_first (pre post : list string) (layout s : string)
  (l : Location) (t : Time) :
  (forall f, List.In f pre -> time_ParseInLocation f s l = None) ->
  time_ParseInLocation layout s l = Some t ->
  tryFormats (pre ++ layout :: post) s l
  = (Some t, map (fun f => TryLayout f s) (pre ++ [layout])).
Proof.
  intros Hpre Hhit. induction pre as [|p pre IH].
  - cbn [app tryFormats map]. now rewrite Hhit.
  - cbn [app tryFormats map]. rewrite (Hpre p) by now left.
    rewrite IH; [reflexivity|]. intros f Hf. apply Hpre. now right.
Qed.

Lemma tryFormats_none (formats : list string) (s : string) (l : Location) :
  (forall f, List.In f formats -> time_ParseInLocation f s l = None) ->
  tryFormats formats s l = (None, map (fun f => TryLayout f s) formats).
Proof.
  intros Hall. induction formats as [|p formats IH]; [reflexivity|].
  cbn [tryFormats map]. rewrite (Hall p) by now left.
  rewrite IH; [reflexivity|]. intros f Hf. apply Hall. now right.
Qed.

(** An error of [ParseISOTimestamp] leaves the zone cache as it was. *)
Lemma ParseISOTimestamp_Err_cache (s : string) (l : Location) (c : zones)
  (e : Error) :
  fst (ParseISOTimestamp s l c) = Err e -> ParseISOTimestamp s l c = (Err e, c).
Proof.
  unfold ParseISOTimestamp. destruct (parseISOFields s) as [p | e' |].
  - destruct (pZone p); try discriminate.
    destruct (LocationFromOffset offsetSec c). discriminate.
  - cbn [fst]. now intros [= ->].
  - discriminate.
Qed.

End Fallback.

(** When the trimmed input is no numeric candidate and the ISO scanner
    rejects it, [ParseInLocation] tries the fallback layouts in the order of
    [nonISOTimeFormats], each on the trimmed input and in the location asked
    for: the first layout that parses gives the result and no later layout is
    tried; when none parses the call fails.  [ParseISOInLocation] on the same
    input fails after the ISO attempt and tries no layout.  The zone cache
    stays as it was. *)
Theorem fallback_layouts `{GoLib} (timeStr : string) (location : Location)
  (c : zones) (e : Error) :
  isTS (strings_TrimSpace timeStr) = false ->
  fst (ParseISOTimestamp (strings_TrimSpace timeStr) location c) = Err e ->
  let s := strings_TrimSpace timeStr in
  (forall pre layout post t,
     nonISOTimeFormats = pre ++ layout :: post ->
     (forall f, List.In f pre -> time_ParseInLocation f s location = None) ->
     time_ParseInLocation layout s location = Some t ->
     ParseInLocation timeStr location c
     = mkDispatched (Ok t) c
         (TryISO s :: map (fun f => TryLayout f s) (pre ++ [layout])))
  /\ ((forall f, List.In f nonISOTimeFormats ->
                 time_ParseInLocation f s location = None) ->
      ParseInLocation timeStr location c
      = mkDispatched (Err (NoFallbackFormatMatched s)) c
          (TryISO s :: map (fun f => TryLayout f s) nonISOTimeFormats))
  /\ ParseISOInLocation timeStr location c
     = mkDispatched (Err (ISOParseFailure s)) c [TryISO s].
Proof.
  intros Hts Hiso s. apply ParseISOTimestamp_Err_cache in Hiso.
  unfold ParseInLocation, ParseISOInLocation, parseTimestamp.
  fold s in Hts, Hiso |- *. rewrite Hts, Hiso. cbn [negb].
  unfold afterISO. rewrite Hts. split; [|split].
  - intros pre layout post t Hsplit Hpre Hhit.
    rewrite Hsplit, (tryFormats_first pre post layout s location t Hpre Hhit).
    reflexivity.
  - intros Hnone.
    rewrite (tryFormats_none nonISOTimeFormats s location Hnone). reflexivity.
  - reflexivity.
Qed.

(** Witness of [fallback_layouts]: an HTTP date, which the scanner rejects
    and the first layout parses. *)
Lemma fallback_layouts_witness :
  @ParseInLocation sampleLib "Mon, 02 Jan 2006 22:04:05 GMT" UTC ∅
  = mkDispatched (Ok (mkTime 1136239445 0 UTC)) ∅
      [TryISO "Mon, 02 Jan 2006 22:04:05 GMT";
       TryLayout "Mon, 02 Jan 2006 15:04:05 GMT"
         "Mon, 02 Jan 2006 22:04:05 GMT"].
Proof.
  edestruct (@fallback_layouts sampleLib "Mon, 02 Jan 2006 22:04:05 GMT" UTC ∅)
    as (Hfirst & _ & _).
  - reflexivity.
  - vm_compute. reflexivity.
  - exact (Hfirst [] _ _ _ eq_refl (fun f Hf => match Hf with end) eq_refl).
Defined.
